(** * afip.js: the electronic-billing and taxpayer-registry clients

    A shallow embedding of [src/Class/ElectronicBilling.js] and
    [src/Class/RegisterScopeFour.js].  The two classes are thin layers over
    a SOAP transport: they build parameter objects, merge an [Auth] block,
    call the transport, look for business errors in the answer and unwrap
    it.  They do so by mutating JavaScript objects that are shared between
    caller, request and response, so the embedding keeps an explicit object
    store and threads it, together with a trace of the calls made to the
    two external collaborators, through a state-and-exception monad. *)

From stdpp Require Import gmap strings list pretty.
From Stdlib Require Import ZArith Lia.

(** ** The fragment of JavaScript the two classes use *)

Module JS.

(** Numbers.  Only integer-valued numbers and [NaN] occur in the program
    (voucher numbers, sales points, error codes, compact dates); [Int z]
    stands for the double that equals [z], and where [z] is not itself a
    double it prints as the nearest one, as a literal would.  Fractions
    and infinities are outside the embedding. *)
Inductive number := Int (z : Z) | NaN.

Inductive value :=
  | VUndef
  | VNull
  | VBool (b : bool)
  | VNum (n : number)
  | VStr (s : string)
  | VRef (l : nat).

Global Instance number_eq_dec : EqDecision number.
Proof. solve_decision. Defined.

Global Instance value_eq_dec : EqDecision value.
Proof. solve_decision. Defined.

(** An object is its own enumerable properties; an array is an object whose
    elements sit under the keys "0", "1", ... and which answers [true] to
    [Array.isArray].  The program never reads [length]. *)
Record obj := Obj { is_array : bool; props : gmap string value }.

Abbreviation heap := (list obj).

(** A thrown value.  The program creates errors with [new Error(...)] and
    reads two properties of what it catches: [message] and [code]. *)
Record exn := Exn { message : string; code : value }.

Inductive result (A : Type) :=
  | Ok (a : A)
  | Throw (e : exn).
Arguments Ok {A} a.
Arguments Throw {A} e.

(** What the host supplies and the program only uses: the conversion of a
    string to a number (the operands of [-] and [+]) and the string an
    object converts to ([toString], template literals). *)
Class Engine := {
  StringToNumber : string → number;
  ObjectToString : heap → nat → result string
}.

(** Calls to the two collaborators, in the order they were made.  A
    transport call is recorded with the store as it was when the request
    left and as it was when the answer had arrived. *)
Inductive event :=
  | GetTA (service : string) (answer : result (value * value))
  | Soap (operation : string) (params tokenAndSign : value) (sent : heap)
         (answer : result value) (received : heap).

Record state (W : Type) := State {
  st_heap : heap;
  st_world : W;
  st_trace : list event
}.
Arguments State {W} _ _ _.
Arguments st_heap {W} _.
Arguments st_world {W} _.
Arguments st_trace {W} _.

(** *** The monad of an [async] method: state and exceptions *)

Definition M (W A : Type) : Type := state W → result A * state W.

Definition ret {W A} (a : A) : M W A := λ s, (Ok a, s).

Definition throw {W A} (e : exn) : M W A := λ s, (Throw e, s).

Definition bind {W A B} (m : M W A) (k : A → M W B) : M W B :=
  λ s, match m s with
       | (Ok a, s') => k a s'
       | (Throw e, s') => (Throw e, s')
       end.

(** [promise.catch(handler)] *)
Definition catch {W A} (m : M W A) (handler : exn → M W A) : M W A :=
  λ s, match m s with
       | (Ok a, s') => (Ok a, s')
       | (Throw e, s') => handler e s'
       end.

Declare Scope js_scope.
Delimit Scope js_scope with js.
Notation "x <- m ;; k" := (bind m (λ x, k))
  (at level 100, m at next level, right associativity) : js_scope.
Notation "m ;;; k" := (bind m (λ _, k))
  (at level 100, right associativity) : js_scope.
Open Scope js_scope.

Definition read_heap {W} : M W heap := λ s, (Ok (st_heap s), s).

Definition write_heap {W} (h : heap) : M W unit :=
  λ s, (Ok tt, State h (st_world s) (st_trace s)).

Definition lift_result {W A} (r : result A) : M W A := λ s, (r, s).

(** *** Values *)

Definition truthy (v : value) : bool :=
  match v with
  | VUndef | VNull => false
  | VBool b => b
  | VNum (Int z) => negb (Z.eqb z 0)
  | VNum NaN => false
  | VStr s => negb (String.eqb s "")
  | VRef _ => true
  end.

(** [a === b] *)
Definition strict_eq (a b : value) : bool :=
  match a, b with
  | VNum NaN, _ | _, VNum NaN => false
  | _, _ => bool_decide (a = b)
  end.

Definition TypeError (msg : string) : exn := Exn msg VUndef.

(** [new Error(message, options)]: the second argument is an options bag
    whose only recognised key is [cause]; nothing else of it reaches the
    error object, so the error has no [code]. *)
Definition new_Error (msg : string) (options : value) : exn := Exn msg VUndef.

(** The characters of a string primitive as index properties. *)
Definition string_props (s : string) : gmap string value :=
  list_to_map (imap (λ i c, (pretty i, VStr (String c ""))) (String.list_ascii_of_string s)).

(** The own enumerable properties of a value: what a property read finds
    and what [Object.assign] copies. *)
Definition own_props (h : heap) (v : value) : gmap string value :=
  match v with
  | VRef l => match h !! l with Some o => props o | None => ∅ end
  | VStr s => string_props s
  | _ => ∅
  end.

Definition hget (h : heap) (v : value) (k : string) : value :=
  default VUndef (own_props h v !! k).

Definition isArray (h : heap) (v : value) : bool :=
  match v with
  | VRef l => match h !! l with Some o => is_array o | None => false end
  | _ => false
  end.

Definition type_of (h : heap) (v : value) : string :=
  match v with
  | VUndef => "undefined"
  | VNull | VRef _ => "object"
  | VBool _ => "boolean"
  | VNum _ => "number"
  | VStr _ => "string"
  end.

(** *** Numbers *)

(** The integer [z] rounded to the nearest double (ties to even): exact up
    to [2^53], a multiple of the unit in the last place beyond. *)
Definition round53 (z : Z) : Z :=
  let a := Z.abs z in
  if (a <=? 2 ^ 53)%Z then z
  else
    let ulp := (2 ^ (Z.log2 a - 52))%Z in
    let q := (a / ulp)%Z in
    let r := (a mod ulp)%Z in
    let q' := if (2 * r <? ulp)%Z then q
              else if (ulp <? 2 * r)%Z then (q + 1)%Z
              else if Z.even q then q else (q + 1)%Z in
    (Z.sgn z * q' * ulp)%Z.

(** The number of digits of [a > 0]. *)
Definition decimal_length (a : Z) : Z := Z.of_nat (String.length (pretty a)).

(** The shortest decimal that reads back as the double [a > 0], which has
    [d] digits.  With [k] digits to choose, the two multiples of
    [10^(d-k)] around [a] are tried, the closer one first (on a tie the
    one with an even last digit); [k] grows until one of them fits, which
    happens with 17 digits at the latest. *)
Fixpoint shortest_decimal (fuel : nat) (k d a : Z) : Z :=
  match fuel with
  | O => a
  | S fuel' =>
      let unit := (10 ^ (d - k))%Z in
      let lo := (a / unit * unit)%Z in
      let hi := (lo + unit)%Z in
      let fits v := (round53 v =? a)%Z in
      let lo_first := if (a - lo <? hi - a)%Z then true
                      else if (hi - a <? a - lo)%Z then false
                      else Z.even (a / unit) in
      if fits lo && (lo_first || negb (fits hi)) then lo
      else if fits hi then hi
      else shortest_decimal fuel' (k + 1)%Z d a
  end.

(** [v] without its final zeros. *)
Fixpoint strip_zeros (fuel : nat) (v : Z) : Z :=
  match fuel with
  | O => v
  | S fuel' => if (v mod 10 =? 0)%Z then strip_zeros fuel' (v / 10)%Z else v
  end.

(** The digits of the shortest decimal, followed by its zeros when there
    are at most 21 digits in all; otherwise the first digit, the other
    digits after a point when there are any, and the exponent. *)
Definition positive_to_string (a : Z) : string :=
  let v := shortest_decimal 17 1 (decimal_length a) a in
  let n := decimal_length v in
  if (n <=? 21)%Z then pretty v
  else
    match pretty (strip_zeros (Z.to_nat n) v) with
    | String c EmptyString => String c ("e+" +:+ pretty (n - 1)%Z)
    | String c rest => String c ("." +:+ rest +:+ "e+" +:+ pretty (n - 1)%Z)
    | EmptyString => EmptyString
    end.

(** [String(n)].  JavaScript prints a number with the fewest digits that
    read back as the same double, [2^64] as "18446744073709552000", and
    from [10^21] on in exponent form: "1e+21", "1.1805916207174113e+21". *)
Definition number_to_string (n : number) : string :=
  match n with
  | Int z =>
      let x := round53 z in
      if (x =? 0)%Z then "0"
      else if (x <? 0)%Z then "-" +:+ positive_to_string (- x)
      else positive_to_string x
  | NaN => "NaN"
  end.

(** [String(v)] for a primitive, and the host's answer for an object. *)
Definition ToString `{Engine} (h : heap) (v : value) : result string :=
  match v with
  | VUndef => Ok "undefined"
  | VNull => Ok "null"
  | VBool true => Ok "true"
  | VBool false => Ok "false"
  | VNum n => Ok (number_to_string n)
  | VStr s => Ok s
  | VRef l => ObjectToString h l
  end.

Definition ToNumber `{Engine} (h : heap) (v : value) : result number :=
  match v with
  | VUndef => Ok NaN
  | VNull => Ok (Int 0)
  | VBool b => Ok (Int (if b then 1 else 0))
  | VNum n => Ok n
  | VStr s => Ok (StringToNumber s)
  | VRef l => match ObjectToString h l with
              | Ok s => Ok (StringToNumber s)
              | Throw e => Throw e
              end
  end.

Definition number_sub (a b : number) : number :=
  match a, b with
  | Int x, Int y => Int (round53 (x - y))
  | _, _ => NaN
  end.

Definition number_add (a b : number) : number :=
  match a, b with
  | Int x, Int y => Int (round53 (x + y))
  | _, _ => NaN
  end.

(** [a - b] on the store [h] *)
Definition subtract `{Engine} (h : heap) (a b : value) : result value :=
  match ToNumber h a with
  | Throw e => Throw e
  | Ok x => match ToNumber h b with
            | Throw e => Throw e
            | Ok y => Ok (VNum (number_sub x y))
            end
  end.

(** An operand of [+] made primitive: an object becomes its string. *)
Definition ToPrimitive `{Engine} (h : heap) (v : value) : result value :=
  match v with
  | VRef l => match ObjectToString h l with
              | Ok s => Ok (VStr s)
              | Throw e => Throw e
              end
  | _ => Ok v
  end.

Definition is_string (v : value) : bool :=
  match v with VStr _ => true | _ => false end.

(** [a + b] on the store [h]: concatenation as soon as one operand is a
    string, addition of numbers otherwise. *)
Definition add `{Engine} (h : heap) (a b : value) : result value :=
  match ToPrimitive h a with
  | Throw e => Throw e
  | Ok pa =>
    match ToPrimitive h b with
    | Throw e => Throw e
    | Ok pb =>
      if is_string pa || is_string pb then
        match ToString h pa, ToString h pb with
        | Ok x, Ok y => Ok (VStr (x +:+ y))
        | Throw e, _ | _, Throw e => Throw e
        end
      else
        match ToNumber h pa, ToNumber h pb with
        | Ok x, Ok y => Ok (VNum (number_add x y))
        | Throw e, _ | _, Throw e => Throw e
        end
    end
  end.

(** An expression that only reads the store. *)
Definition reading {W A} (f : heap → result A) : M W A := λ s, (f (st_heap s), s).

Definition js_sub `{Engine} {W} (a b : value) : M W value := reading (λ h, subtract h a b).

Definition js_add `{Engine} {W} (a b : value) : M W value := reading (λ h, add h a b).

(** *** Objects in the store *)

Section store.
Context {W : Type}.

Definition nullish_name (v : value) : string :=
  match v with VNull => "null" | _ => "undefined" end.

Definition primitive_to_string (v : value) : string :=
  match v with
  | VBool true => "true"
  | VBool false => "false"
  | VNum n => number_to_string n
  | VStr s => s
  | _ => ""
  end.

(** [v[k]] and [v.k] *)
Definition get (v : value) (k : string) : M W value :=
  λ s, match v with
       | VUndef | VNull =>
           (Throw (TypeError ("Cannot read properties of " +:+ nullish_name v
                                +:+ " (reading '" +:+ k +:+ "')")), s)
       | _ => (Ok (hget (st_heap s) v k), s)
       end.

Definition hset (h : heap) (l : nat) (k : string) (x : value) : heap :=
  match h !! l with
  | Some o => <[l := Obj (is_array o) (<[k := x]> (props o))]> h
  | None => h
  end.

Definition hdelete (h : heap) (l : nat) (k : string) : heap :=
  match h !! l with
  | Some o => <[l := Obj (is_array o) (delete k (props o))]> h
  | None => h
  end.

(** [v[k] = x].  A class body is strict code: assigning to a property of
    a primitive throws. *)
Definition set (v : value) (k : string) (x : value) : M W unit :=
  λ s, match v with
       | VRef l => (Ok tt, State (hset (st_heap s) l k x) (st_world s) (st_trace s))
       | VUndef | VNull =>
           (Throw (TypeError ("Cannot set properties of " +:+ nullish_name v
                                +:+ " (setting '" +:+ k +:+ "')")), s)
       | _ =>
           (Throw (TypeError ("Cannot create property '" +:+ k +:+ "' on "
                                +:+ type_of (st_heap s) v +:+ " '"
                                +:+ primitive_to_string v +:+ "'")), s)
       end.

(** [delete v[k]], for [v] an object (the program deletes only from the
    copy it has just made). *)
Definition delete_prop (v : value) (k : string) : M W unit :=
  λ s, match v with
       | VRef l => (Ok tt, State (hdelete (st_heap s) l k) (st_world s) (st_trace s))
       | _ => (Ok tt, s)
       end.

(** An object literal [{ k1: v1, ... }]. *)
Definition new_object (fields : list (string * value)) : M W value :=
  λ s, (Ok (VRef (length (st_heap s))),
        State (st_heap s ++ [Obj false (list_to_map fields)]) (st_world s) (st_trace s)).

Definition Array_isArray (v : value) : M W bool :=
  λ s, (Ok (isArray (st_heap s) v), s).

(** [Object.assign(target, source)]: the own enumerable properties of
    [source] (none for [undefined], [null], a number or a boolean) are
    written over those of [target], which is returned; a primitive target
    is boxed first. *)
Definition Object_assign (target source : value) : M W value :=
  λ s, let h := st_heap s in
       match target with
       | VUndef | VNull =>
           (Throw (TypeError "Cannot convert undefined or null to object"), s)
       | VRef l =>
           match h !! l with
           | Some o =>
               (Ok target,
                State (<[l := Obj (is_array o) (own_props h source ∪ props o)]> h)
                      (st_world s) (st_trace s))
           | None => (Ok target, s)
           end
       | _ =>
           (Ok (VRef (length h)),
            State (h ++ [Obj false (own_props h source ∪ own_props h target)])
                  (st_world s) (st_trace s))
       end.

End store.

(** *** Strings *)

Definition is_digit (c : Ascii.ascii) : bool :=
  let n := Ascii.nat_of_ascii c in (48 <=? n)%nat && (n <=? 57)%nat.

(** The first [n] characters of [s] exist and are decimal digits. *)
Fixpoint digits (n : nat) (s : string) : bool :=
  match n with
  | O => true
  | S n' => match s with
            | String c r => is_digit c && digits n' r
            | EmptyString => false
            end
  end.

Fixpoint drop_chars (n : nat) (s : string) : string :=
  match n, s with
  | S n', String _ r => drop_chars n' r
  | _, _ => s
  end.

(** [s.replace(/(\d{4})(\d{2})(\d{2})/, (string, year, month, day) =>
    `${year}-${month}-${day}`)]: the leftmost run of eight digits, if there
    is one, is rewritten; the rest of the string is kept. *)
Fixpoint replace_yyyymmdd (s : string) : string :=
  match s with
  | EmptyString => EmptyString
  | String c r =>
      if digits 8 s then
        String.substring 0 4 s +:+ "-" +:+ String.substring 4 2 s +:+ "-"
          +:+ String.substring 6 2 s +:+ drop_chars 8 s
      else String c (replace_yyyymmdd r)
  end.

(** [s.indexOf(sub) !== -1] *)
Definition includes (sub s : string) : bool :=
  match String.index 0 sub s with Some _ => true | None => false end.

#[local] Set Warnings "-register-all".

(** *** Response trees

    What a SOAP transport hands back is a freshly parsed tree.  It enters
    the store as new objects. *)
Inductive tree :=
  | TUndef
  | TNull
  | TBool (b : bool)
  | TNum (n : number)
  | TStr (s : string)
  | TObj (fields : list (string * tree))
  | TArr (items : list tree).

Fixpoint alloc_tree (t : tree) (h : heap) : value * heap :=
  match t with
  | TUndef => (VUndef, h)
  | TNull => (VNull, h)
  | TBool b => (VBool b, h)
  | TNum n => (VNum n, h)
  | TStr s => (VStr s, h)
  | TObj fields =>
      let '(m, h1) :=
        (fix alloc_fields (fs : list (string * tree)) (h : heap)
           : gmap string value * heap :=
           match fs with
           | [] => (∅, h)
           | (k, t) :: fs' =>
               let '(v, h1) := alloc_tree t h in
               let '(m, h2) := alloc_fields fs' h1 in
               (<[k := v]> m, h2)
           end) fields h in
      (VRef (length h1), h1 ++ [Obj false m])
  | TArr items =>
      let '(m, h1) :=
        (fix alloc_items (i : nat) (ts : list tree) (h : heap)
           : gmap string value * heap :=
           match ts with
           | [] => (∅, h)
           | t :: ts' =>
               let '(v, h1) := alloc_tree t h in
               let '(m, h2) := alloc_items (S i) ts' h1 in
               (<[pretty i := v]> m, h2)
           end) O items h in
      (VRef (length h1), h1 ++ [Obj true m])
  end.

(** Induction on a tree, with the hypothesis available for every field
    and every item. *)
Section tree_induction.
Variable P : tree → Prop.
Hypothesis PUndef : P TUndef.
Hypothesis PNull : P TNull.
Hypothesis PBool : ∀ b, P (TBool b).
Hypothesis PNum : ∀ n, P (TNum n).
Hypothesis PStr : ∀ s, P (TStr s).
Hypothesis PObj : ∀ fs, Forall (λ kt, P kt.2) fs → P (TObj fs).
Hypothesis PArr : ∀ ts, Forall P ts → P (TArr ts).

Fixpoint tree_nested_ind (t : tree) : P t :=
  match t with
  | TUndef => PUndef
  | TNull => PNull
  | TBool b => PBool b
  | TNum n => PNum n
  | TStr s => PStr s
  | TObj fs =>
      PObj fs ((fix go (fs : list (string * tree)) : Forall (λ kt, P kt.2) fs :=
                  match fs with
                  | [] => @List.Forall_nil _ _
                  | kt :: fs' =>
                      @List.Forall_cons _ (λ kt, P kt.2) kt fs' (tree_nested_ind kt.2) (go fs')
                  end) fs)
  | TArr ts =>
      PArr ts ((fix go (ts : list tree) : Forall P ts :=
                  match ts with
                  | [] => @List.Forall_nil _ _
                  | t :: ts' => @List.Forall_cons _ P t ts' (tree_nested_ind t) (go ts')
                  end) ts)
  end.

End tree_induction.

End JS.

Import JS.

(** ** The collaborators

    [AfipWebService] (the base class) and the [afip] object are not part of
    the two source files; they are the SoapTransport and the AuthDelegate
    of the specification. *)

(** The ticket service behind [afip.GetServiceTA(service)]: it answers with
    a token and a sign, or fails.  [W] is whatever the outside world
    remembers between calls. *)
Abbreviation AuthDelegate W := (W → string → result (value * value) * W)%type.

(** The transport behind [super.executeRequest(operation, params,
    tokenAndSign)]: it reads the parameter tree from the store and answers
    with a parsed response tree, or fails. *)
Abbreviation SoapTransport W :=
  (W → heap → string → value → value → result tree * W)%type.

Section collaborators.
Context {W : Type}.

(** Modelled from the spec: [afip.GetServiceTA] is the AuthDelegate,
    [getCredential(serviceName) → {token, sign}], asynchronous, may fail.
    The call is recorded in the trace. *)
Definition GetServiceTA (delegate : AuthDelegate W) (service : string)
  : M W (value * value) :=
  λ s, let '(answer, w) := delegate (st_world s) service in
       (answer, State (st_heap s) w (st_trace s ++ [GetTA service answer])).

(** Modelled from the spec: [AfipWebService.executeRequest] is the
    SoapTransport, [execute(operationName, parameterTree) → responseTree],
    asynchronous, fails with a transport-level error.  The response tree
    becomes new objects of the store; the call is recorded in the trace. *)
Definition super_executeRequest (transport : SoapTransport W)
    (operation : string) (params tokenAndSign : value) : M W value :=
  λ s, let h := st_heap s in
       let '(answer, w) := transport (st_world s) h operation params tokenAndSign in
       match answer with
       | Ok t =>
           let '(v, h') := alloc_tree t h in
           (Ok v, State h' w (st_trace s ++ [Soap operation params tokenAndSign h (Ok v) h']))
       | Throw e =>
           (Throw e, State h w (st_trace s ++ [Soap operation params tokenAndSign h (Throw e) h]))
       end.

End collaborators.

(** ** src/Class/ElectronicBilling.js *)

Module ElectronicBilling.
Section ElectronicBilling.
Context `{Engine} {W : Type}.

(** [this.afip.CUIT], [this.afip.GetServiceTA] and the transport the
    constructor configures ([wsfe], SOAP 1.2). *)
Variable CUIT : value.
Variable delegate : AuthDelegate W.
Variable transport : SoapTransport W.

(** [formatDate(date)] *)
Definition formatDate (date : value) : M W value :=
  reading (λ h,
    match date with
    | VUndef | VNull =>
        Throw (TypeError ("Cannot read properties of " +:+ nullish_name date
                            +:+ " (reading 'toString')"))
    | _ => match ToString h date with
           | Ok str => Ok (VStr (replace_yyyymmdd str))
           | Throw e => Throw e
           end
    end).

(** [getWSInitialRequest(operation, tokenAndSign)] *)
Definition getWSInitialRequest (operation : string) (tokenAndSign : value)
  : M W value :=
  if String.eqb operation "FEDummy" then new_object []
  else
    credential <- (if truthy tokenAndSign
                   then token <- get tokenAndSign "token" ;;
                        sign <- get tokenAndSign "sign" ;;
                        ret (token, sign)
                   else GetServiceTA delegate "ws_sr_constancia_inscripcion") ;;
    auth <- new_object [("Token", credential.1); ("Sign", credential.2); ("Cuit", CUIT)] ;;
    new_object [("Auth", auth)].

(** [`(${a}) ${b}`] *)
Definition error_text (a b : value) : M W string :=
  reading (λ h,
    match ToString h a with
    | Throw e => Throw e
    | Ok x => match ToString h b with
              | Throw e => Throw e
              | Ok y => Ok ("(" +:+ x +:+ ") " +:+ y)
              end
    end).

(** [_checkErrors(operation, results)] *)
Definition _checkErrors (operation : string) (results : value) : M W unit :=
  res <- get results (operation +:+ "Result") ;;
  (if String.eqb operation "FECAESolicitar"
   then FeDetResp <- get res "FeDetResp" ;;
        if truthy FeDetResp
        then (detail <- get FeDetResp "FECAEDetResponse" ;;
              isArr <- Array_isArray detail ;;
              if isArr
              then first <- get detail "0" ;;
                   FeDetResp <- get res "FeDetResp" ;;
                   set FeDetResp "FECAEDetResponse" first
              else ret tt) ;;;
             FeDetResp <- get res "FeDetResp" ;;
             detail <- get FeDetResp "FECAEDetResponse" ;;
             Observaciones <- get detail "Observaciones" ;;
             if truthy Observaciones
             then FeDetResp <- get res "FeDetResp" ;;
                  detail <- get FeDetResp "FECAEDetResponse" ;;
                  Resultado <- get detail "Resultado" ;;
                  if negb (strict_eq Resultado (VStr "A"))
                  then FeDetResp <- get res "FeDetResp" ;;
                       detail <- get FeDetResp "FECAEDetResponse" ;;
                       Observaciones <- get detail "Observaciones" ;;
                       Obs <- get Observaciones "Obs" ;;
                       Errors <- new_object [("Err", Obs)] ;;
                       set res "Errors" Errors
                  else ret tt
             else ret tt
        else ret tt
   else ret tt) ;;;
  Errors <- get res "Errors" ;;
  if truthy Errors
  then Errors <- get res "Errors" ;;
       Err <- get Errors "Err" ;;
       isArr <- Array_isArray Err ;;
       err <- (if isArr
               then Errors <- get res "Errors" ;;
                    Err <- get Errors "Err" ;;
                    get Err "0"
               else Errors <- get res "Errors" ;;
                    get Errors "Err") ;;
       Code <- get err "Code" ;;
       Msg0 <- get err "Msg" ;;
       text <- error_text Code Msg0 ;;
       Code' <- get err "Code" ;;
       throw (new_Error text Code')
  else ret tt.

(** [executeRequest(operation, params = {}, tokenAndSign)] *)
Definition executeRequest (operation : string) (params tokenAndSign : value)
  : M W value :=
  params <- (if bool_decide (params = VUndef) then new_object [] else ret params) ;;
  initial <- getWSInitialRequest operation tokenAndSign ;;
  Object_assign params initial ;;;
  results <- super_executeRequest transport operation params tokenAndSign ;;
  _checkErrors operation results ;;;
  get results (operation +:+ "Result").

(** [getLastVoucher(salesPoint, type, tokenAndSign)] *)
Definition getLastVoucher (salesPoint type tokenAndSign : value) : M W value :=
  req <- new_object [("PtoVta", salesPoint); ("CbteTipo", type)] ;;
  result <- executeRequest "FECompUltimoAutorizado" req tokenAndSign ;;
  get result "CbteNro".

(** [if (data[plural]) data[plural] = { singular: data[plural] };] *)
Definition wrap (data : value) (plural singular : string) : M W unit :=
  field <- get data plural ;;
  if truthy field
  then field <- get data plural ;;
       wrapper <- new_object [(singular, field)] ;;
       set data plural wrapper
  else ret tt.

(** [createVoucher(data, returnResponse = false, tokenAndSign)] *)
Definition createVoucher (data returnResponse tokenAndSign : value) : M W value :=
  let returnResponse :=
    if bool_decide (returnResponse = VUndef) then VBool false else returnResponse in
  tokenAndSign <- get data "token" ;;
  empty <- new_object [] ;;
  data <- Object_assign empty data ;;
  CbteHasta <- get data "CbteHasta" ;;
  CbteDesde <- get data "CbteDesde" ;;
  difference <- js_sub CbteHasta CbteDesde ;;
  CantReg <- js_add difference (VNum (Int 1)) ;;
  PtoVta <- get data "PtoVta" ;;
  CbteTipo <- get data "CbteTipo" ;;
  FeCabReq <- new_object [("CantReg", CantReg); ("PtoVta", PtoVta); ("CbteTipo", CbteTipo)] ;;
  FeDetReq <- new_object [("FECAEDetRequest", data)] ;;
  FeCAEReq <- new_object [("FeCabReq", FeCabReq); ("FeDetReq", FeDetReq)] ;;
  req <- new_object [("FeCAEReq", FeCAEReq)] ;;
  delete_prop data "CantReg" ;;;
  delete_prop data "PtoVta" ;;;
  delete_prop data "CbteTipo" ;;;
  wrap data "Tributos" "Tributo" ;;;
  wrap data "Iva" "AlicIva" ;;;
  wrap data "CbtesAsoc" "CbteAsoc" ;;;
  wrap data "Compradores" "Comprador" ;;;
  wrap data "Opcionales" "Opcional" ;;;
  results <- executeRequest "FECAESolicitar" req tokenAndSign ;;
  if strict_eq returnResponse (VBool true)
  then ret results
  else
    FeDetResp <- get results "FeDetResp" ;;
    detail <- get FeDetResp "FECAEDetResponse" ;;
    isArr <- Array_isArray detail ;;
    (if isArr
     then FeDetResp <- get results "FeDetResp" ;;
          detail <- get FeDetResp "FECAEDetResponse" ;;
          first <- get detail "0" ;;
          FeDetResp <- get results "FeDetResp" ;;
          set FeDetResp "FECAEDetResponse" first
     else ret tt) ;;;
    FeDetResp <- get results "FeDetResp" ;;
    detail <- get FeDetResp "FECAEDetResponse" ;;
    CAE <- get detail "CAE" ;;
    FeDetResp <- get results "FeDetResp" ;;
    detail <- get FeDetResp "FECAEDetResponse" ;;
    CAEFchVto <- get detail "CAEFchVto" ;;
    CAEFchVto <- formatDate CAEFchVto ;;
    new_object [("CAE", CAE); ("CAEFchVto", CAEFchVto)].

(** [createNextVoucher(data, tokenAndSign)] *)
Definition createNextVoucher (data tokenAndSign : value) : M W value :=
  PtoVta <- get data "PtoVta" ;;
  CbteTipo <- get data "CbteTipo" ;;
  lastVoucher <- getLastVoucher PtoVta CbteTipo VUndef ;;
  voucherNumber <- js_add lastVoucher (VNum (Int 1)) ;;
  set data "CbteDesde" voucherNumber ;;;
  set data "CbteHasta" voucherNumber ;;;
  res <- createVoucher data tokenAndSign VUndef ;;
  set res "voucherNumber" voucherNumber ;;;
  ret res.

(** [getVoucherInfo(number, salesPoint, type, tokenAndSign)] *)
Definition getVoucherInfo (number salesPoint type tokenAndSign : value) : M W value :=
  FeCompConsReq <- new_object [("CbteNro", number); ("PtoVta", salesPoint); ("CbteTipo", type)] ;;
  req <- new_object [("FeCompConsReq", FeCompConsReq)] ;;
  result <- catch (executeRequest "FECompConsultar" req tokenAndSign)
                  (λ err, if strict_eq (code err) (VNum (Int 602))
                          then ret VNull
                          else throw err) ;;
  get result "ResultGet".

(** [createCAEA(period, fortnight, tokenAndSign)] *)
Definition createCAEA (period fortnight tokenAndSign : value) : M W value :=
  req <- new_object [("Periodo", period); ("Orden", fortnight)] ;;
  result <- executeRequest "FECAEASolicitar" req tokenAndSign ;;
  get result "ResultGet".

(** [getCAEA(period, fortnight, tokenAndSign)] *)
Definition getCAEA (period fortnight tokenAndSign : value) : M W value :=
  req <- new_object [("Periodo", period); ("Orden", fortnight)] ;;
  result <- executeRequest "FECAEAConsultar" req tokenAndSign ;;
  get result "ResultGet".

(** The reference-data getters all read
    [(await this.executeRequest(operation, undefined, tokenAndSign)).ResultGet.field]. *)
Definition reference_data (operation field : string) (tokenAndSign : value)
  : M W value :=
  result <- executeRequest operation VUndef tokenAndSign ;;
  ResultGet <- get result "ResultGet" ;;
  get ResultGet field.

Definition getSalesPoints := reference_data "FEParamGetPtosVenta" "PtoVenta".
Definition getVoucherTypes := reference_data "FEParamGetTiposCbte" "CbteTipo".
Definition getConceptTypes := reference_data "FEParamGetTiposConcepto" "ConceptoTipo".
Definition getDocumentTypes := reference_data "FEParamGetTiposDoc" "DocTipo".
Definition getAliquotTypes := reference_data "FEParamGetTiposIva" "IvaTipo".
Definition getCurrenciesTypes := reference_data "FEParamGetTiposMonedas" "Moneda".
Definition getOptionsTypes := reference_data "FEParamGetTiposOpcional" "OpcionalTipo".
Definition getTaxTypes := reference_data "FEParamGetTiposTributos" "TributoTipo".

(** [getServerStatus(tokenAndSign)] *)
Definition getServerStatus (tokenAndSign : value) : M W value :=
  executeRequest "FEDummy" VUndef tokenAndSign.

End ElectronicBilling.
End ElectronicBilling.

(** ** src/Class/RegisterScopeFour.js *)

Module RegisterScopeFour.
Section RegisterScopeFour.
Context `{Engine} {W : Type}.

(** [this.afip.CUIT], [this.afip.GetServiceTA] and the transport the
    constructor configures ([ws_sr_padron_a4], SOAP 1.1). *)
Variable CUIT : value.
Variable delegate : AuthDelegate W.
Variable transport : SoapTransport W.

(** [executeRequest(operation, params = {})] *)
Definition executeRequest (operation : string) (params : value) : M W value :=
  params <- (if bool_decide (params = VUndef) then new_object [] else ret params) ;;
  results <- super_executeRequest transport operation params VUndef ;;
  get results (if String.eqb operation "getPersona" then "personaReturn" else "return").

(** [getServerStatus()] *)
Definition getServerStatus : M W value := executeRequest "dummy" VUndef.

(** [getTaxpayerDetails(identifier, tokenAndSign)] *)
Definition getTaxpayerDetails (identifier tokenAndSign : value) : M W value :=
  credential <- (if truthy tokenAndSign
                 then token <- get tokenAndSign "token" ;;
                      sign <- get tokenAndSign "sign" ;;
                      ret (token, sign)
                 else GetServiceTA delegate "ws_sr_padron_a4") ;;
  params <- new_object [("token", credential.1); ("sign", credential.2);
                        ("cuitRepresentada", CUIT); ("idPersona", identifier)] ;;
  catch (res <- executeRequest "getPersona" params ;; get res "persona")
        (λ err, if includes "No existe" (message err)
                then ret VNull
                else throw err).

End RegisterScopeFour.
End RegisterScopeFour.

(** ** Vocabulary of the statements

    Nothing below is program text: these are the notions the lemmas and
    theorems are phrased with. *)

Definition nullish (v : value) : bool :=
  match v with VUndef | VNull => true | _ => false end.

(** [Array.isArray(v) ? v[0] : v], the idiom by which the program turns
    "one element or an array of them" into one element. *)
Definition first_if_array (h : heap) (v : value) : value :=
  if isArray h v then hget h v "0" else v.

(** The store once the detail section under the [FeDetResp] object at
    [lfd] has been reduced to its first element, if it was an array. *)
Definition collapse_detail (h : heap) (lfd : nat) : heap :=
  let raw := hget h (VRef lfd) "FECAEDetResponse" in
  if isArray h raw then hset h lfd "FECAEDetResponse" (hget h raw "0") else h.

(** [yyyymmdd] with a hyphen after the fourth and after the sixth
    character. *)
Definition yyyy_mm_dd (s : string) : string :=
  String.substring 0 4 s +:+ "-" +:+ String.substring 4 2 s +:+ "-" +:+ String.substring 6 2 s.

(** From location [n] on, the store only refers to itself: every
    reference held by an object at [n] or later points at [n] or later,
    and to an object that exists. *)
Definition closed (n : nat) (h : heap) : Prop :=
  ∀ (l : nat) o k (l' : nat),
    n ≤ l → h !! l = Some o → props o !! k = Some (VRef l') → n ≤ l' ∧ l' < length h.

Definition in_region (n : nat) (h : heap) (v : value) : Prop :=
  ∀ l : nat, v = VRef l → n ≤ l ∧ l < length h.

(** The parts of a recorded transport call. *)
Definition sent_params (ev : event) : value :=
  match ev with Soap _ params _ _ _ _ => params | _ => VUndef end.

Definition sent_token (ev : event) : value :=
  match ev with Soap _ _ token _ _ _ => token | _ => VUndef end.

Definition sent_heap (ev : event) : heap :=
  match ev with Soap _ _ _ hs _ _ => hs | _ => [] end.

Definition answer_of (ev : event) : result value :=
  match ev with Soap _ _ _ _ answer _ => answer | _ => Ok VUndef end.

Definition received_heap (ev : event) : heap :=
  match ev with Soap _ _ _ _ _ hr => hr | _ => [] end.

(** The services the delegate was asked about, in order. *)
Definition services_asked (tr : list event) : list string :=
  omap (λ ev, match ev with GetTA service _ => Some service | _ => None end) tr.

Definition last_event {W} (s : state W) : event :=
  default (GetTA "" (Ok (VUndef, VUndef))) (last (st_trace s)).

Section vocabulary.
Context `{Engine} {W : Type}.

(** Weakest precondition of a method body. *)
Definition wp {A} (m : M W A) (Q : result A → state W → Prop) (s : state W) : Prop :=
  Q (m s).1 (m s).2.

(** [ev] is one of the calls made between the states [s] and [s'] of a
    run, respectively the last of them. *)
Definition exchanged (s s' : state W) (ev : event) : Prop :=
  ∃ evs, st_trace s' = st_trace s ++ evs ∧ ev ∈ evs.

Definition last_exchanged (s s' : state W) (ev : event) : Prop :=
  ∃ evs, st_trace s' = st_trace s ++ evs ∧ last evs = Some ev.

(** No condition on what a computation hands back. *)
Definition anything {A} : heap → A → Prop := λ _ _, True.

(** A computation that talks to neither collaborator. *)
Definition quiet {A} (m : M W A) : Prop :=
  ∀ s, st_trace (m s).2 = st_trace s ∧ st_world (m s).2 = st_world s.

(** A computation that never shrinks the store. *)
Definition growing {A} (m : M W A) : Prop :=
  ∀ s, length (st_heap s) ≤ length (st_heap (m s).2).

(** A computation that works inside the part of the store from [n] on:
    provided that part is closed and the values [vs] it is handed lie in
    it, every object below [n] is left alone, the part stays closed, and
    what is handed back satisfies [post]. *)
Definition confined {A} (n : nat) (vs : list value) (m : M W A)
    (post : heap → A → Prop) : Prop :=
  ∀ s, n ≤ length (st_heap s) → closed n (st_heap s) →
    Forall (in_region n (st_heap s)) vs →
    let s' := (m s).2 in
    (∀ l : nat, l < n → st_heap s' !! l = st_heap s !! l)
    ∧ length (st_heap s) ≤ length (st_heap s')
    ∧ closed n (st_heap s')
    ∧ (∀ a, (m s).1 = Ok a → post (st_heap s') a).

(** The answer [results] to [FECAESolicitar], in the store [hr], has no
    error list and has [raw] as its detail section. *)
Definition detail_section (hr : heap) (results raw : value) : Prop :=
  ∃ lres lfd : nat,
    hget hr results "FECAESolicitarResult" = VRef lres
    ∧ hget hr (VRef lres) "FeDetResp" = VRef lfd
    ∧ hget hr (VRef lfd) "FECAEDetResponse" = raw
    ∧ truthy (hget hr (VRef lres) "Errors") = false.

(** [element] is one detail element, not an array of them, that the check
    lets through, with authorisation code [cae] and an expiry date that
    prints as [str]. *)
Definition accepted (hr : heap) (element cae : value) (str : string) : Prop :=
  isArray hr element = false
  ∧ truthy (hget hr element "Observaciones")
      && negb (strict_eq (hget hr element "Resultado") (VStr "A")) = false
  ∧ hget hr element "CAE" = cae
  ∧ nullish (hget hr element "CAEFchVto") = false
  ∧ ∀ h', ToString h' (hget hr element "CAEFchVto") = Ok str.

(** The effect of [if (data[plural]) data[plural] = { singular:
    data[plural] }] on the store, for [data] the object at [c]. *)
Definition wrap_heap (c : nat) (plural singular : string) (h : heap) : heap :=
  let field := hget h (VRef c) plural in
  if truthy field
  then hset (h ++ [Obj false (list_to_map [(singular, field)])]) c plural (VRef (length h))
  else h.

(** The plural-named fields of a voucher and the element each is wrapped
    under, in the order [createVoucher] treats them. *)
Definition plural_fields : list (string * string) :=
  [("Tributos", "Tributo"); ("Iva", "AlicIva"); ("CbtesAsoc", "CbteAsoc");
   ("Compradores", "Comprador"); ("Opcionales", "Opcional")].

Definition wrap_all (c : nat) (fields : list (string * string)) (h : heap) : heap :=
  foldl (λ h f, wrap_heap c f.1 f.2 h) h fields.

Variable CUIT : value.
Variable delegate : AuthDelegate W.
Variable transport : SoapTransport W.

(** Where [getWSInitialRequest] takes the credential from: the second
    component is the world afterwards, the third the call it made. *)
Definition credential_of (tokenAndSign : value) (h : heap) (w : W)
  : result (value * value) * W * list event :=
  if truthy tokenAndSign
  then (Ok (hget h tokenAndSign "token", hget h tokenAndSign "sign"), w, [])
  else let '(answer, w') := delegate w "ws_sr_constancia_inscripcion" in
       (answer, w', [GetTA "ws_sr_constancia_inscripcion" answer]).

(** The same for [RegisterScopeFour.getTaxpayerDetails]. *)
Definition padron_credential (tokenAndSign : value) (h : heap) (w : W)
  : result (value * value) * W * list event :=
  if truthy tokenAndSign
  then (Ok (hget h tokenAndSign "token", hget h tokenAndSign "sign"), w, [])
  else let '(answer, w') := delegate w "ws_sr_padron_a4" in
       (answer, w', [GetTA "ws_sr_padron_a4" answer]).

(** The store once [executeRequest] has merged the [Auth] block into the
    parameter object [o] at [p]. *)
Definition with_auth (h : heap) (p : nat) (o : obj) (c : value * value) : heap :=
  <[p := Obj (is_array o) (list_to_map [("Auth", VRef (length h))] ∪ props o)]>
    (h ++ [Obj false (list_to_map [("Token", c.1); ("Sign", c.2); ("Cuit", CUIT)]);
           Obj false (list_to_map [("Auth", VRef (length h))])]).

(** The second half of [executeRequest]: what happens to an answer. *)
Definition after_transport (operation : string) (results : value) : M W value :=
  ElectronicBilling._checkErrors operation results ;;;
  get results (operation +:+ "Result").

Definition send (operation : string) (params tokenAndSign : value) : M W value :=
  results <- super_executeRequest transport operation params tokenAndSign ;;
  after_transport operation results.

(** [createVoucher] up to the point where the request is handed to
    [executeRequest]: the request object and the credential. *)
Definition createVoucher_request (data : value) : M W (value * value) :=
  tokenAndSign <- get data "token" ;;
  empty <- new_object [] ;;
  data <- Object_assign empty data ;;
  CbteHasta <- get data "CbteHasta" ;;
  CbteDesde <- get data "CbteDesde" ;;
  difference <- js_sub CbteHasta CbteDesde ;;
  CantReg <- js_add difference (VNum (Int 1)) ;;
  PtoVta <- get data "PtoVta" ;;
  CbteTipo <- get data "CbteTipo" ;;
  FeCabReq <- new_object [("CantReg", CantReg); ("PtoVta", PtoVta); ("CbteTipo", CbteTipo)] ;;
  FeDetReq <- new_object [("FECAEDetRequest", data)] ;;
  FeCAEReq <- new_object [("FeCabReq", FeCabReq); ("FeDetReq", FeDetReq)] ;;
  req <- new_object [("FeCAEReq", FeCAEReq)] ;;
  delete_prop data "CantReg" ;;;
  delete_prop data "PtoVta" ;;;
  delete_prop data "CbteTipo" ;;;
  ElectronicBilling.wrap data "Tributos" "Tributo" ;;;
  ElectronicBilling.wrap data "Iva" "AlicIva" ;;;
  ElectronicBilling.wrap data "CbtesAsoc" "CbteAsoc" ;;;
  ElectronicBilling.wrap data "Compradores" "Comprador" ;;;
  ElectronicBilling.wrap data "Opcionales" "Opcional" ;;;
  ret (req, tokenAndSign).

(** [createVoucher] from the answer of [executeRequest] on. *)
Definition createVoucher_result (returnResponse results : value) : M W value :=
  if strict_eq returnResponse (VBool true)
  then ret results
  else
    FeDetResp <- get results "FeDetResp" ;;
    detail <- get FeDetResp "FECAEDetResponse" ;;
    isArr <- Array_isArray detail ;;
    (if isArr
     then FeDetResp <- get results "FeDetResp" ;;
          detail <- get FeDetResp "FECAEDetResponse" ;;
          first <- get detail "0" ;;
          FeDetResp <- get results "FeDetResp" ;;
          set FeDetResp "FECAEDetResponse" first
     else ret tt) ;;;
    FeDetResp <- get results "FeDetResp" ;;
    detail <- get FeDetResp "FECAEDetResponse" ;;
    CAE <- get detail "CAE" ;;
    FeDetResp <- get results "FeDetResp" ;;
    detail <- get FeDetResp "FECAEDetResponse" ;;
    CAEFchVto <- get detail "CAEFchVto" ;;
    CAEFchVto <- ElectronicBilling.formatDate CAEFchVto ;;
    new_object [("CAE", CAE); ("CAEFchVto", CAEFchVto)].

(** [returnResponse = false] as a default parameter. *)
Definition default_false (returnResponse : value) : value :=
  if bool_decide (returnResponse = VUndef) then VBool false else returnResponse.

(** The header count [data["CbteHasta"] - data["CbteDesde"] + 1], computed
    on the copy of [data], which sits at the end of the store. *)
Definition CantReg_of (h : heap) (data : value) : result value :=
  let h' := h ++ [Obj false (own_props h data)] in
  match subtract h' (hget h data "CbteHasta") (hget h data "CbteDesde") with
  | Ok difference => add h' difference (VNum (Int 1))
  | Throw e => Throw e
  end.

(** The properties of the copy of [data] once the three header fields are
    deleted from it. *)
Definition detail_props (h : heap) (data : value) : gmap string value :=
  delete "CbteTipo" (delete "PtoVta" (delete "CantReg" (own_props h data))).

(** The store when [createVoucher] hands its request to [executeRequest]:
    the copy of [data] at [length h], then the header, the detail holder,
    the envelope and the request, then one wrapper per plural field. *)
Definition request_heap (h : heap) (data CantReg : value) : heap :=
  let n := length h in
  wrap_all n plural_fields
    (h ++ [Obj false (detail_props h data);
           Obj false (list_to_map [("CantReg", CantReg); ("PtoVta", hget h data "PtoVta");
                                   ("CbteTipo", hget h data "CbteTipo")]);
           Obj false (list_to_map [("FECAEDetRequest", VRef n)]);
           Obj false (list_to_map [("FeCabReq", VRef (n + 1)); ("FeDetReq", VRef (n + 2))]);
           Obj false (list_to_map [("FeCAEReq", VRef (n + 3))])]).

End vocabulary.

(** ** The plural fields, as the specification words it

    "Wrapped under its singular element name with the caller's list as the
    sole child, if and only if the caller supplied that field": the detail
    section [detail] of the request in the store [hs] against the caller's
    [data] in the store [h]. *)

Definition supplied (h : heap) (data : value) (plural : string) : Prop :=
  is_Some (own_props h data !! plural).

Definition wrapped (hs : heap) (detail : value) (plural singular : string)
    (field : value) : Prop :=
  ∃ wl : nat, own_props hs detail !! plural = Some (VRef wl)
              ∧ hs !! wl = Some (Obj false {[singular := field]}).

Definition detail_of (hs : heap) (params : value) : value :=
  hget hs (hget hs (hget hs params "FeCAEReq") "FeDetReq") "FECAEDetRequest".

Definition wrapped_iff_supplied : Prop :=
  ∀ (E : Engine) (W : Type) CUIT (delegate : AuthDelegate W) (transport : SoapTransport W)
    data returnResponse tokenAndSign (s : state W) params token hs answer hr
    plural singular,
    exchanged s (ElectronicBilling.createVoucher CUIT delegate transport
                   data returnResponse tokenAndSign s).2
              (Soap "FECAESolicitar" params token hs answer hr) →
    (plural, singular) ∈ plural_fields →
    wrapped hs (detail_of hs params) plural singular (hget (st_heap s) data plural)
    ↔ supplied (st_heap s) data plural.

(** ** A test double of the outside world

    A host, a ticket service and scripted transports, on which the
    theorems are exercised and the defects shown. *)

Module Mock.

(** A decimal literal, as [Number("...")] reads it. *)
Fixpoint decimal (acc : Z) (s : string) : number :=
  match s with
  | EmptyString => Int acc
  | String c r =>
      if is_digit c
      then decimal (10 * acc + (Z.of_nat (Ascii.nat_of_ascii c) - 48)) r
      else NaN
  end.

#[export] Instance engine : Engine := {|
  StringToNumber := decimal 0;
  ObjectToString := λ _ _, Ok "[object Object]"
|}.

Definition delegate : AuthDelegate unit :=
  λ w service, (Ok (VStr ("ticket for " +:+ service), VStr "signature"), w).

Definition CUIT : value := VNum (Int 20111111112).

(** A transport that answers by operation name alone. *)
Definition scripted (script : string → result tree) : SoapTransport unit :=
  λ w _ operation _ _, (script operation, w).

Definition approved_detail : tree :=
  TObj [("Resultado", TStr "A"); ("CAE", TStr "71234567890123");
        ("CAEFchVto", TStr "20230415")].

Definition rejected_detail : tree :=
  TObj [("Resultado", TStr "R");
        ("Observaciones",
         TObj [("Obs", TArr [TObj [("Code", TNum (Int 10016)); ("Msg", TStr "Fecha invalida")];
                             TObj [("Code", TNum (Int 10048)); ("Msg", TStr "Importe invalido")]])])].

Definition solicitar (detail : tree) : tree :=
  TObj [("FECAESolicitarResult", TObj [("FeDetResp", TObj [("FECAEDetResponse", detail)])])].

Definition business_error (operation : string) (code : Z) (msg : string) : tree :=
  TObj [(operation +:+ "Result",
         TObj [("Errors", TObj [("Err", TObj [("Code", TNum (Int code)); ("Msg", TStr msg)])])])].

(** The service at its best: vouchers are approved, the detail comes back
    as a one-element array, the last voucher is number 10. *)
Definition happy (operation : string) : result tree :=
  if String.eqb operation "FECAESolicitar" then Ok (solicitar (TArr [approved_detail]))
  else if String.eqb operation "FECompUltimoAutorizado"
       then Ok (TObj [("FECompUltimoAutorizadoResult", TObj [("CbteNro", TNum (Int 10))])])
  else Ok (TObj [(operation +:+ "Result", TObj [("ResultGet", TObj [])])]).

(** The same with the detail as a bare element. *)
Definition happy_bare (operation : string) : result tree :=
  if String.eqb operation "FECAESolicitar" then Ok (solicitar approved_detail)
  else happy operation.

(** Vouchers are rejected with two observations. *)
Definition rejecting (operation : string) : result tree :=
  if String.eqb operation "FECAESolicitar" then Ok (solicitar rejected_detail)
  else happy operation.

(** Voucher queries find nothing: business error 602. *)
Definition not_found (operation : string) : result tree :=
  if String.eqb operation "FECompConsultar"
  then Ok (business_error operation 602 "No existen datos en nuestros registros")
  else happy operation.

(** The transport itself fails, with an error whose [code] is 602. *)
Definition failing_602 (operation : string) : result tree :=
  Throw (Exn "Comprobante inexistente" (VNum (Int 602))).

(** The registry knows nobody. *)
Definition nobody (operation : string) : result tree :=
  Throw (Exn "No existe persona con ese Id" VUndef).

(** The registry is down. *)
Definition down (operation : string) : result tree :=
  Throw (Exn "connect ETIMEDOUT" (VStr "ETIMEDOUT")).

(** The registry knows the taxpayer. *)
Definition somebody (operation : string) : result tree :=
  Ok (TObj [("personaReturn", TObj [("persona", TObj [("idPersona", TNum (Int 20111111112))])])]).

(** The caller's store: a voucher at 0, with two taxes (the array at 2)
    and [Opcionales: null]; a credential at 1. *)
Definition voucher : value := VRef 0.
Definition credential : value := VRef 1.

Definition voucher_object : obj :=
  Obj false (list_to_map [("CbteDesde", VNum (Int 11)); ("CbteHasta", VNum (Int 11));
                          ("PtoVta", VNum (Int 1)); ("CbteTipo", VNum (Int 6));
                          ("Tributos", VRef 2); ("Opcionales", VNull)]).

Definition caller : state unit :=
  State [voucher_object;
         Obj false (list_to_map [("token", VStr "caller token"); ("sign", VStr "caller sign")]);
         Obj true (list_to_map [("0", VRef 3); ("1", VRef 4)]);
         Obj false (list_to_map [("Id", VNum (Int 99)); ("Importe", VNum (Int 10))]);
         Obj false (list_to_map [("Id", VNum (Int 1)); ("Importe", VNum (Int 5))])]
        tt [].

(** Another caller, whose voucher (at 0) has no number yet. *)
Definition draft_object : obj :=
  Obj false (list_to_map [("PtoVta", VNum (Int 1)); ("CbteTipo", VNum (Int 6));
                          ("ImpTotal", VNum (Int 121))]).

Definition draft : state unit := State [draft_object] tt [].

(** A caller whose voucher (at 0) carries its own credential (at 1). *)
Definition signed_voucher : obj :=
  Obj false (list_to_map [("CbteDesde", VNum (Int 11)); ("CbteHasta", VNum (Int 11));
                          ("PtoVta", VNum (Int 1)); ("CbteTipo", VNum (Int 6));
                          ("token", VRef 1)]).

Definition signed : state unit :=
  State [signed_voucher;
         Obj false (list_to_map [("token", VStr "caller token"); ("sign", VStr "caller sign")])]
        tt [].

(** A delegate that refuses every ticket. *)
Definition refusing : AuthDelegate unit :=
  λ w service, (Throw (Exn ("No existe el servicio " +:+ service) VUndef), w).

(** Reference data: one sales point. *)
Definition catalogue (operation : string) : result tree :=
  Ok (TObj [(operation +:+ "Result",
             TObj [("ResultGet",
                    TObj [("PtoVenta", TArr [TObj [("Nro", TNum (Int 1));
                                                   ("Bloqueado", TStr "N")]])])])]).

(** The last voucher number comes back as a string. *)
Definition stringly (operation : string) : result tree :=
  if String.eqb operation "FECompUltimoAutorizado"
  then Ok (TObj [("FECompUltimoAutorizadoResult", TObj [("CbteNro", TStr "10")])])
  else happy operation.

(** A voucher approved without an expiry date. *)
Definition undated (operation : string) : result tree :=
  if String.eqb operation "FECAESolicitar"
  then Ok (solicitar (TObj [("Resultado", TStr "A"); ("CAE", TStr "71234567890123")]))
  else happy operation.

(** The registry answers without [personaReturn]. *)
Definition incomplete (operation : string) : result tree :=
  Ok (TObj [("metadata", TObj [("servidor", TStr "a4")])]).

(** The clients wired to the test double. *)
Abbreviation createVoucher script :=
  (@ElectronicBilling.createVoucher engine unit CUIT delegate (scripted script)).
Abbreviation createNextVoucher script :=
  (@ElectronicBilling.createNextVoucher engine unit CUIT delegate (scripted script)).
Abbreviation getLastVoucher script :=
  (@ElectronicBilling.getLastVoucher engine unit CUIT delegate (scripted script)).
Abbreviation getVoucherInfo script :=
  (@ElectronicBilling.getVoucherInfo engine unit CUIT delegate (scripted script)).
Abbreviation getServerStatus script :=
  (@ElectronicBilling.getServerStatus engine unit CUIT delegate (scripted script)).
Abbreviation executeRequest script :=
  (@ElectronicBilling.executeRequest engine unit CUIT delegate (scripted script)).
Abbreviation getTaxpayerDetails script :=
  (@RegisterScopeFour.getTaxpayerDetails unit CUIT delegate (scripted script)).

End Mock.

(** ** Numbers in print

    [String(n)] on both sides of [2^53], where the integers stop being
    doubles, and of [10^21], where the exponent form begins. *)

Example number_to_string_small :
  map number_to_string [Int 0; Int (-5); Int 602; Int 20230415; Int (2 ^ 53); NaN]
  = ["0"; "-5"; "602"; "20230415"; "9007199254740992"; "NaN"].
Proof. by vm_compute. Qed.

Example number_to_string_shortest :
  map number_to_string [Int (2 ^ 53 + 1); Int (2 ^ 64); Int (10 ^ 20); Int (2 ^ 68)]
  = ["9007199254740992"; "18446744073709552000"; "100000000000000000000";
     "295147905179352830000"].
Proof. by vm_compute. Qed.

Example number_to_string_exponent :
  map number_to_string [Int (10 ^ 21); Int (10 ^ 21 + 131072); Int (2 ^ 70);
                        Int (- 10 ^ 23); Int ((2 ^ 53 - 1) * 2 ^ 971)]
  = ["1e+21"; "1.0000000000000001e+21"; "1.1805916207174113e+21"; "-1e+23";
     "1.7976931348623157e+308"].
Proof. by vm_compute. Qed.

(** ** Reasoning about method bodies *)

Section wp_rules.
Context `{Engine} {W : Type}.
Implicit Types (s : state W) (h : heap) (v x : value) (k : string) (l : nat).

Lemma wp_intro {A} (m : M W A) Q s r s' : m s = (r, s') → Q r s' → wp m Q s.
Proof. unfold wp. by intros ->. Qed.

Lemma wp_elim {A} (m : M W A) Q s r s' : wp m Q s → m s = (r, s') → Q r s'.
Proof. unfold wp. intros HQ E. by rewrite E in HQ. Qed.

Lemma wp_eq {A} (m : M W A) s X : wp m (λ r s', (r, s') = X) s → m s = X.
Proof. unfold wp. by destruct (m s). Qed.

(** A computation whose outcome is known. *)
Lemma wp_known {A} (m : M W A) (Q : result A → state W → Prop) s a s1 :
  wp m (λ r s', r = Ok a ∧ s' = s1) s → Q (Ok a) s1 → wp m Q s.
Proof. unfold wp. destruct (m s) as [r s']. cbn [fst snd]. by intros [-> ->]. Qed.

Lemma wp_refl {A} (m : M W A) s : wp m (λ r s', (r, s') = m s) s.
Proof. unfold wp. by destruct (m s). Qed.

Lemma wp_bind {A B} (m : M W A) (f : A → M W B) Q s :
  wp m (λ r s', match r with Ok a => wp (f a) Q s' | Throw e => Q (Throw e) s' end) s →
  wp (bind m f) Q s.
Proof. unfold wp, bind. by destruct (m s) as [[a|e] s']. Qed.

Lemma wp_bind_refl {A B} (m : M W A) (f : A → M W B) s :
  wp m (λ r s', match r with
                | Ok a => wp (f a) (λ r0 s0, (r0, s0) = bind m f s) s'
                | Throw e => (Throw e, s') = bind m f s
                end) s.
Proof.
  unfold wp, bind. destruct (m s) as [[a|e] s']; simpl; [|done]. by destruct (f a s').
Qed.

Lemma wp_catch {A} (m : M W A) (handler : exn → M W A) Q s :
  wp m (λ r s', match r with Ok a => Q (Ok a) s' | Throw e => wp (handler e) Q s' end) s →
  wp (catch m handler) Q s.
Proof. unfold wp, catch. by destruct (m s) as [[a|e] s']. Qed.

Lemma wp_if {A} (b : bool) (m1 m2 : M W A) Q s :
  (if b then wp m1 Q s else wp m2 Q s) → wp (if b then m1 else m2) Q s.
Proof. by destruct b. Qed.

Lemma wp_ret {A} (a : A) Q s : Q (Ok a) s → wp (ret a) Q s.
Proof. done. Qed.

Lemma wp_throw {A} e (Q : result A → state W → Prop) s : Q (Throw e) s → wp (throw e) Q s.
Proof. done. Qed.

Lemma wp_reading {A} (f : heap → result A) Q s :
  Q (f (st_heap s)) s → wp (reading f) Q s.
Proof. done. Qed.

Lemma wp_get v k Q s :
  nullish v = false → Q (Ok (hget (st_heap s) v k)) s → wp (get v k) Q s.
Proof. by destruct v. Qed.

Lemma wp_set l k x Q s :
  Q (Ok tt) (State (hset (st_heap s) l k x) (st_world s) (st_trace s)) →
  wp (set (VRef l) k x) Q s.
Proof. done. Qed.

Lemma wp_delete_prop l k Q s :
  Q (Ok tt) (State (hdelete (st_heap s) l k) (st_world s) (st_trace s)) →
  wp (delete_prop (VRef l) k) Q s.
Proof. done. Qed.

Lemma wp_new_object fields Q s :
  Q (Ok (VRef (length (st_heap s))))
    (State (st_heap s ++ [Obj false (list_to_map fields)]) (st_world s) (st_trace s)) →
  wp (new_object fields) Q s.
Proof. done. Qed.

Lemma wp_isArray v Q s :
  Q (Ok (isArray (st_heap s) v)) s → wp (Array_isArray v) Q s.
Proof. done. Qed.

Lemma wp_Object_assign l o source Q s :
  st_heap s !! l = Some o →
  Q (Ok (VRef l))
    (State (<[l := Obj (is_array o) (own_props (st_heap s) source ∪ props o)]> (st_heap s))
           (st_world s) (st_trace s)) →
  wp (Object_assign (VRef l) source) Q s.
Proof. intros E HQ. unfold wp, Object_assign. by rewrite E. Qed.

Lemma get_not_nullish v k s :
  nullish v = false → get v k s = (Ok (hget (st_heap s) v k), s).
Proof. by destruct v. Qed.

Lemma truthy_not_nullish v : truthy v = true → nullish v = false.
Proof. by destruct v. Qed.

Lemma isArray_not_nullish h v : isArray h v = true → nullish v = false.
Proof. by destruct v. Qed.

Lemma hget_nullish h v k : nullish v = true → hget h v k = VUndef.
Proof. by destruct v. Qed.

Lemma hget_truthy_not_nullish h v k : truthy (hget h v k) = true → nullish v = false.
Proof. by destruct v. Qed.

End wp_rules.

(** *** Computations that call no collaborator *)

Section quiet_rules.
Context `{Engine} {W : Type}.

Lemma quiet_bind {A B} (m : M W A) (f : A → M W B) :
  quiet m → (∀ a, quiet (f a)) → quiet (bind m f).
Proof.
  intros Hm Hf s. unfold bind. specialize (Hm s).
  destruct (m s) as [[a|e] s']; simpl in *; [|done].
  destruct (Hf a s') as [-> ->]. done.
Qed.

Lemma quiet_ret {A} (a : A) : quiet (ret (W := W) a).
Proof. done. Qed.

Lemma quiet_throw {A} e : quiet (throw (W := W) (A := A) e).
Proof. done. Qed.

Lemma quiet_reading {A} (f : heap → result A) : quiet (reading (W := W) f).
Proof. done. Qed.

Lemma quiet_get v k : quiet (get (W := W) v k).
Proof. intros s. by destruct v. Qed.

Lemma quiet_set v k x : quiet (set (W := W) v k x).
Proof. intros s. by destruct v. Qed.

Lemma quiet_delete_prop v k : quiet (delete_prop (W := W) v k).
Proof. intros s. by destruct v. Qed.

Lemma quiet_new_object fields : quiet (new_object (W := W) fields).
Proof. done. Qed.

Lemma quiet_isArray v : quiet (Array_isArray (W := W) v).
Proof. done. Qed.

Lemma quiet_Object_assign target source : quiet (Object_assign (W := W) target source).
Proof.
  intros s. unfold Object_assign.
  destruct target as [| | | | |l]; try done. by destruct (st_heap s !! l).
Qed.

Lemma quiet_if {A} (b : bool) (m1 m2 : M W A) :
  quiet m1 → quiet m2 → quiet (if b then m1 else m2).
Proof. by destruct b. Qed.

End quiet_rules.

Ltac solve_quiet :=
  repeat first
    [ apply quiet_ret | apply quiet_throw | apply quiet_reading | apply quiet_get
    | apply quiet_set | apply quiet_delete_prop | apply quiet_new_object
    | apply quiet_isArray | apply quiet_Object_assign
    | apply quiet_if | (apply quiet_bind; [|intros ?]) ].

Section quiet_methods.
Context `{Engine} {W : Type}.

Lemma quiet_checkErrors operation results :
  quiet (ElectronicBilling._checkErrors (W := W) operation results).
Proof. unfold ElectronicBilling._checkErrors, ElectronicBilling.error_text. solve_quiet. Qed.

Lemma quiet_after_transport operation results :
  quiet (after_transport (W := W) operation results).
Proof. unfold after_transport. solve_quiet. Qed.

Lemma quiet_createVoucher_result returnResponse results :
  quiet (createVoucher_result (W := W) returnResponse results).
Proof.
  unfold createVoucher_result, ElectronicBilling.formatDate. solve_quiet.
Qed.

Lemma quiet_wrap data plural singular :
  quiet (ElectronicBilling.wrap (W := W) data plural singular).
Proof. unfold ElectronicBilling.wrap. solve_quiet. Qed.

Lemma quiet_createVoucher_request data :
  quiet (createVoucher_request (W := W) data).
Proof.
  unfold createVoucher_request, js_sub, js_add.
  solve_quiet.
Qed.

End quiet_methods.

(** *** The store *)

Section heap_facts.
Implicit Types (h : heap) (L : list obj) (v x : value) (k : string) (l : nat) (o : obj).

Lemma lookup_new h L i : (h ++ L) !! (length h + i) = L !! i.
Proof. by rewrite lookup_app_r, Nat.add_comm, Nat.add_sub by lia. Qed.

Lemma lookup_new0 h o L : (h ++ o :: L) !! length h = Some o.
Proof. apply list_lookup_middle. done. Qed.

Lemma insert_new0 h o o' L : <[length h := o']> (h ++ o :: L) = h ++ o' :: L.
Proof. rewrite <- (Nat.add_0_r (length h)). by rewrite insert_app_r. Qed.

Lemma own_props_old h L v :
  (∀ l, v = VRef l → l < length h) → own_props (h ++ L) v = own_props h v.
Proof.
  intros Hv. destruct v; try done. simpl.
  by rewrite lookup_app_l by (by apply Hv).
Qed.

Lemma own_props_new h L i o :
  L !! i = Some o → own_props (h ++ L) (VRef (length h + i)) = props o.
Proof. intros E. simpl. by rewrite lookup_new, E. Qed.

Lemma own_props_new0 h o L : own_props (h ++ o :: L) (VRef (length h)) = props o.
Proof. simpl. by rewrite lookup_new0. Qed.

(** An empty object just created changes nobody's properties, not even
    those of a reference that dangled onto its location. *)
Lemma own_props_fresh h v :
  own_props (h ++ [Obj false (list_to_map [])]) v = own_props h v.
Proof.
  destruct v as [| | | | |l]; try done. simpl.
  destruct (decide (l < length h)) as [Hl|Hl].
  - by rewrite lookup_app_l.
  - rewrite (lookup_ge_None_2 h l) by lia.
    rewrite lookup_app_r by lia.
    by destruct (l - length h) as [|[|?]].
Qed.

Lemma hget_old h L v k :
  (∀ l, v = VRef l → l < length h) → hget (h ++ L) v k = hget h v k.
Proof. intros Hv. unfold hget. by rewrite own_props_old. Qed.

Lemma hget_new h L i o k :
  L !! i = Some o → hget (h ++ L) (VRef (length h + i)) k = default VUndef (props o !! k).
Proof. intros E. unfold hget. by rewrite (own_props_new _ _ _ o). Qed.

Lemma hget_new0 h o L k :
  hget (h ++ o :: L) (VRef (length h)) k = default VUndef (props o !! k).
Proof. unfold hget. by rewrite own_props_new0. Qed.

Lemma hdelete_new0 h o L k :
  hdelete (h ++ o :: L) (length h) k = h ++ Obj (is_array o) (delete k (props o)) :: L.
Proof. unfold hdelete. by rewrite lookup_new0, insert_new0. Qed.

Lemma hset_new0 h o L k x :
  hset (h ++ o :: L) (length h) k x = h ++ Obj (is_array o) (<[k := x]> (props o)) :: L.
Proof. unfold hset. by rewrite lookup_new0, insert_new0. Qed.

Lemma hset_length h l k x : length (hset h l k x) = length h.
Proof. unfold hset. destruct (h !! l); [apply length_insert|done]. Qed.

Lemma hset_lookup_ne h l l' k x : l ≠ l' → hset h l k x !! l' = h !! l'.
Proof.
  intros Hne. unfold hset. destruct (h !! l); [|done].
  by rewrite list_lookup_insert_ne.
Qed.

Lemma hset_lookup_eq h l k x o :
  h !! l = Some o → hset h l k x !! l = Some (Obj (is_array o) (<[k := x]> (props o))).
Proof.
  intros E. unfold hset. rewrite E. apply list_lookup_insert_eq.
  by eapply lookup_lt_Some.
Qed.

(** Reading after writing: the property just written, or what was there. *)
Lemma own_props_hset h l k x v k' :
  own_props (hset h l k x) v !! k'
  = if bool_decide (v = VRef l ∧ k = k' ∧ is_Some (h !! l)) then Some x
    else own_props h v !! k'.
Proof.
  destruct v as [| | | | |l']; try (rewrite bool_decide_eq_false_2; [done|]; by intros [? _]).
  simpl. destruct (decide (l = l')) as [<-|Hne].
  - destruct (h !! l) as [o|] eqn:E.
    + rewrite (hset_lookup_eq _ _ _ _ o) by done. simpl.
      destruct (decide (k = k')) as [<-|Hk].
      * rewrite bool_decide_eq_true_2 by done. apply lookup_insert_eq.
      * rewrite bool_decide_eq_false_2 by (by intros (? & ? & ?)).
        by rewrite lookup_insert_ne.
    + unfold hset. rewrite E, E.
      rewrite bool_decide_eq_false_2; [done|]. intros (_ & _ & [? ?]). done.
  - rewrite hset_lookup_ne by done.
    rewrite bool_decide_eq_false_2; [done|]. intros ([= ?] & _). done.
Qed.

Lemma hget_hset_ne h l k x v k' : k ≠ k' → hget (hset h l k x) v k' = hget h v k'.
Proof.
  intros Hk. unfold hget. rewrite own_props_hset.
  rewrite bool_decide_eq_false_2; [done|]. by intros (_ & ? & _).
Qed.

Lemma hget_hset_eq h l k x o : h !! l = Some o → hget (hset h l k x) (VRef l) k = x.
Proof.
  intros E. unfold hget. rewrite own_props_hset.
  rewrite bool_decide_eq_true_2; [done|]. by rewrite E.
Qed.

Lemma isArray_hset h l k x v : isArray (hset h l k x) v = isArray h v.
Proof.
  destruct v as [| | | | |l']; try done. simpl.
  destruct (decide (l = l')) as [<-|Hne].
  - destruct (h !! l) as [o|] eqn:E.
    + by rewrite (hset_lookup_eq _ _ _ _ o).
    + unfold hset. by rewrite E, E.
  - by rewrite hset_lookup_ne.
Qed.

(** A reference whose property is there points to an object. *)
Lemma hget_ref_Some h l k v :
  hget h (VRef l) k = v → v ≠ VUndef →
  ∃ o, h !! l = Some o ∧ props o !! k = Some v.
Proof.
  unfold hget. simpl. intros E Hv. destruct (h !! l) as [o|]; [|by subst].
  exists o. split; [done|]. destruct (props o !! k); simpl in E; by subst.
Qed.

Lemma hget_hset_same h l k x : l < length h → hget (hset h l k x) (VRef l) k = x.
Proof. intros Hl. destruct (lookup_lt_is_Some_2 h l Hl) as [o Ho]. by eapply hget_hset_eq. Qed.

Lemma hget_alloc_ne h (a : bool) (m : gmap string value) v k :
  m !! k = None → hget (h ++ [Obj a m]) v k = hget h v k.
Proof.
  intros Hk. unfold hget. destruct v as [| | | | |l]; try done. cbn [own_props].
  destruct (decide (l < length h)) as [Hl|Hl].
  - by rewrite lookup_app_l.
  - rewrite (lookup_ge_None_2 h l) by lia. rewrite lookup_app_r by lia.
    destruct (l - length h) as [|[|?]]; cbn [lookup list_lookup]; try done.
    cbn [props]. by rewrite Hk.
Qed.

Lemma isArray_alloc h (m : gmap string value) v :
  isArray (h ++ [Obj false m]) v = isArray h v.
Proof.
  destruct v as [| | | | |l]; try done. cbn [isArray].
  destruct (decide (l < length h)) as [Hl|Hl].
  - by rewrite lookup_app_l.
  - rewrite (lookup_ge_None_2 h l) by lia. rewrite lookup_app_r by lia.
    by destruct (l - length h) as [|[|?]].
Qed.

Lemma isArray_allocated h v : isArray h v = true → ∃ l o, v = VRef l ∧ h !! l = Some o.
Proof.
  destruct v as [| | | | |l]; try done. cbn [isArray].
  destruct (h !! l) as [o|] eqn:E; [|done]. intros _. by exists l, o.
Qed.

Lemma hget_collapse_ne h lfd v k :
  k ≠ "FECAEDetResponse" → hget (collapse_detail h lfd) v k = hget h v k.
Proof.
  intros Hk. unfold collapse_detail. destruct (isArray _ _); [|done].
  by apply hget_hset_ne.
Qed.

Lemma isArray_collapse h lfd v : isArray (collapse_detail h lfd) v = isArray h v.
Proof. unfold collapse_detail. destruct (isArray h _); [|done]. apply isArray_hset. Qed.

Lemma hget_collapse h lfd :
  hget (collapse_detail h lfd) (VRef lfd) "FECAEDetResponse"
  = first_if_array h (hget h (VRef lfd) "FECAEDetResponse").
Proof.
  unfold collapse_detail, first_if_array.
  destruct (isArray h _) eqn:Harr; [|done].
  apply isArray_allocated in Harr as (l & o & Hraw & _).
  destruct (hget_ref_Some h lfd "FECAEDetResponse" _ Hraw) as (ofd & Hfd & _); [done|].
  by rewrite (hget_hset_eq _ _ _ _ ofd).
Qed.

Lemma collapse_length h lfd : length (collapse_detail h lfd) = length h.
Proof. unfold collapse_detail. destruct (isArray _ _); [apply hset_length|done]. Qed.

End heap_facts.

Ltac heap_norm :=
  repeat rewrite <- app_assoc; repeat rewrite length_app;
  cbn [app length]; repeat rewrite <- Nat.add_assoc; cbn [Nat.add].

Ltac hsimp :=
  repeat first
    [ rewrite hget_hset_ne by done
    | rewrite hget_collapse_ne by done
    | rewrite hget_alloc_ne by (by vm_compute)
    | rewrite isArray_hset
    | rewrite isArray_alloc
    | rewrite isArray_collapse
    | rewrite hget_collapse ].

Ltac wp_prim :=
  lazymatch goal with
  | |- wp (bind _ _) _ _ => apply wp_bind
  | |- wp (catch _ _) _ _ => apply wp_catch
  | |- wp (ret _) _ _ => apply wp_ret
  | |- wp (throw _) _ _ => apply wp_throw
  | |- wp (reading _) _ _ => apply wp_reading
  | |- wp (get _ _) _ _ =>
      apply wp_get;
      [first [ reflexivity | assumption
             | apply truthy_not_nullish; assumption
             | eapply hget_truthy_not_nullish; eassumption
             | eapply isArray_not_nullish; eassumption ]|]
  | |- wp (set (VRef _) _ _) _ _ => apply wp_set
  | |- wp (delete_prop (VRef _) _) _ _ => apply wp_delete_prop
  | |- wp (new_object _) _ _ => apply wp_new_object
  | |- wp (Array_isArray _) _ _ => apply wp_isArray
  | |- wp (Object_assign (VRef _) _) _ _ =>
      eapply wp_Object_assign;
      [cbn [st_heap]; first [ apply lookup_new0 | eassumption
             | rewrite lookup_app_l; [eassumption|by eapply lookup_lt_Some] ]|]
  end; cbv beta iota; cbn [st_heap st_world st_trace fst snd].

Ltac wp_steps := repeat wp_prim.

(** *** Computations confined to a part of the store *)

Section confined_rules.
Context `{Engine} {W : Type}.
Implicit Types (h : heap) (v x : value) (k : string) (l n : nat) (vs : list value).

Lemma in_region_mono n h h' v :
  length h ≤ length h' → in_region n h v → in_region n h' v.
Proof. intros Hl Hv l E. destruct (Hv l E). lia. Qed.

Lemma in_region_primitive n h v : (∀ l, v ≠ VRef l) → in_region n h v.
Proof. intros Hv l ->. by destruct (Hv l). Qed.

Lemma string_props_values s k v : string_props s !! k = Some v → ∀ l, v ≠ VRef l.
Proof.
  unfold string_props. intros Hk%elem_of_list_to_map_2.
  apply list_elem_of_lookup in Hk as [i Hi].
  rewrite list_lookup_imap in Hi.
  destruct (String.list_ascii_of_string s !! i); simpl in Hi; [|done].
  injection Hi as _ <-. done.
Qed.

Lemma in_region_hget n h v k :
  closed n h → in_region n h v → in_region n h (hget h v k).
Proof.
  intros Hc Hv. unfold hget.
  destruct (own_props h v !! k) as [x|] eqn:E; simpl; [|by apply in_region_primitive].
  destruct v as [| | | |s|l]; simpl in E; try by rewrite lookup_empty in E.
  - apply in_region_primitive. by eapply string_props_values.
  - destruct (Hv l eq_refl) as [Hn Hl].
    destruct (h !! l) as [o|] eqn:Ho; [|by rewrite lookup_empty in E].
    intros l' ->. by eapply Hc.
Qed.

Lemma closed_hset n h l k x :
  closed n h → in_region n h x → closed n (hset h l k x).
Proof.
  intros Hc Hx l1 o1 k1 l' Hn Hl1 Hk1. rewrite hset_length.
  destruct (decide (l = l1)) as [<-|Hne].
  - destruct (h !! l) as [o|] eqn:Ho.
    + rewrite (hset_lookup_eq _ _ _ _ o) in Hl1 by done. injection Hl1 as <-.
      simpl in Hk1. destruct (decide (k = k1)) as [<-|Hk].
      * rewrite lookup_insert_eq in Hk1. injection Hk1 as ->. by apply Hx.
      * rewrite lookup_insert_ne in Hk1 by done. by eapply Hc.
    + unfold hset in Hl1. rewrite Ho in Hl1. by rewrite Ho in Hl1.
  - rewrite hset_lookup_ne in Hl1 by done. by eapply Hc.
Qed.

Lemma closed_alloc n h (a : bool) (m : gmap string value) :
  n ≤ length h → closed n h →
  (∀ k v, m !! k = Some v → in_region n h v) →
  closed n (h ++ [Obj a m]).
Proof.
  intros Hn Hc Hm l o k l' Hl Hlo Hk. rewrite length_app. simpl.
  destruct (decide (l < length h)) as [Hlt|Hge].
  - rewrite lookup_app_l in Hlo by done.
    destruct (Hc l o k l' Hl Hlo Hk). lia.
  - rewrite lookup_app_r in Hlo by lia.
    destruct (l - length h) as [|i] eqn:E; simpl in Hlo; [|by destruct i].
    injection Hlo as <-. simpl in Hk.
    destruct (Hm k (VRef l') Hk l' eq_refl). lia.
Qed.

Lemma confined_bind_value {B} n vs (m : M W value) (f : value → M W B) post :
  confined n vs m (in_region n) →
  (∀ a, confined n (a :: vs) (f a) post) →
  confined n vs (bind m f) post.
Proof.
  intros Hm Hf s Hn Hc Hvs. cbv zeta. unfold bind.
  destruct (Hm s Hn Hc Hvs) as (Hfr & Hlen & Hc' & Hpost).
  destruct (m s) as [[a|e] s1]; cbn [fst snd] in *; [|by split; [|split; [|split]]].
  destruct (Hf a s1) as (Hfr2 & Hlen2 & Hc2 & Hpost2); [lia|done| |].
  { constructor; [by apply Hpost|].
    eapply Forall_impl; [exact Hvs|]. intros v. by apply in_region_mono. }
  split; [intros l Hl; by rewrite Hfr2, Hfr|]. split; [lia|]. done.
Qed.

Lemma confined_bind {A B} n vs (m : M W A) (f : A → M W B) post :
  confined n vs m anything →
  (∀ a, confined n vs (f a) post) →
  confined n vs (bind m f) post.
Proof.
  intros Hm Hf s Hn Hc Hvs. cbv zeta. unfold bind.
  destruct (Hm s Hn Hc Hvs) as (Hfr & Hlen & Hc' & _).
  destruct (m s) as [[a|e] s1]; cbn [fst snd] in *; [|by split; [|split; [|split]]].
  destruct (Hf a s1) as (Hfr2 & Hlen2 & Hc2 & Hpost2); [lia|done| |].
  { eapply Forall_impl; [exact Hvs|]. intros v. by apply in_region_mono. }
  split; [intros l Hl; by rewrite Hfr2, Hfr|]. split; [lia|]. done.
Qed.

Lemma confined_weaken {A} n vs (m : M W A) post :
  confined n vs m post → confined n vs m anything.
Proof.
  intros Hm s Hn Hc Hvs. destruct (Hm s Hn Hc Hvs) as (? & ? & ? & _). done.
Qed.

Lemma confined_ret_value n vs v : v ∈ vs → confined n vs (ret (W := W) v) (in_region n).
Proof.
  intros Hv s Hn Hc Hvs. cbv zeta. simpl. split; [done|]. split; [done|]. split; [done|].
  intros a [= <-]. by eapply Forall_forall in Hvs.
Qed.

Lemma confined_ret {A} n vs (a : A) : confined n vs (ret (W := W) a) anything.
Proof. intros s Hn Hc Hvs. by split; [|split; [|split]]. Qed.

Lemma confined_throw {A} n vs e (post : heap → A → Prop) :
  confined n vs (throw (W := W) e) post.
Proof. intros s Hn Hc Hvs. by split; [|split; [|split]]. Qed.

Lemma confined_reading {A} n vs (f : heap → result A) :
  confined n vs (reading (W := W) f) anything.
Proof. intros s Hn Hc Hvs. by split; [|split; [|split]]. Qed.

Lemma confined_reading_primitive n vs (f : heap → result value) :
  (∀ h v, f h = Ok v → ∀ l, v ≠ VRef l) →
  confined n vs (reading (W := W) f) (in_region n).
Proof.
  intros Hf s Hn Hc Hvs. cbv zeta. simpl. split; [done|]. split; [done|]. split; [done|].
  intros a Ha. apply in_region_primitive. by eapply Hf.
Qed.

Lemma confined_get n vs v k : v ∈ vs → confined n vs (get (W := W) v k) (in_region n).
Proof.
  intros Hv s Hn Hc Hvs. cbv zeta.
  assert (Hr : in_region n (st_heap s) v) by (by eapply Forall_forall in Hvs).
  destruct (nullish v) eqn:Hnull.
  - destruct v; try discriminate; simpl; by split; [|split; [|split]].
  - unfold get. replace (match v with VUndef | VNull => _ | _ => _ end)
      with (Ok (hget (st_heap s) v k), s) by (by destruct v).
    simpl. split; [done|]. split; [done|]. split; [done|].
    intros a [= <-]. by apply in_region_hget.
Qed.

Lemma confined_set n vs v k x : v ∈ vs → x ∈ vs → confined n vs (set (W := W) v k x) anything.
Proof.
  intros Hv Hx s Hn Hc Hvs. cbv zeta.
  assert (Hrv : in_region n (st_heap s) v) by (by eapply Forall_forall in Hvs).
  assert (Hrx : in_region n (st_heap s) x) by (by eapply Forall_forall in Hvs).
  destruct v as [| | | | |l]; simpl; try by split; [|split; [|split]].
  destruct (Hrv l eq_refl) as [Hl _].
  split; [intros l' Hl'; apply hset_lookup_ne; lia|].
  split; [by rewrite hset_length|]. split; [by apply closed_hset|done].
Qed.

Lemma confined_new_object n vs fields :
  Forall (λ f, f.2 ∈ vs) fields →
  confined n vs (new_object (W := W) fields) (in_region n).
Proof.
  intros Hf s Hn Hc Hvs. cbv zeta. simpl.
  split; [intros l Hl; apply lookup_app_l; lia|].
  split; [rewrite length_app; lia|]. split.
  - apply closed_alloc; [done..|]. intros k v Hk%elem_of_list_to_map_2.
    eapply Forall_forall in Hf; [|exact Hk]. by eapply Forall_forall in Hvs.
  - intros a [= <-] l [= <-]. rewrite length_app. simpl. lia.
Qed.

Lemma confined_isArray n vs v : confined n vs (Array_isArray (W := W) v) anything.
Proof. intros s Hn Hc Hvs. by split; [|split; [|split]]. Qed.

Lemma confined_if {A} n vs (b : bool) (m1 m2 : M W A) post :
  confined n vs m1 post → confined n vs m2 post →
  confined n vs (if b then m1 else m2) post.
Proof. by destruct b. Qed.

End confined_rules.

Ltac solve_elem := by repeat first [apply list_elem_of_here | apply list_elem_of_further].

Ltac confined_bind :=
  lazymatch goal with
  | |- confined _ _ (@bind _ ?A _ _ _) _ =>
      lazymatch A with
      | value => apply confined_bind_value
      | _ => apply confined_bind
      end
  end; [|intros ?].

Ltac solve_confined :=
  repeat first
    [ confined_bind
    | apply confined_if
    | apply confined_throw
    | apply confined_ret_value; solve_elem
    | apply confined_ret
    | apply confined_get; solve_elem
    | apply confined_set; solve_elem
    | apply confined_isArray
    | apply confined_new_object; repeat constructor; solve_elem
    | apply confined_reading ].

Section confined_methods.
Context `{Engine} {W : Type}.

Lemma confined_formatDate n vs date :
  confined n vs (ElectronicBilling.formatDate (W := W) date) (in_region n).
Proof.
  apply confined_reading_primitive. intros h v Hv l ->.
  destruct date; try discriminate; simpl in Hv;
    repeat match type of Hv with
           | match ?x with _ => _ end = _ => destruct x; try discriminate
           end.
Qed.

Lemma confined_checkErrors n operation results :
  confined n [results] (ElectronicBilling._checkErrors (W := W) operation results) anything.
Proof.
  unfold ElectronicBilling._checkErrors, ElectronicBilling.error_text. solve_confined.
Qed.

Lemma confined_after_transport n operation results :
  confined n [results] (after_transport (W := W) operation results) (in_region n).
Proof.
  unfold after_transport. apply confined_bind; [apply confined_checkErrors|].
  intros _. solve_confined.
Qed.

Lemma confined_createVoucher_result n returnResponse results :
  confined n [results] (createVoucher_result (W := W) returnResponse results) (in_region n).
Proof.
  unfold createVoucher_result.
  repeat first [apply confined_formatDate | progress solve_confined].
Qed.

End confined_methods.

(** *** Responses entering the store *)

Section trees.
Implicit Types (h : heap) (v : value) (n : nat).

Lemma in_region_app n h (L : heap) v : in_region n h v → in_region n (h ++ L) v.
Proof. intros Hv. eapply in_region_mono; [|exact Hv]. rewrite length_app. lia. Qed.

(** A response enters the store as new objects that refer to one another
    only. *)
Lemma alloc_tree_closed t :
  ∀ n h v h', n ≤ length h → closed n h → alloc_tree t h = (v, h') →
    (∃ R, h' = h ++ R) ∧ closed n h' ∧ in_region n h' v.
Proof.
  induction t as [| |b|x|x|fs IH|ts IH] using tree_nested_ind; intros n h v h' Hn Hc E;
    try (simpl in E; injection E as <- <-; split; [by exists []; rewrite app_nil_r|];
         split; [done|]; by apply in_region_primitive).
  - simpl in E.
    match type of E with (let '(m, h1) := ?F fs h in _) = _ =>
      assert (Hgo : ∀ h m h1, n ≤ length h → closed n h → F fs h = (m, h1) →
        (∃ R, h1 = h ++ R) ∧ closed n h1 ∧ (∀ k v, m !! k = Some v → in_region n h1 v));
      [|destruct (F fs h) as [m h1] eqn:EF] end.
    { clear E Hn Hc h v h'. induction IH as [|[k t] fs IHt _ IHfs]; intros h m h1 Hn Hc E.
      - injection E as <- <-. split; [by exists []; rewrite app_nil_r|]. split; [done|].
        intros k v Hk. by rewrite lookup_empty in Hk.
      - destruct (alloc_tree t h) as [v hA] eqn:Et.
        match type of E with (let '(m, h3) := ?G in _) = _ =>
          destruct G as [m' hB] eqn:EG end.
        injection E as <- <-.
        destruct (IHt n h v hA Hn Hc Et) as ([R1 ->] & Hc2 & Hv).
        destruct (IHfs (h ++ R1) m' hB) as ([R2 ->] & Hc3 & Hm);
          [rewrite length_app; lia|done|done|].
        split; [exists (R1 ++ R2); by rewrite app_assoc|]. split; [done|].
        intros k' v' Hk'. destruct (decide (k = k')) as [->|Hne].
        + rewrite lookup_insert_eq in Hk'. injection Hk' as <-. by apply in_region_app.
        + rewrite lookup_insert_ne in Hk' by done. by eapply Hm. }
    injection E as <- <-.
    destruct (Hgo h m h1 Hn Hc EF) as ([R ->] & Hc1 & Hm).
    split; [exists (R ++ [Obj false m]); by rewrite app_assoc|].
    split.
    + apply closed_alloc; [rewrite length_app; lia|done|done].
    + intros l [= <-]. rewrite !length_app. simpl. lia.
  - simpl in E.
    match type of E with (let '(m, h1) := ?F 0 ts h in _) = _ =>
      assert (Hgo : ∀ i h m h1, n ≤ length h → closed n h → F i ts h = (m, h1) →
        (∃ R, h1 = h ++ R) ∧ closed n h1 ∧ (∀ k v, m !! k = Some v → in_region n h1 v));
      [|destruct (F 0 ts h) as [m h1] eqn:EF] end.
    { clear E Hn Hc h v h'. induction IH as [|t ts IHt _ IHts]; intros i h m h1 Hn Hc E.
      - injection E as <- <-. split; [by exists []; rewrite app_nil_r|]. split; [done|].
        intros k v Hk. by rewrite lookup_empty in Hk.
      - destruct (alloc_tree t h) as [v hA] eqn:Et.
        match type of E with (let '(m, h3) := ?G in _) = _ =>
          destruct G as [m' hB] eqn:EG end.
        injection E as <- <-.
        destruct (IHt n h v hA Hn Hc Et) as ([R1 ->] & Hc2 & Hv).
        destruct (IHts (S i) (h ++ R1) m' hB) as ([R2 ->] & Hc3 & Hm);
          [rewrite length_app; lia|done|done|].
        split; [exists (R1 ++ R2); by rewrite app_assoc|]. split; [done|].
        intros k' v' Hk'. destruct (decide (pretty i = k')) as [<-|Hne].
        + rewrite lookup_insert_eq in Hk'. injection Hk' as <-. by apply in_region_app.
        + rewrite lookup_insert_ne in Hk' by done. by eapply Hm. }
    injection E as <- <-.
    destruct (Hgo 0 h m h1 Hn Hc EF) as ([R ->] & Hc1 & Hm).
    split; [exists (R ++ [Obj true m]); by rewrite app_assoc|].
    split.
    + apply closed_alloc; [rewrite length_app; lia|done|done].
    + intros l [= <-]. rewrite !length_app. simpl. lia.
Qed.

Lemma closed_end h : closed (length h) h.
Proof. intros l o k l' Hl Hlo _. apply lookup_lt_Some in Hlo. lia. Qed.

(** In particular the store it finds is extended, never touched. *)
Lemma alloc_tree_fresh t h v h' :
  alloc_tree t h = (v, h') →
  (∃ R, h' = h ++ R) ∧ closed (length h) h' ∧ in_region (length h) h' v.
Proof. apply alloc_tree_closed; [done|apply closed_end]. Qed.

End trees.

(** *** Computations that never shrink the store *)

Section growing_rules.
Context `{Engine} {W : Type}.

Lemma growing_bind {A B} (m : M W A) (f : A → M W B) :
  growing m → (∀ a, growing (f a)) → growing (bind m f).
Proof.
  intros Hm Hf s. unfold bind. specialize (Hm s).
  destruct (m s) as [[a|e] s']; cbn [fst snd] in *; [|lia].
  specialize (Hf a s'). lia.
Qed.

Lemma growing_catch {A} (m : M W A) (handler : exn → M W A) :
  growing m → (∀ e, growing (handler e)) → growing (catch m handler).
Proof.
  intros Hm Hf s. unfold catch. specialize (Hm s).
  destruct (m s) as [[a|e] s']; cbn [fst snd] in *; [lia|].
  specialize (Hf e s'). lia.
Qed.

Lemma growing_ret {A} (a : A) : growing (ret (W := W) a).
Proof. intros s. cbn. lia. Qed.

Lemma growing_throw {A} e : growing (throw (W := W) (A := A) e).
Proof. intros s. cbn. lia. Qed.

Lemma growing_reading {A} (f : heap → result A) : growing (reading (W := W) f).
Proof. intros s. cbn. lia. Qed.

Lemma growing_get v k : growing (get (W := W) v k).
Proof. intros s. destruct v; cbn; lia. Qed.

Lemma growing_set v k x : growing (set (W := W) v k x).
Proof. intros s. destruct v; cbn; rewrite ?hset_length; lia. Qed.

Lemma growing_new_object fields : growing (new_object (W := W) fields).
Proof. intros s. cbn. rewrite length_app. lia. Qed.

Lemma growing_isArray v : growing (Array_isArray (W := W) v).
Proof. intros s. cbn. lia. Qed.

Lemma growing_Object_assign target source : growing (Object_assign (W := W) target source).
Proof.
  intros s. unfold Object_assign.
  destruct target as [| | | | |l]; cbn; rewrite ?length_app; try lia.
  destruct (st_heap s !! l); cbn; rewrite ?length_insert; lia.
Qed.

Lemma growing_if {A} (b : bool) (m1 m2 : M W A) :
  growing m1 → growing m2 → growing (if b then m1 else m2).
Proof. by destruct b. Qed.

Lemma growing_GetServiceTA (delegate : AuthDelegate W) service :
  growing (GetServiceTA delegate service).
Proof. intros s. unfold GetServiceTA. destruct (delegate _ _) as [[?|?] ?]; cbn; lia. Qed.

Lemma growing_super_executeRequest (transport : SoapTransport W) operation params tokenAndSign :
  growing (super_executeRequest transport operation params tokenAndSign).
Proof.
  intros s. unfold super_executeRequest.
  destruct (transport _ _ _ _ _) as [[t|e] w']; [|cbn; lia].
  destruct (alloc_tree t (st_heap s)) as [v h'] eqn:E. cbn.
  apply alloc_tree_fresh in E as ([R ->] & _). rewrite length_app. lia.
Qed.

End growing_rules.

Ltac solve_growing :=
  repeat first
    [ apply growing_ret | apply growing_throw | apply growing_reading | apply growing_get
    | apply growing_set | apply growing_new_object
    | apply growing_isArray | apply growing_Object_assign
    | apply growing_GetServiceTA | apply growing_super_executeRequest
    | apply growing_if | (apply growing_bind; [|intros ?]) ].

Section growing_methods.
Context `{Engine} {W : Type}.
Variable CUIT : value.
Variable delegate : AuthDelegate W.
Variable transport : SoapTransport W.

Lemma growing_executeRequest operation params tokenAndSign :
  growing (ElectronicBilling.executeRequest CUIT delegate transport operation params tokenAndSign).
Proof.
  unfold ElectronicBilling.executeRequest, ElectronicBilling.getWSInitialRequest,
    ElectronicBilling._checkErrors, ElectronicBilling.error_text.
  solve_growing.
Qed.

Lemma growing_getLastVoucher salesPoint type tokenAndSign :
  growing (ElectronicBilling.getLastVoucher CUIT delegate transport salesPoint type tokenAndSign).
Proof.
  unfold ElectronicBilling.getLastVoucher.
  apply growing_bind; [solve_growing|intros ?].
  apply growing_bind; [apply growing_executeRequest|intros ?].
  solve_growing.
Qed.

End growing_methods.

(** *** Wrapping the plural fields *)

Section wrapping.
Implicit Types (h : heap) (c l : nat) (o : obj).

Lemma wrap_heap_length c p sg h : length h ≤ length (wrap_heap c p sg h).
Proof.
  unfold wrap_heap. destruct (truthy _); [|done].
  rewrite hset_length, length_app. lia.
Qed.

Lemma wrap_heap_lookup_ne c p sg h l :
  l ≠ c → l < length h → wrap_heap c p sg h !! l = h !! l.
Proof.
  intros Hne Hl. unfold wrap_heap. destruct (truthy _); [|done].
  rewrite hset_lookup_ne by done. by rewrite lookup_app_l.
Qed.

Lemma wrap_heap_props_ne c p sg h q :
  q ≠ p → c < length h →
  own_props (wrap_heap c p sg h) (VRef c) !! q = own_props h (VRef c) !! q.
Proof.
  intros Hq Hc. unfold wrap_heap. destruct (truthy _); [|done].
  rewrite own_props_hset.
  rewrite bool_decide_eq_false_2 by (by intros (_ & ? & _)).
  by rewrite own_props_old by (by intros ? [= <-]).
Qed.

Lemma wrap_heap_field c p sg h o :
  h !! c = Some o →
  let field := hget h (VRef c) p in
  if truthy field
  then own_props (wrap_heap c p sg h) (VRef c) !! p = Some (VRef (length h))
       ∧ wrap_heap c p sg h !! length h = Some (Obj false (list_to_map [(sg, field)]))
  else wrap_heap c p sg h = h.
Proof.
  intros Hc. cbv zeta. unfold wrap_heap.
  assert (c < length h) by (by eapply lookup_lt_Some).
  destruct (truthy _); [|done]. split.
  - rewrite own_props_hset. rewrite bool_decide_eq_true_2; [done|].
    split; [done|]. split; [done|]. rewrite lookup_app_l by done. by rewrite Hc.
  - rewrite hset_lookup_ne by lia. apply lookup_new0.
Qed.

Lemma wrap_all_spec c fields :
  NoDup fields.*1 → ∀ h o, h !! c = Some o →
  let h' := wrap_all c fields h in
  length h ≤ length h'
  ∧ (∀ l, l ≠ c → l < length h → h' !! l = h !! l)
  ∧ is_Some (h' !! c)
  ∧ (∀ q, q ∉ fields.*1 → own_props h' (VRef c) !! q = own_props h (VRef c) !! q)
  ∧ (∀ p sg, (p, sg) ∈ fields →
       let field := hget h (VRef c) p in
       if truthy field
       then ∃ wl, length h ≤ wl
                  ∧ own_props h' (VRef c) !! p = Some (VRef wl)
                  ∧ h' !! wl = Some (Obj false (list_to_map [(sg, field)]))
       else own_props h' (VRef c) !! p = own_props h (VRef c) !! p).
Proof.
  induction fields as [|[p0 sg0] fields IH]; intros Hnd h o Hc; cbv zeta.
  { simpl. split; [done|]. split; [done|]. split; [by eexists|]. split; [done|].
    intros p sg Hin. by apply elem_of_nil in Hin. }
  apply NoDup_cons in Hnd as [Hp0 Hnd]. fold (fmap (M := list) (@fst string string)) in *.
  assert (Hlt : c < length h) by (by eapply lookup_lt_Some).
  set (h1 := wrap_heap c p0 sg0 h).
  assert (Hlen1 : length h ≤ length h1) by apply wrap_heap_length.
  assert (Hc1 : ∃ o1, h1 !! c = Some o1).
  { apply lookup_lt_is_Some. lia. }
  destruct Hc1 as [o1 Hc1].
  destruct (IH Hnd h1 o1 Hc1) as (Hlen & Hframe & Halloc & Hother & Hfields).
  change (wrap_all c ((p0, sg0) :: fields) h) with (wrap_all c fields h1).
  split; [lia|]. split.
  { intros l Hl Hll. rewrite Hframe by (done || lia). by apply wrap_heap_lookup_ne. }
  split; [done|]. split.
  { intros q Hq. apply not_elem_of_cons in Hq as [Hq0 Hq].
    rewrite Hother by done. by apply wrap_heap_props_ne. }
  intros p sg Hin. apply elem_of_cons in Hin as [[= -> ->]|Hin].
  - pose proof (wrap_heap_field c p0 sg0 h o Hc) as Hf. cbv zeta in Hf. fold h1 in Hf.
    destruct (truthy (hget h (VRef c) p0)) eqn:Ht.
    + destruct Hf as [Hp Hw]. exists (length h). split; [done|]. split.
      * by rewrite Hother.
      * rewrite Hframe; [done|lia|]. by eapply lookup_lt_Some.
    + rewrite Hf in *. by rewrite Hother.
  - assert (Hp : p ≠ p0).
    { intros ->. apply Hp0. apply list_elem_of_fmap. by exists (p0, sg). }
    specialize (Hfields p sg Hin). cbv zeta in Hfields.
    assert (Hget : hget h1 (VRef c) p = hget h (VRef c) p).
    { unfold hget. subst h1. by rewrite wrap_heap_props_ne. }
    rewrite Hget in Hfields.
    destruct (truthy (hget h (VRef c) p)).
    + destruct Hfields as (wl & Hwl & Hpw & Hw). exists wl. split; [lia|done].
    + rewrite Hfields. subst h1. by apply wrap_heap_props_ne.
Qed.

Lemma plural_fields_NoDup : NoDup plural_fields.*1.
Proof.
  unfold plural_fields. cbn [fmap list_fmap fst].
  repeat (apply NoDup_cons; split;
          [intros Hin; repeat (apply elem_of_cons in Hin as [Hin|Hin]; [discriminate|]);
           by apply elem_of_nil in Hin|]).
  apply NoDup_nil_2.
Qed.

End wrapping.

(** ** What the methods of ElectronicBilling compute *)

Section ElectronicBilling_runs.
Context `{Engine} {W : Type}.
Variable CUIT : value.
Variable delegate : AuthDelegate W.
Variable transport : SoapTransport W.

#[local] Abbreviation getWSInitialRequest := (ElectronicBilling.getWSInitialRequest CUIT delegate).
#[local] Abbreviation executeRequest := (ElectronicBilling.executeRequest CUIT delegate transport).
#[local] Abbreviation createVoucher := (ElectronicBilling.createVoucher CUIT delegate transport).

Implicit Types (h : heap) (w : W) (tr : list event).

Lemma getWSInitialRequest_run operation tokenAndSign h w tr :
  String.eqb operation "FEDummy" = false →
  getWSInitialRequest operation tokenAndSign (State h w tr)
  = let '(answer, w', evs) := credential_of delegate tokenAndSign h w in
    match answer with
    | Throw e => (Throw e, State h w' (tr ++ evs))
    | Ok c =>
        (Ok (VRef (length h + 1)),
         State (h ++ [Obj false (list_to_map [("Token", c.1); ("Sign", c.2); ("Cuit", CUIT)]);
                      Obj false (list_to_map [("Auth", VRef (length h))])])
               w' (tr ++ evs))
    end.
Proof.
  intros Hop. unfold ElectronicBilling.getWSInitialRequest, credential_of.
  rewrite Hop. apply wp_eq.
  destruct (truthy tokenAndSign) eqn:Hts.
  - wp_steps. by rewrite app_nil_r, <- app_assoc, length_app.
  - wp_prim. unfold GetServiceTA, wp. cbn.
    destruct (delegate w _) as [[c|e] w']; cbn; [|done].
    wp_steps. by rewrite <- app_assoc, length_app.
Qed.

Lemma executeRequest_run operation p o tokenAndSign h w tr :
  String.eqb operation "FEDummy" = false →
  h !! p = Some o →
  executeRequest operation (VRef p) tokenAndSign (State h w tr)
  = let '(answer, w', evs) := credential_of delegate tokenAndSign h w in
    match answer with
    | Throw e => (Throw e, State h w' (tr ++ evs))
    | Ok c =>
        send transport operation (VRef p) tokenAndSign
          (State (with_auth CUIT h p o c) w' (tr ++ evs))
    end.
Proof.
  intros Hop Hp. unfold ElectronicBilling.executeRequest.
  apply wp_eq. wp_prim. rewrite bool_decide_eq_false_2 by done. wp_steps. unfold wp at 1.
  rewrite getWSInitialRequest_run by done.
  destruct (credential_of delegate tokenAndSign h w) as [[[c|e] w'] evs]; cbn [fst snd]; [|done].
  eapply wp_bind, wp_Object_assign; cbn [st_heap st_world st_trace].
  { rewrite lookup_app_l; [done|]. by eapply lookup_lt_Some. }
  unfold send, after_transport, with_auth.
  rewrite (own_props_new _ _ 1 (Obj false (list_to_map [("Auth", VRef (length h))]))) by done.
  cbn [props]. apply wp_refl.
Qed.

(** The health check: nothing is merged into the parameters. *)
Lemma executeRequest_FEDummy p o tokenAndSign h w tr :
  h !! p = Some o →
  executeRequest "FEDummy" (VRef p) tokenAndSign (State h w tr)
  = send transport "FEDummy" (VRef p) tokenAndSign
      (State (<[p := Obj (is_array o) (props o)]> (h ++ [Obj false (list_to_map [])])) w tr).
Proof.
  intros Hp. unfold ElectronicBilling.executeRequest.
  apply wp_eq. wp_prim. rewrite bool_decide_eq_false_2 by done. wp_steps.
  unfold ElectronicBilling.getWSInitialRequest. cbn [String.eqb Ascii.eqb Bool.eqb].
  wp_steps.
  rewrite own_props_new0. cbn [props].
  replace (list_to_map [] ∪ props o) with (props o) by (symmetry; apply (left_id_L ∅ (∪))).
  apply wp_bind_refl.
Qed.

(** [params = {}] *)
Lemma executeRequest_default operation tokenAndSign h w tr :
  executeRequest operation VUndef tokenAndSign (State h w tr)
  = executeRequest operation (VRef (length h)) tokenAndSign
      (State (h ++ [Obj false (list_to_map [])]) w tr).
Proof. reflexivity. Qed.

Lemma send_run operation params tokenAndSign h w tr :
  send transport operation params tokenAndSign (State h w tr)
  = let '(answer, w') := transport w h operation params tokenAndSign in
    match answer with
    | Throw e =>
        (Throw e, State h w' (tr ++ [Soap operation params tokenAndSign h (Throw e) h]))
    | Ok t =>
        let '(results, h') := alloc_tree t h in
        after_transport operation results
          (State h' w' (tr ++ [Soap operation params tokenAndSign h (Ok results) h']))
    end.
Proof.
  unfold send, bind, super_executeRequest. cbn [st_heap st_world st_trace].
  destruct (transport w h operation params tokenAndSign) as [[t|e] w']; [|done].
  by destruct (alloc_tree t h).
Qed.

Lemma wrap_run c plural singular h w tr :
  ElectronicBilling.wrap (VRef c) plural singular (State h w tr)
  = (Ok tt, State (wrap_heap c plural singular h) w tr).
Proof.
  unfold ElectronicBilling.wrap, wrap_heap. apply wp_eq. wp_steps.
  destruct (truthy (hget h (VRef c) plural)); wp_steps; done.
Qed.

Lemma wp_wrap c plural singular Q (s : state W) :
  Q (Ok tt) (State (wrap_heap c plural singular (st_heap s)) (st_world s) (st_trace s)) →
  wp (ElectronicBilling.wrap (VRef c) plural singular) Q s.
Proof. destruct s as [h w tr]. intros HQ. eapply wp_intro; [apply wrap_run|done]. Qed.

Lemma createVoucher_stages data returnResponse tokenAndSign (s : state W) :
  createVoucher data returnResponse tokenAndSign s
  = (p <- createVoucher_request data ;;
     results <- executeRequest "FECAESolicitar" p.1 p.2 ;;
     createVoucher_result (default_false returnResponse) results) s.
Proof.
  unfold ElectronicBilling.createVoucher, createVoucher_request, createVoucher_result,
    default_false, bind.
  repeat match goal with
         | |- context [match ?m ?s0 with _ => _ end] =>
             lazymatch m with
             | ElectronicBilling.executeRequest _ _ _ _ _ _ => fail
             | _ => destruct (m s0) as [[?|?] ?]; try reflexivity
             end
         end.
Qed.

Lemma createVoucher_request_run data h w tr :
  nullish data = false →
  createVoucher_request data (State h w tr)
  = match CantReg_of h data with
    | Throw e => (Throw e, State (h ++ [Obj false (own_props h data)]) w tr)
    | Ok CantReg =>
        (Ok (VRef (length h + 4), hget h data "token"),
         State (request_heap h data CantReg) w tr)
    end.
Proof.
  intros Hdata. unfold createVoucher_request, CantReg_of, request_heap, detail_props.
  apply wp_eq. wp_steps.
  rewrite own_props_fresh, insert_new0. cbn [is_array props].
  replace (own_props h data ∪ list_to_map []) with (own_props h data)
    by (symmetry; apply (right_id_L ∅ (∪))).
  wp_steps. unfold js_sub, js_add. wp_steps.
  rewrite !hget_new0. cbn [props]. fold (hget h data "CbteHasta") (hget h data "CbteDesde").
  destruct (subtract _ _ _) as [difference|e]; [|done].
  wp_steps.
  destruct (add _ _ _) as [CantReg|e]; [|done].
  wp_steps. heap_norm.
  rewrite !hget_new0. cbn [props].
  fold (hget h data "PtoVta") (hget h data "CbteTipo").
  rewrite !hdelete_new0. cbn [is_array props].
  repeat first [wp_prim | apply wp_wrap; cbv beta iota; cbn [st_heap st_world st_trace]].
  done.
Qed.

Lemma request_heap_spec h data CantReg :
  let n := length h in
  let h1 := request_heap h data CantReg in
  n + 5 ≤ length h1
  ∧ (∀ l, l < n → h1 !! l = h !! l)
  ∧ h1 !! (n + 1) = Some (Obj false (list_to_map [("CantReg", CantReg);
                                                  ("PtoVta", hget h data "PtoVta");
                                                  ("CbteTipo", hget h data "CbteTipo")]))
  ∧ h1 !! (n + 2) = Some (Obj false (list_to_map [("FECAEDetRequest", VRef n)]))
  ∧ h1 !! (n + 3) = Some (Obj false (list_to_map [("FeCabReq", VRef (n + 1));
                                                  ("FeDetReq", VRef (n + 2))]))
  ∧ h1 !! (n + 4) = Some (Obj false (list_to_map [("FeCAEReq", VRef (n + 3))]))
  ∧ is_Some (h1 !! n)
  ∧ (∀ q, q ∉ plural_fields.*1 → own_props h1 (VRef n) !! q = detail_props h data !! q)
  ∧ (∀ p sg, (p, sg) ∈ plural_fields →
       let field := hget h data p in
       if truthy field
       then ∃ wl, n + 5 ≤ wl
                  ∧ own_props h1 (VRef n) !! p = Some (VRef wl)
                  ∧ h1 !! wl = Some (Obj false (list_to_map [(sg, field)]))
       else own_props h1 (VRef n) !! p = own_props h data !! p).
Proof.
  cbv zeta. unfold request_heap.
  match goal with |- context [wrap_all _ _ ?hb] => set (base := hb) end.
  assert (Hc : base !! length h = Some (Obj false (detail_props h data)))
    by apply lookup_new0.
  assert (Hlen : length base = length h + 5) by (unfold base; by rewrite length_app).
  destruct (wrap_all_spec (length h) plural_fields plural_fields_NoDup base _ Hc)
    as (Hl & Hframe & Halloc & Hother & Hfields).
  split; [lia|]. split.
  { intros l Hlt. rewrite Hframe by lia. unfold base. by rewrite lookup_app_l. }
  repeat (split; [rewrite Hframe by lia; unfold base; by rewrite lookup_new|]).
  split; [done|]. split.
  { intros q Hq. rewrite Hother by done. unfold base. by rewrite own_props_new0. }
  intros p sg Hin. specialize (Hfields p sg Hin). cbv zeta in Hfields.
  assert (Hp : detail_props h data !! p = own_props h data !! p).
  { unfold detail_props, plural_fields in *.
    repeat (apply elem_of_cons in Hin as [[= -> ->]|Hin];
            [by rewrite !lookup_delete_ne|]).
    by apply elem_of_nil in Hin. }
  assert (Hget : hget base (VRef (length h)) p = hget h data p).
  { unfold hget, base. by rewrite own_props_new0, <- Hp. }
  rewrite Hget in Hfields.
  destruct (truthy (hget h data p)).
  - destruct Hfields as (wl & Hwl & Hpw & Hw). exists wl. split; [lia|done].
  - rewrite Hfields. unfold base. by rewrite own_props_new0.
Qed.

(** [createVoucher] in one equation: the request it builds, the credential
    it signs with, and what it does with the answer. *)
Lemma createVoucher_run data returnResponse tokenAndSign h w tr :
  nullish data = false →
  createVoucher data returnResponse tokenAndSign (State h w tr)
  = match CantReg_of h data with
    | Throw e => (Throw e, State (h ++ [Obj false (own_props h data)]) w tr)
    | Ok CantReg =>
        let h1 := request_heap h data CantReg in
        let token := hget h data "token" in
        let req := Obj false (list_to_map [("FeCAEReq", VRef (length h + 3))]) in
        let '(answer, w', evs) := credential_of delegate token h1 w in
        match answer with
        | Throw e => (Throw e, State h1 w' (tr ++ evs))
        | Ok c =>
            (results <- send transport "FECAESolicitar" (VRef (length h + 4)) token ;;
             createVoucher_result (default_false returnResponse) results)
              (State (with_auth CUIT h1 (length h + 4) req c) w' (tr ++ evs))
        end
    end.
Proof.
  intros Hdata. rewrite createVoucher_stages. unfold bind at 1.
  rewrite createVoucher_request_run by done.
  destruct (CantReg_of h data) as [CantReg|e]; [|done].
  cbn [fst snd]. cbv zeta.
  destruct (request_heap_spec h data CantReg) as (_ & _ & _ & _ & _ & Hreq & _).
  unfold bind at 1. rewrite (executeRequest_run "FECAESolicitar" _ _ _ _ _ _ eq_refl Hreq).
  destruct (credential_of _ _ _ _) as [[[c|e] w'] evs]; [|done].
  reflexivity.
Qed.

Lemma credential_of_events tokenAndSign h w answer w' evs :
  credential_of delegate tokenAndSign h w = (answer, w', evs) →
  evs = [] ∨ evs = [GetTA "ws_sr_constancia_inscripcion" answer].
Proof.
  unfold credential_of. destruct (truthy tokenAndSign).
  - intros [= <- <- <-]. by left.
  - destruct (delegate w _) as [a w0]. intros [= <- <- <-]. by right.
Qed.

Lemma send_bind_run {A} operation params tokenAndSign (k : value → M W A) h w tr :
  (results <- send transport operation params tokenAndSign ;; k results) (State h w tr)
  = let '(answer, w') := transport w h operation params tokenAndSign in
    match answer with
    | Throw e =>
        (Throw e, State h w' (tr ++ [Soap operation params tokenAndSign h (Throw e) h]))
    | Ok t =>
        let '(results, h') := alloc_tree t h in
        (res <- after_transport operation results ;; k res)
          (State h' w' (tr ++ [Soap operation params tokenAndSign h (Ok results) h']))
    end.
Proof.
  unfold bind at 1. rewrite send_run.
  destruct (transport w h operation params tokenAndSign) as [[t|e] w']; [|done].
  by destruct (alloc_tree t h).
Qed.

(** A request that is sent, followed by a computation that calls no
    collaborator: one exchange with the transport is added to the trace,
    and the rest of the run is the treatment of the answer. *)
Lemma send_cases {A} operation params tokenAndSign (k : value → M W A) h w tr :
  (∀ v, quiet (k v)) →
  let run := (results <- send transport operation params tokenAndSign ;; k results)
               (State h w tr) in
  ∃ answer hr w',
    let ev := Soap operation params tokenAndSign h answer hr in
    st_trace run.2 = tr ++ [ev]
    ∧ match answer with
      | Throw e => run = (Throw e, State h w' (tr ++ [ev])) ∧ hr = h
      | Ok results =>
          (∃ t, alloc_tree t h = (results, hr))
          ∧ run = (res <- after_transport operation results ;; k res)
                    (State hr w' (tr ++ [ev]))
      end.
Proof.
  intros Hk. cbv zeta. rewrite send_bind_run.
  destruct (transport w h operation params tokenAndSign) as [[t|e] w'].
  - destruct (alloc_tree t h) as [results hr] eqn:Et.
    exists (Ok results), hr, w'. cbv zeta. split; [|split; [by exists t|reflexivity]].
    assert (Hq : quiet (res <- after_transport operation results ;; k res)).
    { apply quiet_bind; [apply quiet_after_transport|done]. }
    apply Hq.
  - exists (Throw e), h, w'. cbv zeta. repeat split; reflexivity.
Qed.

Lemma send_trace operation params tokenAndSign h w tr :
  ∃ answer hr,
    st_trace (send transport operation params tokenAndSign (State h w tr)).2
    = tr ++ [Soap operation params tokenAndSign h answer hr].
Proof.
  rewrite send_run.
  destruct (transport w h operation params tokenAndSign) as [[t|e] w'].
  - destruct (alloc_tree t h) as [results hr]. exists (Ok results), hr.
    apply quiet_after_transport.
  - by exists (Throw e), h.
Qed.

(** What [executeRequest] adds to the trace: the call for a credential, if
    it makes one, then at most the request itself. *)
Lemma executeRequest_trace operation params tokenAndSign (s : state W) :
  String.eqb operation "FEDummy" = false →
  ∃ h1, let '(answer, w', evs) := credential_of delegate tokenAndSign h1 (st_world s) in
  ∃ rest,
    st_trace (executeRequest operation params tokenAndSign s).2 = st_trace s ++ evs ++ rest
    ∧ (rest = [] ∨ ∃ p hs a hr, rest = [Soap operation p tokenAndSign hs a hr]).
Proof.
  intros Hop. destruct s as [h w tr]. cbn [st_world st_trace].
  unfold ElectronicBilling.executeRequest.
  set (first := if bool_decide (params = VUndef) then new_object [] else ret params).
  assert (Hfirst : ∃ p h1, first (State h w tr) = (Ok p, State h1 w tr)).
  { unfold first. destruct (bool_decide _); by eexists _, _. }
  destruct Hfirst as (p & h1 & Hfirst). exists h1.
  unfold bind at 1. rewrite Hfirst. unfold bind at 1.
  rewrite getWSInitialRequest_run by done.
  destruct (credential_of delegate tokenAndSign h1 w) as [[[c|e] w'] evs].
  2:{ exists []. rewrite app_nil_r. split; [done|by left]. }
  unfold bind at 1.
  match goal with |- context [Object_assign p ?i ?s0] =>
    pose proof (quiet_Object_assign (W := W) p i s0) as [Hq _];
    destruct (Object_assign p i s0) as [[a|e] [h2 w2 tr2]]
  end; cbn [fst snd st_trace] in Hq; subst tr2.
  2:{ exists []. rewrite app_nil_r. split; [done|by left]. }
  destruct (send_trace operation p tokenAndSign h2 w2 (tr ++ evs)) as (answer & hr & Htr).
  exists [Soap operation p tokenAndSign h2 answer hr]. split.
  - rewrite <- app_assoc in Htr. exact Htr.
  - right. by eexists _, _, _, _.
Qed.

(** Every run of [createVoucher]: either it fails before anything is sent,
    having at most asked the delegate, or it sends one request, built as
    [request_heap] and [with_auth] say, and goes on with the answer. *)
Lemma createVoucher_cases data returnResponse tokenAndSign h w tr :
  let run := createVoucher data returnResponse tokenAndSign (State h w tr) in
  let n := length h in
  let token := hget h data "token" in
  (∃ e evs, run.1 = Throw e ∧ st_trace run.2 = tr ++ evs
            ∧ (evs = [] ∨ ∃ a, evs = [GetTA "ws_sr_constancia_inscripcion" a]))
  ∨ (∃ CantReg c w1 evs0 answer hr w2,
       nullish data = false
       ∧ CantReg_of h data = Ok CantReg
       ∧ credential_of delegate token (request_heap h data CantReg) w = (Ok c, w1, evs0)
       ∧ let hs := with_auth CUIT (request_heap h data CantReg) (n + 4)
                     (Obj false (list_to_map [("FeCAEReq", VRef (n + 3))])) c in
         let ev := Soap "FECAESolicitar" (VRef (n + 4)) token hs answer hr in
         st_trace run.2 = tr ++ evs0 ++ [ev]
         ∧ match answer with
           | Throw e => run = (Throw e, State hs w2 (tr ++ evs0 ++ [ev])) ∧ hr = hs
           | Ok results =>
               (∃ t, alloc_tree t hs = (results, hr))
               ∧ run = (res <- after_transport "FECAESolicitar" results ;;
                        createVoucher_result (default_false returnResponse) res)
                         (State hr w2 (tr ++ evs0 ++ [ev]))
           end).
Proof.
  cbv zeta. destruct (nullish data) eqn:Hdata.
  { left. exists (TypeError ("Cannot read properties of " +:+ nullish_name data
                               +:+ " (reading 'token')")), [].
    rewrite app_nil_r.
    destruct data; try discriminate; repeat split; try reflexivity; by left. }
  rewrite createVoucher_run by done.
  destruct (CantReg_of h data) as [CantReg|e].
  2:{ left. exists e, []. rewrite app_nil_r. repeat split; try reflexivity. by left. }
  cbv zeta.
  destruct (credential_of _ _ _ _) as [[[c|e] w1] evs0] eqn:Hcred.
  2:{ left. exists e, evs0. repeat split; try reflexivity.
      apply credential_of_events in Hcred as [->| ->]; [by left|right; by eexists]. }
  right.
  destruct (send_cases "FECAESolicitar" (VRef (length h + 4)) (hget h data "token")
              (createVoucher_result (default_false returnResponse))
              (with_auth CUIT (request_heap h data CantReg) (length h + 4)
                 (Obj false (list_to_map [("FeCAEReq", VRef (length h + 3))])) c)
              w1 (tr ++ evs0))
    as (answer & hr & w2 & Htr & Hrun); [apply quiet_createVoucher_result|].
  exists CantReg, c, w1, evs0, answer, hr, w2.
  rewrite <- !app_assoc in Htr, Hrun.
  split; [done|]. split; [done|]. split; [done|]. split; [exact Htr|exact Hrun].
Qed.

Lemma with_auth_lookup_ne h1 p o c l :
  l ≠ p → l < length h1 → with_auth CUIT h1 p o c !! l = h1 !! l.
Proof.
  intros Hne Hl. unfold with_auth.
  rewrite list_lookup_insert_ne by done. by rewrite lookup_app_l.
Qed.

Lemma with_auth_props h1 p o c :
  h1 !! p = Some o →
  own_props (with_auth CUIT h1 p o c) (VRef p)
  = list_to_map [("Auth", VRef (length h1))] ∪ props o.
Proof.
  intros Hp. unfold with_auth. simpl.
  rewrite list_lookup_insert_eq; [done|].
  rewrite length_app. apply lookup_lt_Some in Hp. lia.
Qed.

Lemma with_auth_Auth h1 p o c :
  p < length h1 →
  with_auth CUIT h1 p o c !! length h1
  = Some (Obj false (list_to_map [("Token", c.1); ("Sign", c.2); ("Cuit", CUIT)])).
Proof.
  intros Hp. unfold with_auth.
  rewrite list_lookup_insert_ne by lia. apply lookup_new0.
Qed.

(** The request [createVoucher] sends, as it is in the store at that
    moment: the envelope leads to the copy of [data] at [length h], whose
    properties are those [request_heap] gave it. *)
Lemma createVoucher_sent data returnResponse tokenAndSign h w tr ev :
  exchanged (State h w tr)
            (createVoucher data returnResponse tokenAndSign (State h w tr)).2 ev →
  (∃ a, ev = GetTA "ws_sr_constancia_inscripcion" a)
  ∨ ∃ CantReg c hs answer hr,
      let n := length h in
      let h1 := request_heap h data CantReg in
      nullish data = false
      ∧ CantReg_of h data = Ok CantReg
      ∧ hs = with_auth CUIT h1 (n + 4)
               (Obj false (list_to_map [("FeCAEReq", VRef (n + 3))])) c
      ∧ ev = Soap "FECAESolicitar" (VRef (n + 4)) (hget h data "token") hs answer hr
      ∧ hget hs (hget hs (hget hs (VRef (n + 4)) "FeCAEReq") "FeDetReq") "FECAEDetRequest"
        = VRef n
      ∧ own_props hs (VRef n) = own_props h1 (VRef n)
      ∧ (∀ l, l ≠ n + 4 → l < length h1 → hs !! l = h1 !! l).
Proof.
  intros (evs & Htr & Hev). cbn [st_trace] in Htr.
  destruct (createVoucher_cases data returnResponse tokenAndSign h w tr)
    as [(e & evs' & _ & Htr' & Hevs)
       |(CantReg & c & w1 & evs0 & answer & hr & w2 & Hdata & Hcant & Hcred & Htr' & _)].
  - rewrite Htr' in Htr. apply app_inv_head in Htr as <-.
    destruct Hevs as [->|[a ->]]; [by apply elem_of_nil in Hev|].
    apply list_elem_of_singleton in Hev as ->. left. by exists a.
  - cbv zeta in Htr'. rewrite Htr' in Htr. apply app_inv_head in Htr as <-.
    apply credential_of_events in Hcred as Hevs0.
    apply elem_of_app in Hev as [Hev|Hev].
    { destruct Hevs0 as [->| ->]; [by apply elem_of_nil in Hev|].
      apply list_elem_of_singleton in Hev as ->. left. by eexists. }
    apply list_elem_of_singleton in Hev as ->. right.
    destruct (request_heap_spec h data CantReg)
      as (Hlen & _ & _ & Hdet & Hfe & Hreq & _).
    cbv zeta in Hlen, Hdet, Hfe, Hreq.
    set (h1 := request_heap h data CantReg) in *.
    set (hs := with_auth CUIT h1 _ _ c).
    exists CantReg, c, hs, answer, hr. cbv zeta. fold h1.
    assert (Hne : ∀ l, l ≠ length h + 4 → l < length h1 → hs !! l = h1 !! l)
      by (intros; by apply with_auth_lookup_ne).
    split; [done|]. split; [done|]. split; [reflexivity|]. split; [done|]. split.
    + assert (E1 : hget hs (VRef (length h + 4)) "FeCAEReq" = VRef (length h + 3)).
      { unfold hget, hs. rewrite (with_auth_props _ _ _ _ Hreq). cbn [props].
        by vm_compute. }
      assert (E2 : hget hs (VRef (length h + 3)) "FeDetReq" = VRef (length h + 2)).
      { unfold hget. cbn [own_props]. rewrite Hne, Hfe by lia. cbn [props].
        by vm_compute. }
      assert (E3 : hget hs (VRef (length h + 2)) "FECAEDetRequest" = VRef (length h)).
      { unfold hget. cbn [own_props]. rewrite Hne, Hdet by lia. cbn [props].
        by vm_compute. }
      by rewrite E1, E2, E3.
    + split; [|done]. cbn [own_props]. by rewrite Hne by lia.
Qed.

End ElectronicBilling_runs.

(** ** How an answer to [FECAESolicitar] is treated *)

Section answers.
Context `{Engine} {W : Type}.
Implicit Types (h : heap) (w : W) (tr : list event).

Lemma wp_collapse_checkErrors lres lfd h w tr Q :
  hget h (VRef lres) "FeDetResp" = VRef lfd →
  Q (Ok tt) (State (collapse_detail h lfd) w tr) →
  wp (detail <- get (VRef lfd) "FECAEDetResponse" ;;
      isArr <- Array_isArray detail ;;
      if isArr
      then first <- get detail "0" ;;
           FeDetResp <- get (VRef lres) "FeDetResp" ;;
           set FeDetResp "FECAEDetResponse" first
      else ret tt) Q (State h w tr).
Proof.
  intros Hfd HQ. unfold collapse_detail in HQ. cbv zeta in HQ.
  repeat wp_prim.
  destruct (isArray h (hget h (VRef lfd) "FECAEDetResponse")) eqn:Harr.
  - repeat wp_prim. rewrite Hfd. by repeat wp_prim.
  - by repeat wp_prim.
Qed.

Lemma checkErrors_passes results lres lfd h w tr :
  hget h results "FECAESolicitarResult" = VRef lres →
  hget h (VRef lres) "FeDetResp" = VRef lfd →
  let detail := first_if_array h (hget h (VRef lfd) "FECAEDetResponse") in
  nullish detail = false →
  truthy (hget h detail "Observaciones") && negb (strict_eq (hget h detail "Resultado") (VStr "A"))
  = false →
  truthy (hget h (VRef lres) "Errors") = false →
  ElectronicBilling._checkErrors "FECAESolicitar" results (State h w tr)
  = (Ok tt, State (collapse_detail h lfd) w tr).
Proof.
  intros Hres Hfd detail Hdetail Hobs Herrors.
  assert (Hresults : nullish results = false) by (by destruct results).
  unfold ElectronicBilling._checkErrors.
  change ("FECAESolicitar" +:+ "Result") with "FECAESolicitarResult".
  cbn [String.eqb Ascii.eqb Bool.eqb].
  apply wp_eq. repeat wp_prim. rewrite Hres. repeat wp_prim. rewrite Hfd. cbn [truthy].
  wp_prim. apply wp_collapse_checkErrors; [done|]. cbv beta iota.
  repeat wp_prim. rewrite hget_collapse_ne, Hfd by done.
  repeat wp_prim. rewrite hget_collapse. fold detail.
  repeat wp_prim. rewrite !hget_collapse_ne by done.
  destruct (truthy (hget h detail "Observaciones")) eqn:Ho.
  - repeat wp_prim. rewrite !hget_collapse_ne, Hfd by done.
    repeat wp_prim. rewrite hget_collapse. fold detail.
    repeat wp_prim. rewrite !hget_collapse_ne by done.
    cbn [andb] in Hobs. rewrite Hobs.
    repeat wp_prim. rewrite !hget_collapse_ne by done. rewrite Herrors.
    by repeat wp_prim.
  - repeat wp_prim. rewrite !hget_collapse_ne by done. rewrite Herrors.
    by repeat wp_prim.
Qed.

Lemma checkErrors_observations results lres lfd h w tr c m :
  hget h results "FECAESolicitarResult" = VRef lres →
  hget h (VRef lres) "FeDetResp" = VRef lfd →
  let detail := first_if_array h (hget h (VRef lfd) "FECAEDetResponse") in
  let Observaciones := hget h detail "Observaciones" in
  let obs := first_if_array h (hget h Observaciones "Obs") in
  truthy Observaciones = true →
  strict_eq (hget h detail "Resultado") (VStr "A") = false →
  nullish obs = false →
  (∀ h', ToString h' (hget h obs "Code") = Ok c) →
  (∀ h', ToString h' (hget h obs "Msg") = Ok m) →
  ∃ h', ElectronicBilling._checkErrors "FECAESolicitar" results (State h w tr)
        = (Throw (Exn ("(" +:+ c +:+ ") " +:+ m) VUndef), State h' w tr).
Proof.
  intros Hres Hfd detail Observaciones obs Ho Hr Hobs Hc Hm.
  assert (Hresults : nullish results = false) by (by destruct results).
  assert (Hdetail : nullish detail = false) by (by eapply hget_truthy_not_nullish).
  assert (HO : nullish Observaciones = false) by (by apply truthy_not_nullish).
  assert (Hlres : lres < length h).
  { destruct (hget_ref_Some h lres "FeDetResp" _ Hfd) as (ores & Hlres & _); [done|].
    by eapply lookup_lt_Some. }
  eexists. unfold ElectronicBilling._checkErrors, ElectronicBilling.error_text, new_Error.
  change ("FECAESolicitar" +:+ "Result") with "FECAESolicitarResult".
  cbn [String.eqb Ascii.eqb Bool.eqb].
  apply wp_eq. repeat wp_prim. rewrite Hres. repeat wp_prim. rewrite Hfd. cbn [truthy].
  wp_prim. apply wp_collapse_checkErrors; [done|]. cbv beta iota.
  repeat wp_prim. hsimp. rewrite Hfd.
  repeat wp_prim. hsimp. fold detail.
  repeat wp_prim. hsimp. fold Observaciones. rewrite Ho.
  repeat wp_prim. hsimp. rewrite Hfd.
  repeat wp_prim. hsimp. fold detail.
  repeat wp_prim. hsimp. rewrite Hr. cbn [negb].
  repeat wp_prim. hsimp. rewrite Hfd.
  repeat wp_prim. hsimp. fold detail.
  repeat wp_prim. hsimp. fold Observaciones.
  repeat wp_prim. hsimp.
  set (Obs := hget h Observaciones "Obs") in *.
  assert (Herrors : ∀ x, hget (hset (collapse_detail h lfd ++ [Obj false (list_to_map [("Err", Obs)])])
                          lres "Errors" x) (VRef lres) "Errors" = x).
  { intros x. apply hget_hset_same. rewrite length_app, collapse_length. lia. }
  assert (HErr : ∀ x, hget (hset (collapse_detail h lfd ++ [Obj false (list_to_map [("Err", Obs)])])
                          lres "Errors" x) (VRef (length (collapse_detail h lfd))) "Err" = Obs).
  { intros x. rewrite hget_hset_ne by done. rewrite hget_new0. cbn [props].
    unfold list_to_map. cbn [foldr curry fst snd]. by rewrite lookup_insert_eq. }
  rewrite Herrors. cbn [truthy].
  repeat wp_prim. rewrite Herrors. repeat wp_prim. rewrite HErr.
  hsimp. eapply (wp_known _ _ _ obs).
  { unfold obs, first_if_array. fold Obs. destruct (isArray h Obs) eqn:Harr.
    - repeat wp_prim. rewrite Herrors. repeat wp_prim. rewrite HErr.
      repeat wp_prim. by hsimp.
    - repeat wp_prim. rewrite Herrors. repeat wp_prim. by rewrite HErr. }
  cbv beta iota. repeat wp_prim. hsimp. rewrite Hc, Hm. repeat wp_prim. reflexivity.
Qed.

Lemma hget_not_nullish h v k : nullish (hget h v k) = false → nullish v = false.
Proof. destruct (nullish v) eqn:E; [|done]. by rewrite hget_nullish. Qed.

Lemma confined_more {A} n vs vs' (m : M W A) post :
  confined n vs m post → vs ⊆ vs' → confined n vs' m post.
Proof.
  intros Hm Hsub s Hn Hc Hvs. apply Hm; [done..|].
  apply Forall_forall. intros v Hv. eapply Forall_forall in Hvs; [done|]. by apply Hsub.
Qed.

(** What [createVoucher] does with an answer stays within the answer. *)
Lemma confined_treatment n returnResponse results :
  confined n [results]
    (res <- after_transport (W := W) "FECAESolicitar" results ;;
     createVoucher_result returnResponse res) (in_region n).
Proof.
  apply confined_bind_value; [apply confined_after_transport|].
  intros a. eapply confined_more; [apply confined_createVoucher_result|].
  intros v Hv%list_elem_of_singleton. subst. apply list_elem_of_here.
Qed.

Lemma treatment_frame t hs results hr returnResponse w tr :
  alloc_tree t hs = (results, hr) →
  let run := (res <- after_transport "FECAESolicitar" results ;;
              createVoucher_result returnResponse res) (State hr w tr) in
  (∀ l, l < length hs → st_heap run.2 !! l = hs !! l)
  ∧ (∀ a, run.1 = Ok a → in_region (length hs) (st_heap run.2) a).
Proof.
  intros ([R ->] & Hc & Hres)%alloc_tree_fresh. cbv zeta.
  destruct (confined_treatment (length hs) returnResponse results (State (hs ++ R) w tr))
    as (Hframe & _ & _ & Hpost).
  - cbn. rewrite length_app. lia.
  - done.
  - by constructor.
  - split; [|done]. intros l Hl. rewrite Hframe by done. cbn. by rewrite lookup_app_l.
Qed.

Lemma wp_collapse_again lres lfd h w tr Q :
  hget h (VRef lres) "FeDetResp" = VRef lfd →
  Q (Ok tt) (State (collapse_detail h lfd) w tr) →
  wp (if isArray h (hget h (VRef lfd) "FECAEDetResponse")
      then FeDetResp <- get (VRef lres) "FeDetResp" ;;
           detail <- get FeDetResp "FECAEDetResponse" ;;
           first <- get detail "0" ;;
           FeDetResp <- get (VRef lres) "FeDetResp" ;;
           set FeDetResp "FECAEDetResponse" first
      else ret tt) Q (State h w tr).
Proof.
  intros Hfd HQ. unfold collapse_detail in HQ. cbv zeta in HQ.
  destruct (isArray h (hget h (VRef lfd) "FECAEDetResponse")) eqn:Harr.
  - repeat wp_prim. rewrite Hfd. repeat wp_prim. rewrite Hfd. by repeat wp_prim.
  - by repeat wp_prim.
Qed.

(** The minimal result: the detail is reduced to its first element if it
    is an array, and the pair is read off it. *)
Lemma createVoucher_result_minimal returnResponse lres lfd h w tr str :
  strict_eq returnResponse (VBool true) = false →
  hget h (VRef lres) "FeDetResp" = VRef lfd →
  let detail := first_if_array h (hget h (VRef lfd) "FECAEDetResponse") in
  let date := hget h detail "CAEFchVto" in
  nullish date = false →
  (∀ h', ToString h' date = Ok str) →
  createVoucher_result returnResponse (VRef lres) (State h w tr)
  = (Ok (VRef (length h)),
     State (collapse_detail h lfd
              ++ [Obj false (list_to_map [("CAE", hget h detail "CAE");
                                          ("CAEFchVto", VStr (replace_yyyymmdd str))])])
           w tr).
Proof.
  intros Hrr Hfd detail date Hdate Hstr.
  assert (Hdetail : nullish detail = false) by (by eapply hget_not_nullish).
  unfold createVoucher_result. rewrite Hrr.
  apply wp_eq. repeat wp_prim. rewrite Hfd. repeat wp_prim.
  apply wp_collapse_again; [done|]. cbv beta iota.
  repeat wp_prim. hsimp. rewrite Hfd.
  repeat wp_prim. hsimp. fold detail.
  repeat wp_prim. hsimp. rewrite Hfd.
  repeat wp_prim. hsimp. fold detail.
  repeat wp_prim. hsimp. fold date.
  unfold ElectronicBilling.formatDate. repeat wp_prim.
  rewrite Hstr. replace (match date with VUndef | VNull => _ | _ => _ end)
    with (Ok (A := value) (VStr (replace_yyyymmdd str))) by (by destruct date).
  repeat wp_prim. by rewrite collapse_length.
Qed.

End answers.

Section createVoucher_answers.
Context `{Engine} {W : Type}.
Variable CUIT : value.
Variable delegate : AuthDelegate W.
Variable transport : SoapTransport W.

#[local] Abbreviation createVoucher := (ElectronicBilling.createVoucher CUIT delegate transport).

(** When the last thing a run of [createVoucher] did with the outside
    world was to receive an answer, the rest of the run is the treatment
    of that answer. *)
Lemma createVoucher_answered data returnResponse tokenAndSign (s : state W)
    params token hs results hr :
  last_exchanged s (createVoucher data returnResponse tokenAndSign s).2
    (Soap "FECAESolicitar" params token hs (Ok results) hr) →
  ∃ t w2 tr2,
    alloc_tree t hs = (results, hr)
    ∧ createVoucher data returnResponse tokenAndSign s
      = (res <- after_transport "FECAESolicitar" results ;;
         createVoucher_result (default_false returnResponse) res) (State hr w2 tr2).
Proof.
  destruct s as [h w tr]. intros (evs & Htr & Hlast). cbn [st_trace] in Htr.
  destruct (createVoucher_cases CUIT delegate transport data returnResponse tokenAndSign h w tr)
    as [(e & evs' & _ & Htr' & Hevs)
       |(CantReg & c & w1 & evs0 & answer & hr' & w2 & _ & _ & _ & Htr' & Hrun)].
  - rewrite Htr' in Htr. apply app_inv_head in Htr as <-.
    by destruct Hevs as [->|[a ->]].
  - cbv zeta in Htr', Hrun. set (hs0 := with_auth CUIT _ _ _ c) in *.
    rewrite Htr' in Htr. apply app_inv_head in Htr as <-.
    rewrite last_snoc in Hlast. injection Hlast as _ _ Hhs -> ->.
    destruct Hrun as [[t Ht] Hrun]. rewrite Hhs in Ht, Hrun.
    by exists t, w2, (tr ++ evs0 ++ [Soap "FECAESolicitar" (VRef (length h + 4))
                                   (hget h data "token") hs (Ok results) hr]).
Qed.

(** A detail that passes the check and carries a date that prints as
    [str], in minimal mode. *)
Lemma createVoucher_minimal data returnResponse tokenAndSign (s : state W)
    params token hs results hr lres lfd str :
  let run := createVoucher data returnResponse tokenAndSign s in
  last_exchanged s run.2 (Soap "FECAESolicitar" params token hs (Ok results) hr) →
  strict_eq (default_false returnResponse) (VBool true) = false →
  hget hr results "FECAESolicitarResult" = VRef lres →
  hget hr (VRef lres) "FeDetResp" = VRef lfd →
  let element := first_if_array hr (hget hr (VRef lfd) "FECAEDetResponse") in
  isArray hr element = false →
  truthy (hget hr element "Observaciones")
    && negb (strict_eq (hget hr element "Resultado") (VStr "A")) = false →
  truthy (hget hr (VRef lres) "Errors") = false →
  nullish (hget hr element "CAEFchVto") = false →
  (∀ h', ToString h' (hget hr element "CAEFchVto") = Ok str) →
  ∃ res,
    run.1 = Ok res
    ∧ own_props (st_heap run.2) res
      = list_to_map [("CAE", hget hr element "CAE");
                     ("CAEFchVto", VStr (replace_yyyymmdd str))].
Proof.
  intros run Hlast Hrr Hres Hfd element Harr Hobs Herrors Hdate Hstr.
  apply createVoucher_answered in Hlast as (t & w2 & tr2 & _ & Hrun).
  assert (Helement : nullish element = false) by (by eapply hget_not_nullish).
  assert (Hresults : nullish results = false) by (by destruct results).
  set (hc := collapse_detail hr lfd).
  assert (E : first_if_array hc (hget hc (VRef lfd) "FECAEDetResponse") = element).
  { unfold hc. rewrite hget_collapse. fold element. unfold first_if_array.
    by rewrite isArray_collapse, Harr. }
  assert (Hfull : (res <- after_transport "FECAESolicitar" results ;;
                   createVoucher_result (default_false returnResponse) res) (State hr w2 tr2)
                  = (Ok (VRef (length hc)),
                     State (collapse_detail hc lfd
                              ++ [Obj false (list_to_map
                                    [("CAE", hget hr element "CAE");
                                     ("CAEFchVto", VStr (replace_yyyymmdd str))])])
                           w2 tr2)).
  { unfold after_transport. unfold bind at 1 2.
    rewrite (checkErrors_passes results lres lfd) by done. cbn [fst snd].
    change ("FECAESolicitar" +:+ "Result") with "FECAESolicitarResult".
    replace (get results "FECAESolicitarResult" (State (collapse_detail hr lfd) w2 tr2))
      with (Ok (A := value) (VRef lres), State (collapse_detail hr lfd) w2 tr2).
    2:{ symmetry. apply wp_eq. wp_prim. by rewrite hget_collapse_ne, Hres by done. }
    cbn [fst snd]. fold hc.
    rewrite (createVoucher_result_minimal _ lres lfd hc w2 tr2 str).
    - rewrite E. unfold hc at 3. by rewrite hget_collapse_ne.
    - done.
    - unfold hc. by rewrite hget_collapse_ne.
    - rewrite E. unfold hc. by rewrite hget_collapse_ne.
    - intros h'. rewrite E. unfold hc. by rewrite hget_collapse_ne. }
  subst run. rewrite Hrun, Hfull. cbn [fst snd st_heap].
  exists (VRef (length hc)). split; [done|].
  rewrite <- (collapse_length hc lfd). by rewrite own_props_new0.
Qed.

End createVoucher_answers.

(** ** The claims about ElectronicBilling *)

Section ElectronicBilling_claims.
Context `{Engine} {W : Type}.
Variable CUIT : value.
Variable delegate : AuthDelegate W.
Variable transport : SoapTransport W.

#[local] Abbreviation createVoucher := (ElectronicBilling.createVoucher CUIT delegate transport).

(** C3, as amended.  In the request [createVoucher] submits, each of
    Tributos, Iva, CbtesAsoc, Compradores, Opcionales is an object whose
    only property, named Tributo, AlicIva, CbteAsoc, Comprador, Opcional,
    is the caller's own value, if and only if the caller supplied a truthy
    value for it (any list is one, the empty list too); a field the caller
    did not supply stays absent, and one supplied with a falsy value is
    passed on as it is, unwrapped. *)
Theorem createVoucher_wraps_truthy_fields
    data returnResponse tokenAndSign (s : state W) params token hs answer hr
    plural singular :
  exchanged s (createVoucher data returnResponse tokenAndSign s).2
            (Soap "FECAESolicitar" params token hs answer hr) →
  (plural, singular) ∈ plural_fields →
  let field := hget (st_heap s) data plural in
  if truthy field
  then wrapped hs (detail_of hs params) plural singular field
  else own_props hs (detail_of hs params) !! plural = own_props (st_heap s) data !! plural.
Proof.
  destruct s as [h w tr]. intros Hex Hin. cbn [st_heap].
  apply createVoucher_sent in Hex
    as [[a [=]]|(CantReg & c & hs' & answer' & hr' & Hdata & Hcant & _ & Hev
                 & Hdetail & Hprops & Hold)].
  cbv zeta in *. injection Hev as -> -> -> -> ->.
  unfold wrapped, detail_of. rewrite Hdetail, Hprops.
  destruct (request_heap_spec h data CantReg) as (_ & _ & _ & _ & _ & _ & _ & _ & Hfields).
  specialize (Hfields plural singular Hin). cbv zeta in Hfields.
  destruct (truthy (hget h data plural)); [|done].
  destruct Hfields as (wl & Hwl & Hp & Hw). exists wl. split; [done|].
  rewrite Hold; [done|lia|]. by eapply lookup_lt_Some.
Qed.

#[local] Abbreviation executeRequest := (ElectronicBilling.executeRequest CUIT delegate transport).
#[local] Abbreviation getServerStatus := (ElectronicBilling.getServerStatus CUIT delegate transport).

(** C10.  Without a credential from the caller, a request for any
    operation but FEDummy begins by asking the delegate for a ticket of the
    service "ws_sr_constancia_inscripcion", and asks it nothing else (in
    particular nothing about "wsfe"); the health check asks nothing and
    sends parameters with no property at all, hence no Auth block. *)
Theorem executeRequest_asks_constancia_inscripcion
    operation params tokenAndSign (s : state W) :
  truthy tokenAndSign = false →
  (String.eqb operation "FEDummy" = false →
   ∃ rest,
     st_trace (executeRequest operation params tokenAndSign s).2
     = st_trace s
       ++ GetTA "ws_sr_constancia_inscripcion"
                (delegate (st_world s) "ws_sr_constancia_inscripcion").1 :: rest
     ∧ ∀ service answer, GetTA service answer ∉ rest)
  ∧ ∃ p hs answer hr,
      st_trace (getServerStatus tokenAndSign s).2
      = st_trace s ++ [Soap "FEDummy" p tokenAndSign hs answer hr]
      ∧ own_props hs p = ∅.
Proof.
  intros Hts. split.
  - intros Hop.
    destruct (executeRequest_trace CUIT delegate transport operation params tokenAndSign s Hop)
      as (h1 & Htrace).
    unfold credential_of in Htrace. rewrite Hts in Htrace.
    destruct (delegate (st_world s) "ws_sr_constancia_inscripcion") as [answer w'].
    destruct Htrace as (rest & Htr & Hrest). exists rest. split; [exact Htr|].
    intros service answer' Hin.
    destruct Hrest as [->|(p & hs & a & hr & ->)].
    + by apply elem_of_nil in Hin.
    + by apply list_elem_of_singleton in Hin.
  - destruct s as [h w tr]. unfold ElectronicBilling.getServerStatus.
    rewrite executeRequest_default.
    rewrite (executeRequest_FEDummy _ _ _ _ (Obj false (list_to_map [])))
      by apply lookup_new0.
    match goal with |- context [send _ _ _ _ (State ?hs _ _)] =>
      destruct (send_trace transport "FEDummy" (VRef (length h)) tokenAndSign hs w tr)
        as (answer & hr & Htr); exists (VRef (length h)), hs, answer, hr
    end.
    split; [exact Htr|]. cbn [own_props].
    rewrite list_lookup_insert_eq; [done|]. rewrite !length_app. cbn [length]. lia.
Qed.

#[local] Abbreviation getVoucherInfo := (ElectronicBilling.getVoucherInfo CUIT delegate transport).

(** Whenever the request of [getVoucherInfo] fails, [getVoucherInfo] fails:
    with the same error, or, when the handler has turned an error of code
    602 into [null], on reading [null.ResultGet]. *)
Lemma getVoucherInfo_failure number salesPoint type tokenAndSign h w tr e s1 :
  executeRequest "FECompConsultar" (VRef (length h + 1)) tokenAndSign
    (State (h ++ [Obj false (list_to_map [("CbteNro", number); ("PtoVta", salesPoint);
                                          ("CbteTipo", type)]);
                  Obj false (list_to_map [("FeCompConsReq", VRef (length h))])]) w tr)
  = (Throw e, s1) →
  getVoucherInfo number salesPoint type tokenAndSign (State h w tr)
  = (Throw (if strict_eq (code e) (VNum (Int 602))
            then TypeError "Cannot read properties of null (reading 'ResultGet')"
            else e), s1).
Proof.
  intros Hreq. unfold ElectronicBilling.getVoucherInfo.
  apply wp_eq. wp_steps. heap_norm. unfold wp, catch. rewrite Hreq.
  cbn [fst snd]. by destruct (strict_eq (code e) (VNum (Int 602))).
Qed.

End ElectronicBilling_claims.

(** C10 on the test double: asking for the last voucher with no credential
    at hand. *)
Lemma executeRequest_asks_constancia_inscripcion_witness :
  (String.eqb "FECompUltimoAutorizado" "FEDummy" = false →
   ∃ rest,
     st_trace (Mock.executeRequest Mock.happy "FECompUltimoAutorizado" VUndef VUndef
                 Mock.caller).2
     = st_trace Mock.caller
       ++ GetTA "ws_sr_constancia_inscripcion"
                (Mock.delegate (st_world Mock.caller) "ws_sr_constancia_inscripcion").1 :: rest
     ∧ ∀ service answer, GetTA service answer ∉ rest)
  ∧ ∃ p hs answer hr,
      st_trace (Mock.getServerStatus Mock.happy VUndef Mock.caller).2
      = st_trace Mock.caller ++ [Soap "FEDummy" p VUndef hs answer hr]
      ∧ own_props hs p = ∅.
Proof.
  apply (@executeRequest_asks_constancia_inscripcion Mock.engine unit Mock.CUIT Mock.delegate
           (Mock.scripted Mock.happy) "FECompUltimoAutorizado" VUndef VUndef Mock.caller).
  reflexivity.
Defined.

(** The amended C3 on the test double: the two taxes of the caller's
    voucher leave wrapped under [Tributo]. *)
Lemma createVoucher_wraps_truthy_fields_witness :
  let s' := (Mock.createVoucher Mock.happy Mock.voucher VUndef VUndef Mock.caller).2 in
  let ev := last_event s' in
  wrapped (sent_heap ev) (detail_of (sent_heap ev) (sent_params ev))
          "Tributos" "Tributo" (VRef 2).
Proof.
  intros s' ev.
  assert (Hex : exchanged Mock.caller s'
                  (Soap "FECAESolicitar" (sent_params ev) (sent_token ev) (sent_heap ev)
                        (answer_of ev) (received_heap ev))).
  { exists (st_trace s'). split; [reflexivity|].
    apply list_elem_of_lookup. exists 1. by vm_compute. }
  apply (@createVoucher_wraps_truthy_fields Mock.engine unit Mock.CUIT Mock.delegate
           (Mock.scripted Mock.happy) Mock.voucher VUndef VUndef Mock.caller
           _ _ _ _ _ "Tributos" "Tributo" Hex).
  apply list_elem_of_here.
Defined.

(** C3 as stated fails: the caller's voucher carries [Opcionales: null],
    a field it supplied, and the request carries the same [null], not a
    wrapper. *)
Lemma createVoucher_null_field_not_wrapped : ¬ wrapped_iff_supplied.
Proof.
  intros Hclaim.
  set (s' := (Mock.createVoucher Mock.happy Mock.voucher VUndef VUndef Mock.caller).2).
  set (ev := last_event s').
  assert (Hex : exchanged Mock.caller s'
                  (Soap "FECAESolicitar" (sent_params ev) (sent_token ev) (sent_heap ev)
                        (answer_of ev) (received_heap ev))).
  { exists (st_trace s'). split; [reflexivity|].
    apply list_elem_of_lookup. exists 1. by vm_compute. }
  destruct (Hclaim Mock.engine unit Mock.CUIT Mock.delegate (Mock.scripted Mock.happy)
              Mock.voucher VUndef VUndef Mock.caller _ _ _ _ _
              "Opcionales" "Opcional" Hex) as [_ Hwrap].
  { do 4 apply list_elem_of_further. apply list_elem_of_here. }
  destruct Hwrap as (wl & Hwl & _).
  { unfold supplied. vm_compute. by eexists. }
  vm_compute in Hwl. discriminate.
Qed.

(** ** The claims about RegisterScopeFour *)

Section RegisterScopeFour_claims.
Context `{Engine} {W : Type}.
Variable CUIT : value.
Variable delegate : AuthDelegate W.
Variable transport : SoapTransport W.

#[local] Abbreviation getTaxpayerDetails :=
  (RegisterScopeFour.getTaxpayerDetails CUIT delegate transport).

(** [getTaxpayerDetails] in one equation. *)
Lemma getTaxpayerDetails_run identifier tokenAndSign h w tr :
  getTaxpayerDetails identifier tokenAndSign (State h w tr)
  = let '(credential, w1, evs) := padron_credential delegate tokenAndSign h w in
    match credential with
    | Throw e => (Throw e, State h w1 (tr ++ evs))
    | Ok c =>
        let hs := h ++ [Obj false (list_to_map [("token", c.1); ("sign", c.2);
                                                ("cuitRepresentada", CUIT);
                                                ("idPersona", identifier)])] in
        let params := VRef (length h) in
        let '(answer, w2) := transport w1 hs "getPersona" params VUndef in
        match answer with
        | Throw e =>
            (if includes "No existe" (message e) then Ok VNull else Throw e,
             State hs w2 (tr ++ evs ++ [Soap "getPersona" params VUndef hs (Throw e) hs]))
        | Ok t =>
            let '(results, hr) := alloc_tree t hs in
            let personaReturn := hget hr results "personaReturn" in
            (if nullish results
             then Throw (TypeError ("Cannot read properties of " +:+ nullish_name results
                                      +:+ " (reading 'personaReturn')"))
             else if nullish personaReturn
             then Throw (TypeError ("Cannot read properties of " +:+ nullish_name personaReturn
                                      +:+ " (reading 'persona')"))
             else Ok (hget hr personaReturn "persona"),
             State hr w2 (tr ++ evs ++ [Soap "getPersona" params VUndef hs (Ok results) hr]))
        end
    end.
Proof.
  unfold RegisterScopeFour.getTaxpayerDetails, padron_credential.
  apply wp_eq. wp_prim.
  assert (Hcred : ∀ Q,
    (let '(credential, w1, evs) :=
       (if truthy tokenAndSign
        then (Ok (hget h tokenAndSign "token", hget h tokenAndSign "sign"), w, [])
        else let '(answer, w') := delegate w "ws_sr_padron_a4" in
             (answer, w', [GetTA "ws_sr_padron_a4" answer])) in
     Q credential (State h w1 (tr ++ evs))) →
    wp (if truthy tokenAndSign
        then token <- get tokenAndSign "token" ;; sign <- get tokenAndSign "sign" ;;
             ret (token, sign)
        else GetServiceTA delegate "ws_sr_padron_a4") Q (State h w tr)).
  { intros Q. destruct (truthy tokenAndSign) eqn:Hts.
    - rewrite app_nil_r. intros HQ. by wp_steps.
    - unfold wp, GetServiceTA. cbn [st_world st_heap st_trace].
      by destruct (delegate w "ws_sr_padron_a4"). }
  apply Hcred. clear Hcred.
  destruct (if truthy tokenAndSign then _ else _) as [[[c|e] w1] evs]; [|done].
  wp_steps. unfold RegisterScopeFour.executeRequest.
  rewrite bool_decide_eq_false_2 by done. cbn [String.eqb Ascii.eqb Bool.eqb].
  wp_steps. unfold wp at 1, super_executeRequest. cbn [st_heap st_world st_trace].
  destruct (transport w1 _ "getPersona" (VRef (length h)) VUndef) as [[t|e] w2].
  2:{ cbn [fst snd]. rewrite <- app_assoc.
      destruct (includes "No existe" (message e)); by wp_steps. }
  destruct (alloc_tree t _) as [results hr]. cbn [fst snd]. rewrite <- app_assoc.
  destruct (nullish results) eqn:Hres.
  { destruct results; try discriminate; by vm_compute. }
  wp_steps.
  destruct (nullish (hget hr results "personaReturn")) eqn:Hpr.
  { destruct (hget hr results "personaReturn"); try discriminate; by vm_compute. }
  by wp_steps.
Qed.

(** C6.  When the transport answers getPersona with an error whose message
    contains "No existe", [getTaxpayerDetails] resolves to [null]; any
    other error of the transport is raised as it is; and when the transport
    answers with a response, the result is the [persona] under its
    [personaReturn]. *)
Theorem getTaxpayerDetails_not_found_policy
    identifier tokenAndSign (s : state W) params token hs answer hr :
  let run := getTaxpayerDetails identifier tokenAndSign s in
  last_exchanged s run.2 (Soap "getPersona" params token hs answer hr) →
  match answer with
  | Throw e =>
      if includes "No existe" (message e)
      then run.1 = Ok VNull
      else run.1 = Throw e
  | Ok results =>
      nullish results = false →
      nullish (hget hr results "personaReturn") = false →
      run.1 = Ok (hget hr (hget hr results "personaReturn") "persona")
  end.
Proof.
  destruct s as [h w tr]. cbv zeta. rewrite getTaxpayerDetails_run.
  intros (evs' & Htr & Hlast). revert Htr Hlast. cbn [st_trace].
  destruct (padron_credential delegate tokenAndSign h w) as [[[c|e] w1] evs] eqn:Hcred.
  2:{ cbn [snd st_trace]. intros <-%app_inv_head Hlast.
      unfold padron_credential in Hcred. destruct (truthy tokenAndSign); [done|].
      destruct (delegate w "ws_sr_padron_a4"). by simplify_eq. }
  cbv zeta.
  destruct (transport w1 _ "getPersona" (VRef (length h)) VUndef) as [[t|e] w2].
  - destruct (alloc_tree t _) as [results hr'].
    cbn [fst snd st_trace]. intros <-%app_inv_head Hlast.
    rewrite last_snoc in Hlast. injection Hlast as <- <- <- <- <-.
    by intros -> ->.
  - cbn [fst snd st_trace]. intros <-%app_inv_head Hlast.
    rewrite last_snoc in Hlast. injection Hlast as <- <- <- <- <-.
    by destruct (includes "No existe" (message e)).
Qed.

End RegisterScopeFour_claims.

(** C6 on the test double: a registry that knows nobody. *)
Lemma getTaxpayerDetails_not_found_policy_witness :
  let run := Mock.getTaxpayerDetails Mock.nobody (VNum (Int 20111111112)) VUndef Mock.caller in
  let ev := last_event run.2 in
  match answer_of ev with
  | Throw e =>
      if includes "No existe" (message e)
      then run.1 = Ok VNull
      else run.1 = Throw e
  | Ok results =>
      nullish results = false →
      nullish (hget (received_heap ev) results "personaReturn") = false →
      run.1 = Ok (hget (received_heap ev)
                       (hget (received_heap ev) results "personaReturn") "persona")
  end.
Proof.
  intros run ev.
  apply (@getTaxpayerDetails_not_found_policy unit Mock.CUIT Mock.delegate
           (Mock.scripted Mock.nobody) (VNum (Int 20111111112)) VUndef Mock.caller
           (sent_params ev) (sent_token ev) (sent_heap ev) (answer_of ev) (received_heap ev)).
  exists (st_trace run.2). split; [reflexivity|]. by vm_compute.
Defined.

(** ** More claims about ElectronicBilling *)

Lemma drop_chars_all (s : string) : drop_chars (String.length s) s = "".
Proof. induction s; simpl; auto. Qed.

Lemma string_app_empty_r (s : string) : s +:+ "" = s.
Proof.
  induction s as [|a s IH]; [done|]. unfold String.append; fold String.append. by rewrite IH.
Qed.

Lemma replace_yyyymmdd_exact (s : string) :
  String.length s = 8 → digits 8 s = true → replace_yyyymmdd s = yyyy_mm_dd s.
Proof.
  intros Hlen Hdig. unfold yyyy_mm_dd.
  assert (Hdrop : drop_chars 8 s = "") by (rewrite <- Hlen; apply drop_chars_all).
  destruct s as [|c r]; [discriminate|].
  unfold replace_yyyymmdd; fold replace_yyyymmdd. rewrite Hdig, Hdrop.
  by rewrite string_app_empty_r.
Qed.

Section more_claims.
Context `{Engine} {W : Type}.
Variable CUIT : value.
Variable delegate : AuthDelegate W.

Section one_transport.
Variable transport : SoapTransport W.

#[local] Abbreviation createVoucher := (ElectronicBilling.createVoucher CUIT delegate transport).

(** In full-response mode, an answer that passes the check is handed
    back as it is. *)
Lemma createVoucher_full data returnResponse tokenAndSign (s : state W)
    params token hs results hr lres lfd :
  let run := createVoucher data returnResponse tokenAndSign s in
  last_exchanged s run.2 (Soap "FECAESolicitar" params token hs (Ok results) hr) →
  strict_eq (default_false returnResponse) (VBool true) = true →
  hget hr results "FECAESolicitarResult" = VRef lres →
  hget hr (VRef lres) "FeDetResp" = VRef lfd →
  let detail := first_if_array hr (hget hr (VRef lfd) "FECAEDetResponse") in
  nullish detail = false →
  truthy (hget hr detail "Observaciones")
    && negb (strict_eq (hget hr detail "Resultado") (VStr "A")) = false →
  truthy (hget hr (VRef lres) "Errors") = false →
  run.1 = Ok (VRef lres).
Proof.
  intros run Hlast Hrr Hres Hfd detail Hdetail Hobs Herrors.
  apply createVoucher_answered in Hlast as (t & w2 & tr2 & _ & Hrun).
  assert (Hresults : nullish results = false) by (by destruct results).
  subst run. rewrite Hrun.
  unfold after_transport. unfold bind at 1 2.
  rewrite (checkErrors_passes results lres lfd) by done. cbn [fst snd].
  change ("FECAESolicitar" +:+ "Result") with "FECAESolicitarResult".
  replace (get results "FECAESolicitarResult" (State (collapse_detail hr lfd) w2 tr2))
    with (Ok (A := value) (VRef lres), State (collapse_detail hr lfd) w2 tr2).
  2:{ symmetry. apply wp_eq. wp_prim. by rewrite hget_collapse_ne, Hres by done. }
  cbn [fst snd]. unfold createVoucher_result. by rewrite Hrr.
Qed.

(** C4.  [createVoucher] leaves the caller's store as it found it: every
    object that existed before the call, the [data] object in particular,
    has the same keys with the same values afterwards.  The deletions and
    the wrapping are done on the copy. *)
Theorem createVoucher_keeps_data data returnResponse tokenAndSign (s : state W) l o :
  st_heap s !! l = Some o →
  let s' := (createVoucher data returnResponse tokenAndSign s).2 in
  st_heap s' !! l = Some o
  ∧ (data = VRef l → own_props (st_heap s') data = own_props (st_heap s) data).
Proof.
  intros Hl. cbv zeta.
  assert (Hframe : st_heap (createVoucher data returnResponse tokenAndSign s).2 !! l = Some o).
  2:{ split; [done|]. intros ->. cbn [own_props]. by rewrite Hframe, Hl. }
  destruct s as [h w tr]. cbn [st_heap] in Hl.
  assert (Hlt : l < length h) by (by eapply lookup_lt_Some).
  destruct (nullish data) eqn:Hdata.
  { by destruct data. }
  rewrite createVoucher_run by done.
  destruct (CantReg_of h data) as [CantReg|e]; [|by apply lookup_app_l_Some].
  cbv zeta.
  destruct (request_heap_spec h data CantReg) as (Hlen & Hold & _). cbv zeta in Hlen, Hold.
  destruct (credential_of _ _ _ _) as [[[c|e] w1] evs0].
  2:{ cbn [snd st_heap]. by rewrite Hold. }
  rewrite send_bind_run.
  match goal with |- context [transport w1 ?hs0] => set (hs := hs0) end.
  assert (Hhs : hs !! l = Some o).
  { unfold hs. rewrite with_auth_lookup_ne by lia. by rewrite Hold. }
  destruct (transport w1 hs _ _ _) as [[t|e] w2]; [|done].
  destruct (alloc_tree t hs) as [results hr] eqn:Et.
  destruct (treatment_frame t hs results hr (default_false returnResponse) w2
              (tr ++ evs0 ++ [Soap "FECAESolicitar" (VRef (length h + 4)) (hget h data "token")
                                hs (Ok results) hr]) Et) as [Hfr _].
  rewrite <- !app_assoc. rewrite Hfr; [done|]. by eapply lookup_lt_Some.
Qed.

(** C5.  An answer to [FECAESolicitar] whose detail carries observations
    and a [Resultado] other than ["A"] makes [createVoucher] fail, but the
    failure does not carry the first observation's [Code] and [Msg] apart:
    it is [new Error("(Code) Msg", Code)], an error whose message is the
    two printed together and which has no [code], as [Error] takes none
    from its second argument.  An answer whose detail is approved or
    carries no observations, and that has no error list, is not refused:
    the full response is handed back in full-response mode, and the
    minimal result otherwise, when the detail has an expiry date that can
    be printed. *)
Theorem createVoucher_rejection_policy data returnResponse tokenAndSign (s : state W)
    params token hs results hr lres lfd :
  let run := createVoucher data returnResponse tokenAndSign s in
  last_exchanged s run.2 (Soap "FECAESolicitar" params token hs (Ok results) hr) →
  hget hr results "FECAESolicitarResult" = VRef lres →
  hget hr (VRef lres) "FeDetResp" = VRef lfd →
  let detail := first_if_array hr (hget hr (VRef lfd) "FECAEDetResponse") in
  let Observaciones := hget hr detail "Observaciones" in
  let observation := first_if_array hr (hget hr Observaciones "Obs") in
  let date := hget hr detail "CAEFchVto" in
  let rejected :=
    truthy Observaciones && negb (strict_eq (hget hr detail "Resultado") (VStr "A")) in
  (rejected = true →
   ∀ c m, nullish observation = false →
          (∀ h', ToString h' (hget hr observation "Code") = Ok c) →
          (∀ h', ToString h' (hget hr observation "Msg") = Ok m) →
          run.1 = Throw (Exn ("(" +:+ c +:+ ") " +:+ m) VUndef))
  ∧ (rejected = false →
     nullish detail = false →
     truthy (hget hr (VRef lres) "Errors") = false →
     strict_eq (default_false returnResponse) (VBool true) = true
     ∨ (isArray hr detail = false ∧ nullish date = false
        ∧ ∃ str, ∀ h', ToString h' date = Ok str) →
     ∃ res, run.1 = Ok res).
Proof.
  intros run Hlast Hres Hfd detail Observaciones observation date rejected. split.
  - intros [Ho Hr%negb_true_iff]%andb_true_iff c m Hobs Hc Hm.
    apply createVoucher_answered in Hlast as (t & w2 & tr2 & _ & Hrun).
    subst run. rewrite Hrun. unfold after_transport. unfold bind at 1 2.
    destruct (checkErrors_observations results lres lfd hr w2 tr2 c m) as [h' ->]; done.
  - intros Hrej Hdetail Herrors Hmode.
    destruct (strict_eq (default_false returnResponse) (VBool true)) eqn:Hrr.
    + exists (VRef lres). by eapply createVoucher_full.
    + destruct Hmode as [?|(Harr & Hdate & str & Hstr)]; [done|].
      destruct (createVoucher_minimal CUIT delegate transport data returnResponse tokenAndSign
                  s params token hs results hr lres lfd str) as (res & Hok & _); try done.
      by exists res.
Qed.

(** C9.  Where the string form of a date is eight digits, [formatDate]
    gives them back with a hyphen after the fourth and after the sixth;
    20230415 gives "2023-04-15"; and the [CAEFchVto] of the minimal
    result of [createVoucher] is the date of the answer in that form. *)
Theorem formatDate_yyyy_mm_dd date str :
  String.length str = 8 → digits 8 str = true →
  (∀ s : state W,
     nullish date = false → ToString (st_heap s) date = Ok str →
     ElectronicBilling.formatDate date s = (Ok (VStr (yyyy_mm_dd str)), s))
  ∧ (∀ s : state W,
       ElectronicBilling.formatDate (VNum (Int 20230415)) s = (Ok (VStr "2023-04-15"), s))
  ∧ (∀ data returnResponse tokenAndSign (s : state W) params token hs results hr lres lfd,
       let run := createVoucher data returnResponse tokenAndSign s in
       last_exchanged s run.2 (Soap "FECAESolicitar" params token hs (Ok results) hr) →
       strict_eq (default_false returnResponse) (VBool true) = false →
       hget hr results "FECAESolicitarResult" = VRef lres →
       hget hr (VRef lres) "FeDetResp" = VRef lfd →
       let element := first_if_array hr (hget hr (VRef lfd) "FECAEDetResponse") in
       isArray hr element = false →
       truthy (hget hr element "Observaciones")
         && negb (strict_eq (hget hr element "Resultado") (VStr "A")) = false →
       truthy (hget hr (VRef lres) "Errors") = false →
       hget hr element "CAEFchVto" = date →
       nullish date = false →
       (∀ h', ToString h' date = Ok str) →
       ∃ res, run.1 = Ok res
              ∧ hget (st_heap run.2) res "CAEFchVto" = VStr (yyyy_mm_dd str)).
Proof.
  intros Hlen Hdig. split; [|split].
  - intros s Hdate Hstr. unfold ElectronicBilling.formatDate, reading.
    rewrite Hstr, replace_yyyymmdd_exact by done. by destruct date.
  - done.
  - intros data returnResponse tokenAndSign s params token hs results hr lres lfd run
      Hlast Hrr Hres Hfd element Harr Hobs Herrors <- Hdate Hstr.
    destruct (createVoucher_minimal CUIT delegate transport data returnResponse tokenAndSign
                s params token hs results hr lres lfd str) as (res & Hok & Hprops); try done.
    exists res. split; [done|]. unfold hget. fold run in Hprops. rewrite Hprops.
    rewrite replace_yyyymmdd_exact by done. by vm_compute.
Qed.

End one_transport.

(** C7.  Two runs of [createVoucher] in minimal mode, one answered with
    the detail as an array, the other with the detail as a bare element:
    if the first element of the array and the bare element carry the same
    authorisation, both runs succeed and return the same pair. *)
Theorem createVoucher_array_or_bare_detail
    (transport transport' : SoapTransport W)
    data returnResponse tokenAndSign (s : state W) params token hs results hr raw
    data' returnResponse' tokenAndSign' (s' : state W) params' token' hs' results' hr' element
    cae str :
  let run := ElectronicBilling.createVoucher CUIT delegate transport
               data returnResponse tokenAndSign s in
  let run' := ElectronicBilling.createVoucher CUIT delegate transport'
                data' returnResponse' tokenAndSign' s' in
  strict_eq (default_false returnResponse) (VBool true) = false →
  strict_eq (default_false returnResponse') (VBool true) = false →
  last_exchanged s run.2 (Soap "FECAESolicitar" params token hs (Ok results) hr) →
  last_exchanged s' run'.2 (Soap "FECAESolicitar" params' token' hs' (Ok results') hr') →
  detail_section hr results raw →
  isArray hr raw = true →
  accepted hr (hget hr raw "0") cae str →
  detail_section hr' results' element →
  accepted hr' element cae str →
  ∃ res res',
    run.1 = Ok res ∧ run'.1 = Ok res'
    ∧ own_props (st_heap run.2) res = own_props (st_heap run'.2) res'
    ∧ own_props (st_heap run.2) res
      = list_to_map [("CAE", cae); ("CAEFchVto", VStr (replace_yyyymmdd str))].
Proof.
  intros run run' Hrr Hrr' Hlast Hlast'
    (lres & lfd & Hres & Hfd & Hraw & Herrors) Harr (Hel & Hobs & Hcae & Hdate & Hstr)
    (lres' & lfd' & Hres' & Hfd' & Hraw' & Herrors') (Hel' & Hobs' & Hcae' & Hdate' & Hstr').
  assert (E : first_if_array hr (hget hr (VRef lfd) "FECAEDetResponse") = hget hr raw "0").
  { unfold first_if_array. by rewrite Hraw, Harr. }
  assert (E' : first_if_array hr' (hget hr' (VRef lfd') "FECAEDetResponse") = element).
  { unfold first_if_array. by rewrite Hraw', Hel'. }
  destruct (createVoucher_minimal CUIT delegate transport data returnResponse tokenAndSign
              s params token hs results hr lres lfd str) as (res & Hok & Hprops);
    rewrite ?E; try done.
  destruct (createVoucher_minimal CUIT delegate transport' data' returnResponse' tokenAndSign'
              s' params' token' hs' results' hr' lres' lfd' str) as (res' & Hok' & Hprops');
    rewrite ?E'; try done.
  exists res, res'. fold run in Hprops. fold run' in Hprops'.
  rewrite E, Hcae in Hprops. rewrite E', Hcae' in Hprops'.
  split; [done|]. split; [done|]. split; [by rewrite Hprops, Hprops'|done].
Qed.

End more_claims.

Lemma round53_exact (z : Z) : (Z.abs z ≤ 2 ^ 53)%Z → round53 z = z.
Proof. intros Hz. unfold round53. by rewrite (proj2 (Z.leb_le _ _) Hz). Qed.

Section next_voucher.
Context `{Engine} {W : Type}.
Variable CUIT : value.
Variable delegate : AuthDelegate W.
Variable transport : SoapTransport W.

#[local] Abbreviation executeRequest := (ElectronicBilling.executeRequest CUIT delegate transport).
#[local] Abbreviation getLastVoucher := (ElectronicBilling.getLastVoucher CUIT delegate transport).
#[local] Abbreviation createVoucher := (ElectronicBilling.createVoucher CUIT delegate transport).
#[local] Abbreviation createNextVoucher :=
  (ElectronicBilling.createNextVoucher CUIT delegate transport).

(** What [getLastVoucher] exchanges with the outside world: a credential
    if none is given, and its one query. *)
Lemma getLastVoucher_trace salesPoint type tokenAndSign (s : state W) :
  ∃ evs,
    st_trace (getLastVoucher salesPoint type tokenAndSign s).2 = st_trace s ++ evs
    ∧ ∀ ev, ev ∈ evs →
        (∃ a, ev = GetTA "ws_sr_constancia_inscripcion" a)
        ∨ (∃ p t hs a hr, ev = Soap "FECompUltimoAutorizado" p t hs a hr).
Proof.
  destruct s as [h w tr]. unfold ElectronicBilling.getLastVoucher.
  unfold bind at 1. cbn [new_object st_heap st_world st_trace]. unfold bind.
  match goal with |- context [executeRequest ?op ?p ?ts ?s0] =>
    pose proof (executeRequest_trace CUIT delegate transport op p ts s0 eq_refl) as (h1 & Htr);
    cbn [st_world st_trace] in Htr;
    set (m := executeRequest op p ts) in *; set (s1 := s0) in *
  end.
  destruct (credential_of delegate tokenAndSign h1 w) as [[answer w'] evs0] eqn:Hcred.
  destruct Htr as (rest & Htr & Hrest).
  exists (evs0 ++ rest). split.
  - destruct (m s1) as [[r|e] s2]; cbn [fst snd] in *; [|done].
    destruct (quiet_get (W := W) r "CbteNro" s2) as [-> _]. done.
  - intros ev [Hev|Hev]%elem_of_app.
    + apply credential_of_events in Hcred as [->| ->]; [by apply elem_of_nil in Hev|].
      apply list_elem_of_singleton in Hev as ->. left. by eexists.
    + destruct Hrest as [->|(p & hs & a & hr & ->)]; [by apply elem_of_nil in Hev|].
      apply list_elem_of_singleton in Hev as ->. right. by eexists _, _, _, _, _.
Qed.

(** What [createVoucher] hands back on success is an object of the
    store. *)
Lemma createVoucher_result_allocated data returnResponse tokenAndSign (s : state W) l :
  (createVoucher data returnResponse tokenAndSign s).1 = Ok (VRef l) →
  l < length (st_heap (createVoucher data returnResponse tokenAndSign s).2).
Proof.
  destruct s as [h w tr]. intros Hok.
  destruct (createVoucher_cases CUIT delegate transport data returnResponse tokenAndSign h w tr)
    as [(e & evs' & Hthrow & _)
       |(CantReg & c & w1 & evs0 & answer & hr & w2 & _ & _ & _ & _ & Hrun)].
  { by rewrite Hthrow in Hok. }
  cbv zeta in Hrun. destruct answer as [results|e].
  - destruct Hrun as [[t Ht] Hrun]. rewrite Hrun in Hok |- *.
    destruct (treatment_frame _ _ _ _ (default_false returnResponse) w2
                (tr ++ evs0 ++ [Soap "FECAESolicitar" (VRef (length h + 4))
                                  (hget h data "token")
                                  (with_auth CUIT (request_heap h data CantReg) (length h + 4)
                                     (Obj false (list_to_map [("FeCAEReq", VRef (length h + 3))]))
                                     c)
                                  (Ok results) hr]) Ht) as [_ Hreg].
    by destruct (Hreg _ Hok l eq_refl).
  - destruct Hrun as [Hrun _]. by rewrite Hrun in Hok.
Qed.

Lemma createVoucher_trace data returnResponse tokenAndSign (s : state W) :
  ∃ evs, st_trace (createVoucher data returnResponse tokenAndSign s).2 = st_trace s ++ evs.
Proof.
  destruct s as [h w tr].
  destruct (createVoucher_cases CUIT delegate transport data returnResponse tokenAndSign h w tr)
    as [(e & evs' & _ & Htr & _)
       |(CantReg & c & w1 & evs0 & answer & hr & w2 & _ & _ & _ & Htr & _)].
  - by exists evs'.
  - cbv zeta in Htr. by eexists.
Qed.

(** [createNextVoucher] once the last number is known: the two writes to
    [data], then [createVoucher] and the write to its result. *)
Lemma createNextVoucher_run d tokenAndSign (s : state W) o N s1 :
  st_heap s !! d = Some o →
  getLastVoucher (hget (st_heap s) (VRef d) "PtoVta") (hget (st_heap s) (VRef d) "CbteTipo")
    VUndef s = (Ok (VNum (Int N)), s1) →
  (- 2 ^ 53 ≤ N < 2 ^ 53)%Z →
  let next := VNum (Int (N + 1)) in
  createNextVoucher (VRef d) tokenAndSign s
  = (res <- createVoucher (VRef d) tokenAndSign VUndef ;;
     set res "voucherNumber" next ;;;
     ret res)
      (State (hset (hset (st_heap s1) d "CbteDesde" next) d "CbteHasta" next)
         (st_world s1) (st_trace s1)).
Proof.
  intros Hd Hlast HN next. unfold ElectronicBilling.createNextVoucher.
  apply wp_eq. repeat wp_prim.
  eapply wp_intro; [exact Hlast|]. cbv beta iota.
  unfold js_add. do 2 wp_prim. cbn [add ToPrimitive is_string orb ToNumber number_add].
  rewrite round53_exact by lia. fold next.
  do 4 wp_prim. apply wp_refl.
Qed.

(** C8.  When [getLastVoucher] reports [N] for the sales point and the
    voucher type of [data], the request [createNextVoucher] submits has
    [CbteDesde] and [CbteHasta] equal to [N + 1], and the result it
    returns has [voucherNumber] equal to [N + 1].  ([N + 1] is a number
    JavaScript represents exactly.) *)
Theorem createNextVoucher_numbers_next d tokenAndSign (s : state W) o N s1 :
  st_heap s !! d = Some o →
  getLastVoucher (hget (st_heap s) (VRef d) "PtoVta") (hget (st_heap s) (VRef d) "CbteTipo")
    VUndef s = (Ok (VNum (Int N)), s1) →
  (- 2 ^ 53 ≤ N < 2 ^ 53)%Z →
  let run := createNextVoucher (VRef d) tokenAndSign s in
  let next := VNum (Int (N + 1)) in
  (∀ params token hs answer hr,
     exchanged s run.2 (Soap "FECAESolicitar" params token hs answer hr) →
     hget hs (detail_of hs params) "CbteDesde" = next
     ∧ hget hs (detail_of hs params) "CbteHasta" = next)
  ∧ (∀ res, run.1 = Ok res → hget (st_heap run.2) res "voucherNumber" = next).
Proof.
  intros Hd Hlast HN run next.
  pose proof (createNextVoucher_run d tokenAndSign s o N s1 Hd Hlast HN) as Hrun.
  cbv zeta in Hrun. fold next in Hrun. fold run in Hrun.
  destruct (getLastVoucher_trace (hget (st_heap s) (VRef d) "PtoVta")
              (hget (st_heap s) (VRef d) "CbteTipo") VUndef s) as (evs1 & Htr1 & Hevs1).
  pose proof (growing_getLastVoucher CUIT delegate transport
                (hget (st_heap s) (VRef d) "PtoVta") (hget (st_heap s) (VRef d) "CbteTipo")
                VUndef s) as Hgrow.
  rewrite Hlast in Htr1, Hgrow. cbn [snd] in Htr1, Hgrow.
  destruct s1 as [h1 w1 tr1]. cbn [st_heap st_world st_trace] in *.
  assert (Hd1 : d < length h1) by (apply lookup_lt_Some in Hd; lia).
  set (h2 := hset (hset h1 d "CbteDesde" next) d "CbteHasta" next) in *.
  assert (Hd2 : is_Some (hset h1 d "CbteDesde" next !! d)).
  { apply lookup_lt_is_Some. by rewrite hset_length. }
  assert (Hdesde : own_props h2 (VRef d) !! "CbteDesde" = Some next).
  { unfold h2. rewrite own_props_hset, bool_decide_eq_false_2 by (by intros (_ & ? & _)).
    rewrite own_props_hset, bool_decide_eq_true_2; [done|].
    split; [done|]. split; [done|]. by apply lookup_lt_is_Some. }
  assert (Hhasta : own_props h2 (VRef d) !! "CbteHasta" = Some next).
  { unfold h2. by rewrite own_props_hset, bool_decide_eq_true_2. }
  set (s2 := State h2 w1 tr1) in *.
  destruct (createVoucher (VRef d) tokenAndSign VUndef s2) as [r s3] eqn:Hcreate.
  assert (Htrace : st_trace run.2 = st_trace s3).
  { rewrite Hrun. unfold bind at 1. rewrite Hcreate. destruct r as [res|e]; [|done].
    unfold bind.
    destruct (quiet_set (W := W) res "voucherNumber" next s3) as [Hq _].
    by destruct (set res "voucherNumber" next s3) as [[[]|e] s4]. }
  split.
  - intros params token hs answer hr (evs & Hevs & Hev).
    destruct (createVoucher_trace (VRef d) tokenAndSign VUndef s2) as [evs2 Htr2].
    rewrite Hcreate in Htr2. cbn [snd st_trace s2] in Htr2.
    rewrite Htrace, Htr2, Htr1, <- app_assoc in Hevs. apply app_inv_head in Hevs as <-.
    apply elem_of_app in Hev as [Hev|Hev].
    { destruct (Hevs1 _ Hev) as [[a Ha]|(p & t & hs' & a & hr' & Ha)]; discriminate. }
    destruct (createVoucher_sent CUIT delegate transport (VRef d) tokenAndSign VUndef
                h2 w1 tr1 (Soap "FECAESolicitar" params token hs answer hr))
      as [[a Ha]|(CantReg & c & hs' & answer' & hr' & _ & _ & _ & Hsoap & Hdet & Hprops & _)].
    { exists evs2. fold s2. rewrite Hcreate. by split. }
    { discriminate. }
    cbv zeta in Hsoap, Hdet, Hprops.
    injection Hsoap as -> _ -> _ _. unfold detail_of. rewrite Hdet.
    destruct (request_heap_spec h2 (VRef d) CantReg) as (_ & _ & _ & _ & _ & _ & _ & Hkeep & _).
    cbv zeta in Hkeep. unfold hget. rewrite Hprops.
    rewrite !Hkeep by (by vm_compute; intros H'; repeat (apply elem_of_cons in H' as [?|H']; [done|]); apply elem_of_nil in H').
    unfold detail_props. rewrite !lookup_delete_ne by done.
    by rewrite Hdesde, Hhasta.
  - intros res Hok. rewrite Hrun in Hok |- *. unfold bind at 1 in Hok. unfold bind at 1.
    pose proof (createVoucher_result_allocated (VRef d) tokenAndSign VUndef s2) as Halloc.
    rewrite Hcreate in Hok, Halloc |- *. cbn [fst snd] in Halloc.
    destruct r as [r|e]; [|done].
    destruct r as [| | | | |l]; try done.
    specialize (Halloc l eq_refl).
    unfold bind, set, ret in Hok |- *. cbn [fst snd st_heap] in Hok |- *.
    injection Hok as <-. by apply hget_hset_same.
Qed.

End next_voucher.

(** C4 on the test double: the caller's voucher after a call that
    succeeded. *)
Lemma createVoucher_keeps_data_witness :
  let s' := (Mock.createVoucher Mock.happy Mock.voucher VUndef VUndef Mock.caller).2 in
  st_heap Mock.caller !! 0 = Some Mock.voucher_object
  ∧ st_heap s' !! 0 = Some Mock.voucher_object
  ∧ (Mock.voucher = VRef 0 →
     own_props (st_heap s') Mock.voucher = own_props (st_heap Mock.caller) Mock.voucher).
Proof.
  intros s'. split; [reflexivity|].
  apply (@createVoucher_keeps_data Mock.engine unit Mock.CUIT Mock.delegate
           (Mock.scripted Mock.happy) Mock.voucher VUndef VUndef Mock.caller
           0 Mock.voucher_object).
  reflexivity.
Defined.

(** C5 on the test double: a voucher rejected with two observations. *)
Lemma createVoucher_rejection_policy_witness :
  (Mock.createVoucher Mock.rejecting Mock.voucher VUndef VUndef Mock.caller).1
  = Throw (Exn "(10016) Fecha invalida" VUndef).
Proof.
  set (run := Mock.createVoucher Mock.rejecting Mock.voucher VUndef VUndef Mock.caller).
  set (ev := last_event run.2).
  assert (Hlast : last_exchanged Mock.caller run.2
                    (Soap "FECAESolicitar" (sent_params ev) (sent_token ev) (sent_heap ev)
                          (Ok (VRef 20)) (received_heap ev))).
  { exists (st_trace run.2). split; [reflexivity|]. by vm_compute. }
  destruct (@createVoucher_rejection_policy Mock.engine unit Mock.CUIT Mock.delegate
              (Mock.scripted Mock.rejecting) Mock.voucher VUndef VUndef Mock.caller
              (sent_params ev) (sent_token ev) (sent_heap ev) (VRef 20) (received_heap ev)
              19 18 Hlast) as [Hrej _]; [by vm_compute..|].
  apply (Hrej ltac:(by vm_compute) "10016" "Fecha invalida");
    [by vm_compute|intros h'; by vm_compute..].
Defined.

(** C9 on the test double: the date as a string, and the date of an
    approved voucher. *)
Lemma formatDate_yyyy_mm_dd_witness :
  @ElectronicBilling.formatDate Mock.engine unit (VStr "20230415") Mock.caller
  = (Ok (VStr "2023-04-15"), Mock.caller)
  ∧ let run := Mock.createVoucher Mock.happy Mock.voucher VUndef VUndef Mock.caller in
    ∃ res, run.1 = Ok res ∧ hget (st_heap run.2) res "CAEFchVto" = VStr "2023-04-15".
Proof.
  destruct (@formatDate_yyyy_mm_dd Mock.engine unit Mock.CUIT Mock.delegate
              (Mock.scripted Mock.happy) (VStr "20230415") "20230415" eq_refl eq_refl)
    as (Hformat & _ & Hcreate).
  split; [by apply Hformat|].
  intros run. set (ev := last_event run.2).
  assert (Hlast : last_exchanged Mock.caller run.2
                    (Soap "FECAESolicitar" (sent_params ev) (sent_token ev) (sent_heap ev)
                          (Ok (VRef 17)) (received_heap ev))).
  { exists (st_trace run.2). split; [reflexivity|]. by vm_compute. }
  apply (Hcreate Mock.voucher VUndef VUndef Mock.caller
           (sent_params ev) (sent_token ev) (sent_heap ev) (VRef 17) (received_heap ev) 16 15
           Hlast); by vm_compute.
Defined.

(** C7 on the test double: the same approved detail, in an array and
    bare. *)
Lemma createVoucher_array_or_bare_detail_witness :
  let run := Mock.createVoucher Mock.happy Mock.voucher VUndef VUndef Mock.caller in
  let run' := Mock.createVoucher Mock.happy_bare Mock.voucher VUndef VUndef Mock.caller in
  ∃ res res',
    run.1 = Ok res ∧ run'.1 = Ok res'
    ∧ own_props (st_heap run.2) res = own_props (st_heap run'.2) res'
    ∧ own_props (st_heap run.2) res
      = list_to_map [("CAE", VStr "71234567890123"); ("CAEFchVto", VStr "2023-04-15")].
Proof.
  intros run run'.
  set (ev := last_event run.2). set (ev' := last_event run'.2).
  apply (@createVoucher_array_or_bare_detail Mock.engine unit Mock.CUIT Mock.delegate
           (Mock.scripted Mock.happy) (Mock.scripted Mock.happy_bare)
           Mock.voucher VUndef VUndef Mock.caller
           (sent_params ev) (sent_token ev) (sent_heap ev) (VRef 17) (received_heap ev)
           (hget (received_heap ev) (VRef 15) "FECAEDetResponse")
           Mock.voucher VUndef VUndef Mock.caller
           (sent_params ev') (sent_token ev') (sent_heap ev') (VRef 16) (received_heap ev')
           (hget (received_heap ev') (VRef 14) "FECAEDetResponse")
           (VStr "71234567890123") "20230415").
  - reflexivity.
  - reflexivity.
  - exists (st_trace run.2). split; [reflexivity|]. by vm_compute.
  - exists (st_trace run'.2). split; [reflexivity|]. by vm_compute.
  - exists 16, 15. by vm_compute.
  - by vm_compute.
  - split; [by vm_compute|]. split; [by vm_compute|]. split; [by vm_compute|].
    split; [by vm_compute|]. intros h'. by vm_compute.
  - exists 15, 14. by vm_compute.
  - split; [by vm_compute|]. split; [by vm_compute|]. split; [by vm_compute|].
    split; [by vm_compute|]. intros h'. by vm_compute.
Defined.

(** C8 on the test double: the last voucher is number 10. *)
Lemma createNextVoucher_numbers_next_witness :
  let run := Mock.createNextVoucher Mock.happy (VRef 0) VUndef Mock.draft in
  let ev := last_event run.2 in
  let detail := detail_of (sent_heap ev) (sent_params ev) in
  (hget (sent_heap ev) detail "CbteDesde" = VNum (Int 11)
   ∧ hget (sent_heap ev) detail "CbteHasta" = VNum (Int 11))
  ∧ run.1 = Ok (VRef 18)
  ∧ hget (st_heap run.2) (VRef 18) "voucherNumber" = VNum (Int 11).
Proof.
  intros run ev detail.
  destruct (@createNextVoucher_numbers_next Mock.engine unit Mock.CUIT Mock.delegate
              (Mock.scripted Mock.happy) 0 VUndef Mock.draft Mock.draft_object 10
              (Mock.getLastVoucher Mock.happy (VNum (Int 1)) (VNum (Int 6)) VUndef
                 Mock.draft).2) as [Hsent Hres].
  - reflexivity.
  - by vm_compute.
  - by vm_compute.
  - split; [|split; [by vm_compute|apply Hres; by vm_compute]].
    apply (Hsent (sent_params ev) (sent_token ev) (sent_heap ev) (answer_of ev)
             (received_heap ev)).
    exists (st_trace run.2). split; [reflexivity|].
    apply list_elem_of_lookup. exists 3. by vm_compute.
Defined.

(** C2 (a defect of the code).  [createVoucher] overwrites its credential
    argument before reading it, so the argument has no influence at all;
    on the test double, a caller who passes a credential still has the
    delegate asked and the request signed with the delegate's ticket.
    [createNextVoucher] fares no better: it asks for the last voucher
    without the credential and hands it to [createVoucher] in the place of
    [returnResponse]. *)
Theorem createVoucher_discards_credential :
  (∀ (E : Engine) (W : Type) CUIT (delegate : AuthDelegate W) (transport : SoapTransport W)
     data returnResponse tokenAndSign tokenAndSign',
     ElectronicBilling.createVoucher CUIT delegate transport data returnResponse tokenAndSign
     = ElectronicBilling.createVoucher CUIT delegate transport data returnResponse tokenAndSign')
  ∧ (let s' := (Mock.createVoucher Mock.happy Mock.voucher VUndef Mock.credential
                  Mock.caller).2 in
     let ev := last_event s' in
     let Auth := hget (sent_heap ev) (sent_params ev) "Auth" in
     hget (st_heap Mock.caller) Mock.credential "token" = VStr "caller token"
     ∧ st_trace s' !! 0
       = Some (GetTA "ws_sr_constancia_inscripcion"
                     (Ok (VStr "ticket for ws_sr_constancia_inscripcion", VStr "signature")))
     ∧ hget (sent_heap ev) Auth "Token" = VStr "ticket for ws_sr_constancia_inscripcion")
  ∧ (let s' := (Mock.createNextVoucher Mock.happy Mock.voucher Mock.credential
                  Mock.caller).2 in
     let ev := last_event s' in
     let Auth := hget (sent_heap ev) (sent_params ev) "Auth" in
     services_asked (st_trace s')
     = ["ws_sr_constancia_inscripcion"; "ws_sr_constancia_inscripcion"]
     ∧ hget (sent_heap ev) Auth "Token" = VStr "ticket for ws_sr_constancia_inscripcion").
Proof.
  split; [reflexivity|]. split; by vm_compute.
Qed.

(** C1 (a defect of the code).  A business error 602 reported for
    FECompConsultar reaches the caller of [getVoucherInfo] as a failure
    "(602) ...": the error [_checkErrors] throws has no [code], so the
    handler does not recognise it.  And when an error does carry the code
    602, the handler's [null] is dereferenced at once: the call fails with
    a TypeError instead of resolving to [null]. *)
Theorem getVoucherInfo_602_raises :
  (Mock.getVoucherInfo Mock.not_found (VNum (Int 1)) (VNum (Int 1)) (VNum (Int 6)) VUndef
     Mock.caller).1
  = Throw (Exn "(602) No existen datos en nuestros registros" VUndef)
  ∧ (Mock.getVoucherInfo Mock.failing_602 (VNum (Int 1)) (VNum (Int 1)) (VNum (Int 6)) VUndef
       Mock.caller).1
    = Throw (TypeError "Cannot read properties of null (reading 'ResultGet')").
Proof. split; by vm_compute. Qed.

(** * Beyond the claims

    Properties of the two classes that the claims do not state, read off
    the code. *)

(** ** [executeRequest] and [_checkErrors] *)

Section executeRequest_facts.
Context `{Engine} {W : Type}.
Variable CUIT : value.
Variable delegate : AuthDelegate W.
Variable transport : SoapTransport W.

#[local] Abbreviation executeRequest := (ElectronicBilling.executeRequest CUIT delegate transport).

Implicit Types (h : heap) (w : W) (tr : list event).

(** [executeRequest] for an operation that needs a credential, from the
    credential to the treatment of the answer. *)
Lemma executeRequest_cases operation p o tokenAndSign h w tr :
  String.eqb operation "FEDummy" = false →
  h !! p = Some o →
  executeRequest operation (VRef p) tokenAndSign (State h w tr)
  = let '(credential, w1, evs) := credential_of delegate tokenAndSign h w in
    match credential with
    | Throw e => (Throw e, State h w1 (tr ++ evs))
    | Ok c =>
        let hs := with_auth CUIT h p o c in
        let '(answer, w2) := transport w1 hs operation (VRef p) tokenAndSign in
        match answer with
        | Throw e =>
            (Throw e,
             State hs w2
               (tr ++ evs ++ [Soap operation (VRef p) tokenAndSign hs (Throw e) hs]))
        | Ok t =>
            let '(results, hr) := alloc_tree t hs in
            after_transport operation results
              (State hr w2
                 (tr ++ evs ++ [Soap operation (VRef p) tokenAndSign hs (Ok results) hr]))
        end
    end.
Proof.
  intros Hop Hp. rewrite (executeRequest_run CUIT delegate transport operation p o) by done.
  destruct (credential_of delegate tokenAndSign h w) as [[[c|e] w1] evs]; [|done].
  rewrite send_run. cbv zeta.
  destruct (transport w1 _ operation (VRef p) tokenAndSign) as [[t|e] w2].
  - destruct (alloc_tree t _) as [results hr]. by rewrite <- app_assoc.
  - by rewrite <- app_assoc.
Qed.

(** What the treatment of an answer leaves alone and hands back. *)
Lemma after_transport_frame t hs results hr operation w tr :
  alloc_tree t hs = (results, hr) →
  let run := after_transport operation results (State hr w tr) in
  (∀ l, l < length hs → st_heap run.2 !! l = hs !! l)
  ∧ st_trace run.2 = tr.
Proof.
  intros ([R ->] & Hc & Hres)%alloc_tree_fresh. cbv zeta.
  destruct (confined_after_transport (W := W) (length hs) operation results
              (State (hs ++ R) w tr)) as (Hframe & _).
  - cbn. rewrite length_app. lia.
  - done.
  - by constructor.
  - split.
    + intros l Hl. rewrite Hframe by done. cbn. by rewrite lookup_app_l.
    + by destruct (quiet_after_transport (W := W) operation results (State (hs ++ R) w tr)).
Qed.

(** The request [executeRequest] sends, and who provided the credential
    in it. *)
Lemma executeRequest_sent operation p o tokenAndSign h w tr ev :
  String.eqb operation "FEDummy" = false →
  h !! p = Some o →
  exchanged (State h w tr) (executeRequest operation (VRef p) tokenAndSign (State h w tr)).2 ev →
  (truthy tokenAndSign = false
   ∧ ev = GetTA "ws_sr_constancia_inscripcion" (delegate w "ws_sr_constancia_inscripcion").1)
  ∨ ∃ c w1 evs answer hr,
      credential_of delegate tokenAndSign h w = (Ok c, w1, evs)
      ∧ ev = Soap operation (VRef p) tokenAndSign (with_auth CUIT h p o c) answer hr.
Proof.
  intros Hop Hp (evs' & Htr & Hev). cbn [st_trace] in Htr.
  rewrite (executeRequest_cases operation p o) in Htr by done.
  destruct (credential_of delegate tokenAndSign h w) as [[[c|e] w1] evs] eqn:Hcred.
  2:{ cbn [snd st_trace] in Htr. apply app_inv_head in Htr as <-.
      unfold credential_of in Hcred. destruct (truthy tokenAndSign).
      - injection Hcred as _ _ <-. by apply elem_of_nil in Hev.
      - left. split; [done|]. destruct (delegate w _) as [a w'].
        injection Hcred as -> _ <-. by apply list_elem_of_singleton in Hev as ->. }
  cbv zeta in Htr.
  assert (Hevs : ∀ ev', ev' ∈ evs →
            truthy tokenAndSign = false
            ∧ ev' = GetTA "ws_sr_constancia_inscripcion"
                          (delegate w "ws_sr_constancia_inscripcion").1).
  { intros ev' Hev'. unfold credential_of in Hcred. destruct (truthy tokenAndSign).
    - injection Hcred as _ _ <-. by apply elem_of_nil in Hev'.
    - split; [done|]. destruct (delegate w _) as [a w'].
      injection Hcred as -> _ <-. by apply list_elem_of_singleton in Hev' as ->. }
  destruct (transport w1 _ operation (VRef p) tokenAndSign) as [[t|e] w2].
  - destruct (alloc_tree t _) as [results hr] eqn:Et.
    destruct (after_transport_frame _ _ _ _ operation w2
                (tr ++ evs ++ [Soap operation (VRef p) tokenAndSign
                                 (with_auth CUIT h p o c) (Ok results) hr]) Et) as [_ Htr'].
    cbv zeta in Htr'. rewrite Htr' in Htr. apply app_inv_head in Htr as <-.
    apply elem_of_app in Hev as [Hev|Hev]; [left; by apply Hevs|].
    apply list_elem_of_singleton in Hev as ->. right. by eexists c, w1, evs, _, _.
  - cbn [snd st_trace] in Htr. apply app_inv_head in Htr as <-.
    apply elem_of_app in Hev as [Hev|Hev]; [left; by apply Hevs|].
    apply list_elem_of_singleton in Hev as ->. right. by eexists c, w1, evs, _, _.
Qed.

(** When the last thing [executeRequest] did with the outside world was
    a request, the run ends with the failure of the transport, or goes on
    with the treatment of its answer. *)
Lemma executeRequest_answered operation p o tokenAndSign (s : state W)
    params token hs answer hr :
  String.eqb operation "FEDummy" = false →
  st_heap s !! p = Some o →
  let run := executeRequest operation (VRef p) tokenAndSign s in
  last_exchanged s run.2 (Soap operation params token hs answer hr) →
  match answer with
  | Throw e => run.1 = Throw e ∧ hr = hs
  | Ok results =>
      ∃ t w2 tr2,
        alloc_tree t hs = (results, hr)
        ∧ run = after_transport operation results (State hr w2 tr2)
  end.
Proof.
  destruct s as [h w tr]. intros Hop Hp. cbn [st_heap] in Hp. intros run (evs' & Htr & Hlast).
  revert Htr. subst run. cbn [st_trace]. rewrite (executeRequest_cases operation p o) by done.
  destruct (credential_of delegate tokenAndSign h w) as [[[c|e] w1] evs] eqn:Hcred.
  2:{ cbn [snd st_trace]. intros <-%app_inv_head.
      apply credential_of_events in Hcred as [->| ->]; discriminate. }
  cbv zeta. set (hs0 := with_auth CUIT h p o c).
  destruct (transport w1 hs0 operation (VRef p) tokenAndSign) as [[t|e] w2].
  - destruct (alloc_tree t hs0) as [results hr0] eqn:Et.
    destruct (after_transport_frame _ _ _ _ operation w2
                (tr ++ evs ++ [Soap operation (VRef p) tokenAndSign hs0 (Ok results) hr0]) Et)
      as [_ Htr']. cbv zeta in Htr'. rewrite Htr'. intros <-%app_inv_head.
    rewrite last_snoc in Hlast. injection Hlast as _ _ <- <- <-.
    by eexists t, w2, _.
  - cbn [snd st_trace]. intros <-%app_inv_head.
    rewrite last_snoc in Hlast. by injection Hlast as _ _ <- <- <-.
Qed.

Lemma with_auth_Auth_props h p o c k :
  h !! p = Some o →
  hget (with_auth CUIT h p o c) (hget (with_auth CUIT h p o c) (VRef p) "Auth") k
  = default VUndef
      ((list_to_map [("Token", c.1); ("Sign", c.2); ("Cuit", CUIT)] : gmap string value) !! k).
Proof.
  intros Hp.
  assert (E : hget (with_auth CUIT h p o c) (VRef p) "Auth" = VRef (length h)).
  { unfold hget. rewrite (with_auth_props CUIT _ _ _ _ Hp).
    erewrite lookup_union_Some_l; [done|]. by vm_compute. }
  rewrite E. unfold hget at 1. cbn [own_props].
  rewrite with_auth_Auth by (by eapply lookup_lt_Some). done.
Qed.

(** X1.  The [Auth] block of a request: the caller's credential when one
    is given, and then the delegate is not consulted; the delegate's
    ticket otherwise; and always the CUIT of the client. *)
Theorem executeRequest_Auth_block operation p o tokenAndSign (s : state W)
    params token hs answer hr :
  String.eqb operation "FEDummy" = false →
  st_heap s !! p = Some o →
  let run := executeRequest operation (VRef p) tokenAndSign s in
  exchanged s run.2 (Soap operation params token hs answer hr) →
  let Auth := hget hs params "Auth" in
  hget hs Auth "Cuit" = CUIT
  ∧ if truthy tokenAndSign
    then hget hs Auth "Token" = hget (st_heap s) tokenAndSign "token"
         ∧ hget hs Auth "Sign" = hget (st_heap s) tokenAndSign "sign"
         ∧ ∀ service a, ¬ exchanged s run.2 (GetTA service a)
    else ∃ ticket signature w',
           delegate (st_world s) "ws_sr_constancia_inscripcion" = (Ok (ticket, signature), w')
           ∧ hget hs Auth "Token" = ticket
           ∧ hget hs Auth "Sign" = signature.
Proof.
  destruct s as [h w tr]. intros Hop Hp. cbn [st_heap] in Hp. intros run Hex Auth.
  cbn [st_heap st_world].
  destruct (executeRequest_sent operation p o tokenAndSign h w tr _ Hop Hp Hex)
    as [[_ [=]]|(c & w1 & evs & answer' & hr' & Hcred & Hev)].
  injection Hev as -> -> -> _ _. subst Auth.
  rewrite !with_auth_Auth_props by done.
  split; [by vm_compute|].
  unfold credential_of in Hcred. destruct (truthy tokenAndSign) eqn:Hts.
  - injection Hcred as <- _ _. split; [by vm_compute|]. split; [by vm_compute|].
    intros service a Hta.
    destruct (executeRequest_sent operation p o tokenAndSign h w tr _ Hop Hp Hta)
      as [[? _]|(? & ? & ? & ? & ? & _ & [=])]. by rewrite Hts in *.
  - destruct (delegate w _) as [a w'] eqn:Hd. injection Hcred as -> _ _.
    destruct c as [ticket signature]. by exists ticket, signature, w'.
Qed.

(** X2.  [executeRequest] writes into the parameter object it is given:
    once a request has been sent, the caller's object has an [Auth]
    property, a new object, and its other properties as before; nothing
    else of the caller's store is touched. *)
Theorem executeRequest_writes_Auth_into_params operation p o tokenAndSign (s : state W)
    params token hs answer hr :
  String.eqb operation "FEDummy" = false →
  st_heap s !! p = Some o →
  let run := executeRequest operation (VRef p) tokenAndSign s in
  exchanged s run.2 (Soap operation params token hs answer hr) →
  own_props (st_heap run.2) (VRef p) !! "Auth" = Some (VRef (length (st_heap s)))
  ∧ (∀ k, k ≠ "Auth" → own_props (st_heap run.2) (VRef p) !! k = props o !! k)
  ∧ (∀ l, l ≠ p → l < length (st_heap s) → st_heap run.2 !! l = st_heap s !! l).
Proof.
  destruct s as [h w tr]. intros Hop Hp. cbn [st_heap] in Hp. intros run Hex.
  cbn [st_heap].
  assert (Hlt : p < length h) by (by eapply lookup_lt_Some).
  destruct (executeRequest_sent operation p o tokenAndSign h w tr _ Hop Hp Hex)
    as [[_ [=]]|(c & w1 & evs & answer' & hr' & Hcred & Hev)].
  clear Hex. injection Hev as _ _ -> _ _.
  assert (Hlen : length h ≤ length (with_auth CUIT h p o c)).
  { unfold with_auth. rewrite length_insert, length_app. lia. }
  assert (Hframe : ∀ l, l < length (with_auth CUIT h p o c) →
            st_heap run.2 !! l = with_auth CUIT h p o c !! l).
  { subst run. rewrite (executeRequest_cases operation p o), Hcred by done. cbv zeta.
    destruct (transport w1 _ operation (VRef p) tokenAndSign) as [[t|e] w2]; [|done].
    destruct (alloc_tree t _) as [results hr0] eqn:Et.
    by destruct (after_transport_frame _ _ _ _ operation w2
                   (tr ++ evs ++ [Soap operation (VRef p) tokenAndSign
                                    (with_auth CUIT h p o c) (Ok results) hr0]) Et). }
  assert (Hprops : own_props (st_heap run.2) (VRef p)
                   = list_to_map [("Auth", VRef (length h))] ∪ props o).
  { cbn [own_props]. rewrite Hframe by lia.
    by rewrite <- (with_auth_props CUIT h p o c Hp). }
  split; [|split].
  - rewrite Hprops. erewrite lookup_union_Some_l; [done|]. by vm_compute.
  - intros k Hk. rewrite Hprops. apply lookup_union_r.
    unfold list_to_map. cbn [foldr curry fst snd]. by rewrite lookup_insert_ne.
  - intros l Hne Hl. rewrite Hframe by lia. by apply with_auth_lookup_ne.
Qed.

(** X3.  Failures on the way out are the caller's: when the delegate
    refuses the ticket, nothing is sent and the delegate's failure is
    raised, the store untouched; when the transport fails, its failure is
    raised as it is. *)
Theorem executeRequest_failures_propagate operation p o tokenAndSign (s : state W) :
  String.eqb operation "FEDummy" = false →
  st_heap s !! p = Some o →
  let run := executeRequest operation (VRef p) tokenAndSign s in
  (∀ e w',
     truthy tokenAndSign = false →
     delegate (st_world s) "ws_sr_constancia_inscripcion" = (Throw e, w') →
     run = (Throw e,
            State (st_heap s) w'
              (st_trace s ++ [GetTA "ws_sr_constancia_inscripcion" (Throw e)])))
  ∧ (∀ params token hs e hr,
       last_exchanged s run.2 (Soap operation params token hs (Throw e) hr) →
       run.1 = Throw e).
Proof.
  destruct s as [h w tr]. intros Hop Hp. cbn [st_heap] in Hp. intros run.
  cbn [st_heap st_world st_trace]. split.
  - intros e w' Hts Hd. subst run. rewrite (executeRequest_cases operation p o) by done.
    unfold credential_of. by rewrite Hts, Hd.
  - intros params token hs e hr Hex.
    by destruct (executeRequest_answered operation p o tokenAndSign (State h w tr)
                   params token hs (Throw e) hr Hop Hp Hex).
Qed.

End executeRequest_facts.

Section plain_answers.
Context `{Engine} {W : Type}.
Implicit Types (h : heap) (w : W) (tr : list event).

(** [_checkErrors] where the voucher detail plays no part: any operation
    but [FECAESolicitar], and [FECAESolicitar] answered without
    [FeDetResp]. *)
Lemma checkErrors_plain operation results h w tr :
  let s := State h w tr in
  let res := hget h results (operation +:+ "Result") in
  let Errors := hget h res "Errors" in
  let err := first_if_array h (hget h Errors "Err") in
  nullish results = false →
  String.eqb operation "FECAESolicitar" && truthy (hget h res "FeDetResp") = false →
  (nullish res = true →
   ElectronicBilling._checkErrors operation results s
   = (Throw (TypeError ("Cannot read properties of " +:+ nullish_name res +:+ " (reading '"
                          +:+ (if String.eqb operation "FECAESolicitar"
                               then "FeDetResp" else "Errors") +:+ "')")), s))
  ∧ (nullish res = false → truthy Errors = false →
     ElectronicBilling._checkErrors operation results s = (Ok tt, s))
  ∧ (truthy Errors = true → nullish err = false →
     ∀ c m, ToString h (hget h err "Code") = Ok c →
            ToString h (hget h err "Msg") = Ok m →
            ElectronicBilling._checkErrors operation results s
            = (Throw (Exn ("(" +:+ c +:+ ") " +:+ m) VUndef), s)).
Proof.
  intros s res Errors err Hresults Hplain. subst s. split; [|split].
  - intros Hres. unfold ElectronicBilling._checkErrors.
    apply wp_eq. repeat wp_prim. fold res.
    destruct (String.eqb operation "FECAESolicitar").
    + wp_prim. unfold wp. by destruct res.
    + repeat wp_prim. unfold wp. by destruct res.
  - intros Hres Herrors. unfold ElectronicBilling._checkErrors.
    apply wp_eq. repeat wp_prim. fold res.
    destruct (String.eqb operation "FECAESolicitar"); cbn [andb] in Hplain.
    + repeat wp_prim. rewrite Hplain. repeat wp_prim. fold Errors. rewrite Herrors.
      by repeat wp_prim.
    + repeat wp_prim. fold Errors. rewrite Herrors. by repeat wp_prim.
  - intros Herrors Herr c m Hc Hm.
    assert (Hres : nullish res = false) by (by eapply hget_truthy_not_nullish).
    assert (HErrors : nullish Errors = false) by (by apply truthy_not_nullish).
    unfold ElectronicBilling._checkErrors, ElectronicBilling.error_text, new_Error.
    apply wp_eq. repeat wp_prim. fold res.
    destruct (String.eqb operation "FECAESolicitar"); cbn [andb] in Hplain;
      repeat wp_prim; rewrite ?Hplain; repeat wp_prim; fold Errors; rewrite Herrors;
      repeat wp_prim; fold Errors;
      (eapply (wp_known _ _ _ err);
       [unfold err, first_if_array;
        destruct (isArray h (hget h Errors "Err")) eqn:Harr; by repeat wp_prim|]);
      cbv beta iota; repeat wp_prim; rewrite Hc, Hm; by repeat wp_prim.
Qed.

End plain_answers.

Section requests.
Context `{Engine} {W : Type}.
Variable CUIT : value.
Variable delegate : AuthDelegate W.
Variable transport : SoapTransport W.

#[local] Abbreviation executeRequest := (ElectronicBilling.executeRequest CUIT delegate transport).

Implicit Types (h : heap) (w : W) (tr : list event).

Lemma last_exchanged_exchanged (s s' : state W) ev : last_exchanged s s' ev → exchanged s s' ev.
Proof.
  intros (evs & Htr & Hlast). exists evs. split; [done|].
  destruct evs as [|ev0 evs] using rev_ind; [done|].
  rewrite last_snoc in Hlast. injection Hlast as ->. apply elem_of_app. right.
  apply list_elem_of_here.
Qed.

Lemma bind_quiet_trace {A B} (m : M W A) (k : A → M W B) (s : state W) :
  (∀ a, quiet (k a)) → st_trace ((bind m k) s).2 = st_trace (m s).2.
Proof.
  intros Hk. unfold bind. destruct (m s) as [[a|e] s1]; [|done]. apply Hk.
Qed.

(** How an answer without voucher detail is treated: the result section
    is handed back, or the first error of its list is raised. *)
Lemma after_transport_plain operation results h w tr :
  let s := State h w tr in
  let res := hget h results (operation +:+ "Result") in
  let Errors := hget h res "Errors" in
  let err := first_if_array h (hget h Errors "Err") in
  nullish results = false →
  String.eqb operation "FECAESolicitar" && truthy (hget h res "FeDetResp") = false →
  (nullish res = false → truthy Errors = false →
   after_transport operation results s = (Ok res, s))
  ∧ (truthy Errors = true → nullish err = false →
     ∀ c m, ToString h (hget h err "Code") = Ok c →
            ToString h (hget h err "Msg") = Ok m →
            after_transport operation results s
            = (Throw (Exn ("(" +:+ c +:+ ") " +:+ m) VUndef), s)).
Proof.
  intros s res Errors err Hresults Hplain.
  destruct (checkErrors_plain operation results h w tr Hresults Hplain) as (_ & Hpass & Hfail).
  split.
  - intros Hres Herrors. subst s. unfold after_transport, bind. rewrite Hpass by done.
    by destruct results.
  - intros Herrors Herr c m Hc Hm. subst s. unfold after_transport, bind.
    by rewrite (Hfail Herrors Herr c m Hc Hm).
Qed.

(** A request followed by a computation that calls no collaborator: what
    is sent, and what becomes of the answer. *)
Lemma request_scenario {A} operation p o tokenAndSign (k : value → M W A) h w tr
    params token hs answer hr :
  (∀ v, quiet (k v)) →
  String.eqb operation "FEDummy" = false →
  h !! p = Some o →
  let s := State h w tr in
  let run := (result <- executeRequest operation (VRef p) tokenAndSign ;; k result) s in
  last_exchanged s run.2 (Soap operation params token hs answer hr) →
  params = VRef p ∧ token = tokenAndSign
  ∧ own_props hs params = list_to_map [("Auth", VRef (length h))] ∪ props o
  ∧ match answer with
    | Throw e => run.1 = Throw e
    | Ok results =>
        let res := hget hr results (operation +:+ "Result") in
        let Errors := hget hr res "Errors" in
        let err := first_if_array hr (hget hr Errors "Err") in
        nullish results = false →
        String.eqb operation "FECAESolicitar" && truthy (hget hr res "FeDetResp") = false →
        (nullish res = false → truthy Errors = false →
         ∃ w2 tr2, run = k res (State hr w2 tr2))
        ∧ (truthy Errors = true → nullish err = false →
           ∀ c m, ToString hr (hget hr err "Code") = Ok c →
                  ToString hr (hget hr err "Msg") = Ok m →
                  run.1 = Throw (Exn ("(" +:+ c +:+ ") " +:+ m) VUndef))
    end.
Proof.
  intros Hk Hop Hp s run Hlast.
  assert (Hlast' : last_exchanged s (executeRequest operation (VRef p) tokenAndSign s).2
                     (Soap operation params token hs answer hr)).
  { destruct Hlast as (evs & Htr & Hlast). exists evs. split; [|done].
    rewrite <- Htr. symmetry. by apply bind_quiet_trace. }
  destruct (executeRequest_sent CUIT delegate transport operation p o tokenAndSign h w tr _
              Hop Hp (last_exchanged_exchanged _ _ _ Hlast'))
    as [[_ [=]]|(c & w1 & evs & answer' & hr' & Hcred & Hev)].
  injection Hev as -> -> -> _ _.
  split; [done|]. split; [done|]. split; [by apply with_auth_props|].
  pose proof (executeRequest_answered CUIT delegate transport operation p o tokenAndSign s
                _ _ _ _ _ Hop Hp Hlast') as Hanswer. cbv zeta in Hanswer.
  destruct answer as [results|e].
  - destruct Hanswer as (t & w2 & tr2 & _ & Hrun).
    intros res Errors err Hresults Hplain.
    destruct (after_transport_plain operation results hr w2 tr2 Hresults Hplain)
      as [Hpass Hfail].
    split.
    + intros Hres Herrors. exists w2, tr2. subst run. unfold bind.
      by rewrite Hrun, Hpass.
    + intros Herrors Herr c0 m Hc Hm. subst run. unfold bind.
      by rewrite Hrun, (Hfail Herrors Herr c0 m Hc Hm).
  - destruct Hanswer as [Hthrow _]. subst run. unfold bind.
    destruct (executeRequest operation (VRef p) tokenAndSign s) as [[a|e'] s1];
      cbn [fst] in *; congruence.
Qed.

(** X4.  Business errors, in every answer but an answer to
    [FECAESolicitar] that has a detail section [FeDetResp]: that one is
    first normalised and searched for observations, which changes the
    response and can refuse it without any error list.  An
    answer whose result section carries an error list makes
    [executeRequest] fail with "(Code) Msg" of the first error, whether
    the list came as an array or as a single entry, and the error raised
    has no code of its own; an answer without error list gives its result
    section, the response being left as it was received. *)
Theorem executeRequest_business_errors operation p o tokenAndSign (s : state W)
    params token hs results hr :
  String.eqb operation "FEDummy" = false →
  st_heap s !! p = Some o →
  let run := executeRequest operation (VRef p) tokenAndSign s in
  last_exchanged s run.2 (Soap operation params token hs (Ok results) hr) →
  let res := hget hr results (operation +:+ "Result") in
  let Errors := hget hr res "Errors" in
  let err := first_if_array hr (hget hr Errors "Err") in
  nullish results = false →
  String.eqb operation "FECAESolicitar" && truthy (hget hr res "FeDetResp") = false →
  (nullish res = false → truthy Errors = false → run.1 = Ok res ∧ st_heap run.2 = hr)
  ∧ (truthy Errors = true → nullish err = false →
     ∀ c m, ToString hr (hget hr err "Code") = Ok c →
            ToString hr (hget hr err "Msg") = Ok m →
            run.1 = Throw (Exn ("(" +:+ c +:+ ") " +:+ m) VUndef)
            ∧ code (Exn ("(" +:+ c +:+ ") " +:+ m) VUndef) = VUndef
            ∧ st_heap run.2 = hr).
Proof.
  intros Hop Hp run Hlast res Errors err Hresults Hplain.
  destruct (executeRequest_answered CUIT delegate transport operation p o tokenAndSign s
              _ _ _ _ _ Hop Hp Hlast) as (t & w2 & tr2 & _ & Hrun).
  destruct (after_transport_plain operation results hr w2 tr2 Hresults Hplain)
    as [Hpass Hfail].
  fold run in Hrun. split.
  - intros Hres Herrors. by rewrite Hrun, Hpass.
  - intros Herrors Herr c m Hc Hm. by rewrite Hrun, (Hfail Herrors Herr c m Hc Hm).
Qed.

End requests.

Section methods.
Context `{Engine} {W : Type}.
Variable CUIT : value.
Variable delegate : AuthDelegate W.
Variable transport : SoapTransport W.

#[local] Abbreviation executeRequest := (ElectronicBilling.executeRequest CUIT delegate transport).
#[local] Abbreviation getLastVoucher := (ElectronicBilling.getLastVoucher CUIT delegate transport).
#[local] Abbreviation createCAEA := (ElectronicBilling.createCAEA CUIT delegate transport).
#[local] Abbreviation getCAEA := (ElectronicBilling.getCAEA CUIT delegate transport).
#[local] Abbreviation getVoucherInfo := (ElectronicBilling.getVoucherInfo CUIT delegate transport).
#[local] Abbreviation reference_data := (ElectronicBilling.reference_data CUIT delegate transport).
#[local] Abbreviation getServerStatus := (ElectronicBilling.getServerStatus CUIT delegate transport).

Implicit Types (h : heap) (w : W) (tr : list event).

Lemma hget_with_Auth hs params (a : value) (m : gmap string value) k :
  own_props hs params = list_to_map [("Auth", a)] ∪ m →
  k ≠ "Auth" →
  hget hs params k = default VUndef (m !! k).
Proof.
  intros Hprops Hk. unfold hget. rewrite Hprops. f_equal. apply lookup_union_r.
  unfold list_to_map. cbn [foldr curry fst snd]. by rewrite lookup_insert_ne.
Qed.

(** X5.  [getLastVoucher]: the query carries the sales point and the
    voucher type it was given, under the credential it was given; a
    failure of the transport is raised as it is; and from an answer
    without error list the call gives the [CbteNro] of the result section
    ([undefined] if there is none). *)
Theorem getLastVoucher_query salesPoint type tokenAndSign (s : state W)
    params token hs answer hr :
  let run := getLastVoucher salesPoint type tokenAndSign s in
  last_exchanged s run.2 (Soap "FECompUltimoAutorizado" params token hs answer hr) →
  hget hs params "PtoVta" = salesPoint
  ∧ hget hs params "CbteTipo" = type
  ∧ token = tokenAndSign
  ∧ match answer with
    | Throw e => run.1 = Throw e
    | Ok results =>
        let res := hget hr results "FECompUltimoAutorizadoResult" in
        nullish results = false → nullish res = false →
        truthy (hget hr res "Errors") = false →
        run.1 = Ok (hget hr res "CbteNro")
    end.
Proof.
  destruct s as [h w tr]. intros run Hlast.
  set (o := Obj false (list_to_map [("PtoVta", salesPoint); ("CbteTipo", type)])).
  destruct (request_scenario CUIT delegate transport "FECompUltimoAutorizado" (length h) o
              tokenAndSign (λ result, get result "CbteNro") (h ++ [o]) w tr
              params token hs answer hr) as (-> & -> & Hprops & Hanswer);
    [intros v; apply quiet_get|done|apply lookup_new0|exact Hlast|].
  split; [by rewrite (hget_with_Auth _ _ _ _ _ Hprops)|].
  split; [by rewrite (hget_with_Auth _ _ _ _ _ Hprops)|].
  split; [done|].
  destruct answer as [results|e]; [|exact Hanswer].
  intros res Hresults Hres Herrors.
  destruct (Hanswer Hresults eq_refl) as [Hpass _].
  destruct (Hpass Hres Herrors) as (w2 & tr2 & Hrun).
  change (run = get res "CbteNro" (State hr w2 tr2)) in Hrun.
  by rewrite Hrun, get_not_nullish.
Qed.

(** X6.  [createCAEA] and [getCAEA] differ in the operation only: each
    sends the period and the fortnight as [Periodo] and [Orden], and gives
    the [ResultGet] of the result section of an answer without error
    list. *)
Theorem CAEA_requests period fortnight tokenAndSign (s : state W)
    method operation params token hs answer hr :
  (method, operation) ∈ [(createCAEA, "FECAEASolicitar"); (getCAEA, "FECAEAConsultar")] →
  let run := method period fortnight tokenAndSign s in
  last_exchanged s run.2 (Soap operation params token hs answer hr) →
  hget hs params "Periodo" = period
  ∧ hget hs params "Orden" = fortnight
  ∧ token = tokenAndSign
  ∧ match answer with
    | Throw e => run.1 = Throw e
    | Ok results =>
        let res := hget hr results (operation +:+ "Result") in
        nullish results = false → nullish res = false →
        truthy (hget hr res "Errors") = false →
        run.1 = Ok (hget hr res "ResultGet")
    end.
Proof.
  destruct s as [h w tr]. intros Hmethod run Hlast.
  set (o := Obj false (list_to_map [("Periodo", period); ("Orden", fortnight)])).
  assert (Hop : String.eqb operation "FEDummy" = false
                ∧ String.eqb operation "FECAESolicitar" = false
                ∧ run = (result <- executeRequest operation (VRef (length h)) tokenAndSign ;;
                         get result "ResultGet") (State (h ++ [o]) w tr)).
  { subst run. apply elem_of_cons in Hmethod as [[= -> ->]|Hmethod]; [done|].
    apply list_elem_of_singleton in Hmethod as [= -> ->]. done. }
  destruct Hop as (Hdummy & Hsol & Hrun0).
  destruct (request_scenario CUIT delegate transport operation (length h) o
              tokenAndSign (λ result, get result "ResultGet") (h ++ [o]) w tr
              params token hs answer hr) as (-> & -> & Hprops & Hanswer);
    [intros v; apply quiet_get|done|apply lookup_new0|rewrite <- Hrun0; exact Hlast|].
  split; [by rewrite (hget_with_Auth _ _ _ _ _ Hprops)|].
  split; [by rewrite (hget_with_Auth _ _ _ _ _ Hprops)|].
  split; [done|].
  rewrite <- Hrun0 in Hanswer.
  destruct answer as [results|e]; [|exact Hanswer].
  intros res Hresults Hres Herrors.
  destruct (Hanswer Hresults) as [Hpass _]; [by rewrite Hsol|].
  destruct (Hpass Hres Herrors) as (w2 & tr2 & Hrun).
  by rewrite Hrun, get_not_nullish.
Qed.

(** The reference-data getters: the request carries the [Auth] block and
    nothing else; the value is read two levels down the result section, so
    a result section without [ResultGet] makes the call fail with a
    TypeError. *)
Lemma reference_data_scenario operation field tokenAndSign (s : state W)
    params token hs answer hr :
  String.eqb operation "FEDummy" = false →
  String.eqb operation "FECAESolicitar" = false →
  let run := reference_data operation field tokenAndSign s in
  last_exchanged s run.2 (Soap operation params token hs answer hr) →
  own_props hs params = {[ "Auth" := VRef (length (st_heap s) + 1) ]}
  ∧ token = tokenAndSign
  ∧ match answer with
    | Throw e => run.1 = Throw e
    | Ok results =>
        let res := hget hr results (operation +:+ "Result") in
        let ResultGet := hget hr res "ResultGet" in
        nullish results = false → nullish res = false →
        truthy (hget hr res "Errors") = false →
        run.1 = if nullish ResultGet
                then Throw (TypeError ("Cannot read properties of "
                                         +:+ nullish_name ResultGet
                                         +:+ " (reading '" +:+ field +:+ "')"))
                else Ok (hget hr ResultGet field)
    end.
Proof.
  destruct s as [h w tr]. intros Hdummy Hsol run Hlast.
  change (st_heap (State h w tr)) with h.
  set (o := Obj false (list_to_map [])).
  destruct (request_scenario CUIT delegate transport operation (length h) o
              tokenAndSign (λ result, ResultGet <- get result "ResultGet" ;; get ResultGet field)
              (h ++ [o]) w tr params token hs answer hr) as (-> & -> & Hprops & Hanswer);
    [intros v; solve_quiet|done|apply lookup_new0|exact Hlast|].
  split.
  { rewrite Hprops, length_app. cbn [length props o].
    unfold list_to_map. cbn [foldr curry fst snd]. by rewrite (right_id_L ∅ (∪)). }
  split; [done|].
  destruct answer as [results|e]; [|exact Hanswer].
  intros res ResultGet Hresults Hres Herrors.
  destruct (Hanswer Hresults) as [Hpass _]; [by rewrite Hsol|].
  destruct (Hpass Hres Herrors) as (w2 & tr2 & Hrun).
  change (run = (ResultGet <- get res "ResultGet" ;; get ResultGet field) (State hr w2 tr2))
    in Hrun.
  rewrite Hrun. unfold bind. rewrite get_not_nullish by done.
  cbn [fst snd st_heap]. fold ResultGet. by destruct ResultGet.
Qed.

(** X7.  The eight getters of reference data. *)
Theorem reference_getters getter operation field tokenAndSign (s : state W)
    params token hs answer hr :
  (getter, operation, field)
  ∈ [(ElectronicBilling.getSalesPoints CUIT delegate transport,
      "FEParamGetPtosVenta", "PtoVenta");
     (ElectronicBilling.getVoucherTypes CUIT delegate transport,
      "FEParamGetTiposCbte", "CbteTipo");
     (ElectronicBilling.getConceptTypes CUIT delegate transport,
      "FEParamGetTiposConcepto", "ConceptoTipo");
     (ElectronicBilling.getDocumentTypes CUIT delegate transport,
      "FEParamGetTiposDoc", "DocTipo");
     (ElectronicBilling.getAliquotTypes CUIT delegate transport,
      "FEParamGetTiposIva", "IvaTipo");
     (ElectronicBilling.getCurrenciesTypes CUIT delegate transport,
      "FEParamGetTiposMonedas", "Moneda");
     (ElectronicBilling.getOptionsTypes CUIT delegate transport,
      "FEParamGetTiposOpcional", "OpcionalTipo");
     (ElectronicBilling.getTaxTypes CUIT delegate transport,
      "FEParamGetTiposTributos", "TributoTipo")] →
  let run := getter tokenAndSign s in
  last_exchanged s run.2 (Soap operation params token hs answer hr) →
  own_props hs params = {[ "Auth" := VRef (length (st_heap s) + 1) ]}
  ∧ token = tokenAndSign
  ∧ match answer with
    | Throw e => run.1 = Throw e
    | Ok results =>
        let res := hget hr results (operation +:+ "Result") in
        let ResultGet := hget hr res "ResultGet" in
        nullish results = false → nullish res = false →
        truthy (hget hr res "Errors") = false →
        run.1 = if nullish ResultGet
                then Throw (TypeError ("Cannot read properties of "
                                         +:+ nullish_name ResultGet
                                         +:+ " (reading '" +:+ field +:+ "')"))
                else Ok (hget hr ResultGet field)
    end.
Proof.
  intros Hgetter.
  repeat (apply elem_of_cons in Hgetter as [[= -> -> ->]|Hgetter];
          [by apply reference_data_scenario|]).
  by apply elem_of_nil in Hgetter.
Qed.

End methods.

Section methods2.
Context `{Engine} {W : Type}.
Variable CUIT : value.
Variable delegate : AuthDelegate W.
Variable transport : SoapTransport W.

#[local] Abbreviation executeRequest := (ElectronicBilling.executeRequest CUIT delegate transport).
#[local] Abbreviation getVoucherInfo := (ElectronicBilling.getVoucherInfo CUIT delegate transport).
#[local] Abbreviation getServerStatus := (ElectronicBilling.getServerStatus CUIT delegate transport).

Implicit Types (h : heap) (w : W) (tr : list event).

Lemma catch_bind_quiet_trace {A B} (m : M W A) (handler : exn → M W A) (k : A → M W B)
    (s : state W) :
  (∀ e, quiet (handler e)) → (∀ a, quiet (k a)) →
  st_trace ((a <- catch m handler ;; k a) s).2 = st_trace (m s).2.
Proof.
  intros Hh Hk. unfold bind, catch. destruct (m s) as [[a|e] s1]; cbn [fst snd].
  - apply Hk.
  - destruct (Hh e s1) as [Htr _]. destruct (handler e s1) as [[a|e'] s2]; cbn [fst snd] in *.
    + by destruct (Hk a s2) as [-> _].
    + done.
Qed.

(** [executeRequest] alone: what is sent and what comes back. *)
Lemma executeRequest_scenario operation p o tokenAndSign h w tr params token hs answer hr :
  String.eqb operation "FEDummy" = false →
  h !! p = Some o →
  let s := State h w tr in
  let run := executeRequest operation (VRef p) tokenAndSign s in
  last_exchanged s run.2 (Soap operation params token hs answer hr) →
  params = VRef p ∧ token = tokenAndSign
  ∧ (∃ c, hs = with_auth CUIT h p o c)
  ∧ match answer with
    | Throw e => ∃ s1, run = (Throw e, s1)
    | Ok results =>
        let res := hget hr results (operation +:+ "Result") in
        nullish results = false →
        String.eqb operation "FECAESolicitar" && truthy (hget hr res "FeDetResp") = false →
        nullish res = false → truthy (hget hr res "Errors") = false →
        ∃ w2 tr2, run = (Ok res, State hr w2 tr2)
    end.
Proof.
  intros Hop Hp s run Hlast.
  destruct (executeRequest_sent CUIT delegate transport operation p o tokenAndSign h w tr _
              Hop Hp (last_exchanged_exchanged _ _ _ Hlast))
    as [[_ [=]]|(c & w1 & evs & answer' & hr' & Hcred & Hev)].
  injection Hev as -> -> -> _ _.
  split; [done|]. split; [done|]. split; [by exists c|].
  pose proof (executeRequest_answered CUIT delegate transport operation p o tokenAndSign s
                _ _ _ _ _ Hop Hp Hlast) as Hanswer. cbv zeta in Hanswer.
  destruct answer as [results|e].
  - destruct Hanswer as (t & w2 & tr2 & _ & Hrun).
    intros res Hresults Hplain Hres Herrors.
    destruct (after_transport_plain operation results hr w2 tr2 Hresults Hplain) as [Hpass _].
    exists w2, tr2. subst run. by rewrite Hrun, Hpass.
  - destruct Hanswer as [Hthrow _]. subst run.
    destruct (executeRequest operation (VRef p) tokenAndSign s) as [[a|e'] s1];
      cbn [fst] in *; [done|]. injection Hthrow as ->. by exists s1.
Qed.

(** X8.  [getVoucherInfo]: the query names the voucher under
    [FeCompConsReq]; from an answer without error list the call gives the
    [ResultGet] of the result section; a failure of the transport is raised
    as it is, unless its code is 602, in which case the [null] of the
    handler is read at once and the call fails with a TypeError. *)
Theorem getVoucherInfo_query number salesPoint type tokenAndSign (s : state W)
    params token hs answer hr :
  let run := getVoucherInfo number salesPoint type tokenAndSign s in
  last_exchanged s run.2 (Soap "FECompConsultar" params token hs answer hr) →
  let req := hget hs params "FeCompConsReq" in
  hget hs req "CbteNro" = number
  ∧ hget hs req "PtoVta" = salesPoint
  ∧ hget hs req "CbteTipo" = type
  ∧ token = tokenAndSign
  ∧ match answer with
    | Throw e =>
        run.1 = if strict_eq (code e) (VNum (Int 602))
                then Throw (TypeError "Cannot read properties of null (reading 'ResultGet')")
                else Throw e
    | Ok results =>
        let res := hget hr results "FECompConsultarResult" in
        nullish results = false → nullish res = false →
        truthy (hget hr res "Errors") = false →
        run.1 = Ok (hget hr res "ResultGet")
    end.
Proof.
  destruct s as [h w tr]. intros run Hlast.
  set (o1 := Obj false (list_to_map [("CbteNro", number); ("PtoVta", salesPoint);
                                     ("CbteTipo", type)])).
  set (o2 := Obj false (list_to_map [("FeCompConsReq", VRef (length h))])).
  set (handler := λ err : exn, if strict_eq (code err) (VNum (Int 602))
                               then ret (W := W) VNull else throw err).
  set (s0 := State ((h ++ [o1]) ++ [o2]) w tr).
  assert (Hrun0 : run = (result <- catch (executeRequest "FECompConsultar"
                                            (VRef (length (h ++ [o1]))) tokenAndSign) handler ;;
                         get result "ResultGet") s0) by reflexivity.
  assert (Hlast' : last_exchanged s0
                     (executeRequest "FECompConsultar" (VRef (length (h ++ [o1])))
                        tokenAndSign s0).2
                     (Soap "FECompConsultar" params token hs answer hr)).
  { destruct Hlast as (evs & Htr & Hlast). exists evs. split; [|done].
    transitivity (st_trace run.2); [|exact Htr].
    rewrite Hrun0. symmetry. apply catch_bind_quiet_trace.
    - intros e. unfold handler. destruct (strict_eq _ _); solve_quiet.
    - intros a. apply quiet_get. }
  destruct (executeRequest_scenario "FECompConsultar" (length (h ++ [o1])) o2 tokenAndSign
              ((h ++ [o1]) ++ [o2]) w tr params token hs answer hr eq_refl (lookup_new0 _ _ _)
              Hlast') as (-> & -> & [c ->] & Hanswer).
  intros req.
  assert (Hreq : req = VRef (length h)).
  { unfold req. rewrite (hget_with_Auth _ _ (VRef (length ((h ++ [o1]) ++ [o2]))) (props o2));
      [by vm_compute| |done].
    apply with_auth_props. apply lookup_new0. }
  assert (Ho1 : own_props (with_auth CUIT ((h ++ [o1]) ++ [o2]) (length (h ++ [o1])) o2 c)
                  (VRef (length h)) = props o1).
  { cbn [own_props]. rewrite with_auth_lookup_ne.
    - rewrite lookup_app_l by (rewrite length_app; cbn; lia). by rewrite lookup_new0.
    - rewrite length_app. cbn. lia.
    - rewrite !length_app. cbn. lia. }
  rewrite Hreq. unfold hget. rewrite Ho1.
  split; [by vm_compute|]. split; [by vm_compute|]. split; [by vm_compute|]. split; [done|].
  fold s0 in Hanswer.
  destruct answer as [results|e].
  - cbv zeta. intros Hresults Hres Herrors. rewrite Hrun0. unfold bind, catch.
    destruct (Hanswer Hresults eq_refl Hres Herrors) as (w2 & tr2 & ->).
    cbn [fst snd]. by rewrite get_not_nullish.
  - rewrite Hrun0. unfold bind, catch.
    destruct Hanswer as [s1 ->]. cbn [fst snd]. unfold handler.
    by destruct (strict_eq (code e) (VNum (Int 602))).
Qed.

(** X9.  The health check of the invoicing service, with or without a
    credential: the delegate is not consulted, one request is sent, its
    parameters have no property at all; a failure of the transport is
    raised as it is, and an answer without error list gives its result
    section. *)
Theorem getServerStatus_exchange tokenAndSign (s : state W) :
  let run := getServerStatus tokenAndSign s in
  let params := VRef (length (st_heap s)) in
  ∃ hs answer hr,
    st_trace run.2 = st_trace s ++ [Soap "FEDummy" params tokenAndSign hs answer hr]
    ∧ own_props hs params = ∅
    ∧ match answer with
      | Throw e => run.1 = Throw e
      | Ok results =>
          let res := hget hr results "FEDummyResult" in
          nullish results = false → nullish res = false →
          truthy (hget hr res "Errors") = false →
          run.1 = Ok res
      end.
Proof.
  destruct s as [h w tr]. intros run params. subst run params.
  unfold ElectronicBilling.getServerStatus. rewrite executeRequest_default.
  rewrite (executeRequest_FEDummy CUIT delegate transport (length h) (Obj false (list_to_map [])))
    by apply lookup_new0.
  rewrite send_run. cbn [st_heap st_trace is_array props].
  match goal with |- context [transport w ?hs0] => set (hs := hs0) end.
  assert (Hprops : own_props hs (VRef (length h)) = ∅).
  { unfold hs. cbn [own_props]. rewrite list_lookup_insert_eq; [done|].
    rewrite !length_app. cbn. lia. }
  destruct (transport w hs "FEDummy" (VRef (length h)) tokenAndSign) as [[t|e] w2].
  - destruct (alloc_tree t hs) as [results hr] eqn:Et. exists hs, (Ok results), hr.
    destruct (after_transport_frame _ _ _ _ "FEDummy" w2
                (tr ++ [Soap "FEDummy" (VRef (length h)) tokenAndSign hs (Ok results) hr]) Et)
      as [_ Htr].
    split; [exact Htr|]. split; [done|].
    cbv zeta. intros Hresults Hres Herrors.
    destruct (after_transport_plain "FEDummy" results hr w2
                (tr ++ [Soap "FEDummy" (VRef (length h)) tokenAndSign hs (Ok results) hr])
                Hresults eq_refl) as [Hpass _].
    by rewrite Hpass.
  - by exists hs, (Throw e), hs.
Qed.

End methods2.

Section RegisterScopeFour_facts.
Context `{Engine} {W : Type}.
Variable CUIT : value.
Variable delegate : AuthDelegate W.
Variable transport : SoapTransport W.

#[local] Abbreviation getTaxpayerDetails :=
  (RegisterScopeFour.getTaxpayerDetails CUIT delegate transport).
#[local] Abbreviation getServerStatus :=
  (RegisterScopeFour.getServerStatus transport).

Implicit Types (h : heap) (w : W) (tr : list event).

(** X10.  The query for a taxpayer: the credential travels inside the
    parameters, as [token] and [sign], beside the CUIT of the client and
    the identifier asked for; it is the caller's when one is given, and
    then the delegate is not consulted, and otherwise the ticket the
    delegate gives for "ws_sr_padron_a4". *)
Theorem getTaxpayerDetails_query identifier tokenAndSign (s : state W)
    params token hs answer hr :
  let run := getTaxpayerDetails identifier tokenAndSign s in
  exchanged s run.2 (Soap "getPersona" params token hs answer hr) →
  token = VUndef
  ∧ hget hs params "cuitRepresentada" = CUIT
  ∧ hget hs params "idPersona" = identifier
  ∧ if truthy tokenAndSign
    then hget hs params "token" = hget (st_heap s) tokenAndSign "token"
         ∧ hget hs params "sign" = hget (st_heap s) tokenAndSign "sign"
         ∧ ∀ service a, ¬ exchanged s run.2 (GetTA service a)
    else ∃ ticket signature w',
           delegate (st_world s) "ws_sr_padron_a4" = (Ok (ticket, signature), w')
           ∧ hget hs params "token" = ticket
           ∧ hget hs params "sign" = signature.
Proof.
  destruct s as [h w tr]. intros run. subst run.
  rewrite (getTaxpayerDetails_run CUIT delegate transport).
  unfold padron_credential. cbn [st_heap st_world].
  destruct (truthy tokenAndSign) eqn:Hts.
  - cbv zeta. cbn [fst snd].
    set (o := Obj false (list_to_map [("token", hget h tokenAndSign "token");
                                      ("sign", hget h tokenAndSign "sign");
                                      ("cuitRepresentada", CUIT); ("idPersona", identifier)])).
    assert (Hsent : ∀ ev answer0 hr0 (s' : state W),
              exchanged (State h w tr) s' ev →
              st_trace s' = tr ++ [] ++ [Soap "getPersona" (VRef (length h)) VUndef
                                           (h ++ [o]) answer0 hr0] →
              ev = Soap "getPersona" (VRef (length h)) VUndef (h ++ [o]) answer0 hr0).
    { intros ev answer0 hr0 s' (evs & Htr' & Hev) Htr. cbn [st_trace] in Htr'.
      rewrite Htr in Htr'. apply app_inv_head in Htr' as <-.
      by apply list_elem_of_singleton in Hev. }
    destruct (transport w (h ++ [o]) "getPersona" (VRef (length h)) VUndef) as [[t|e] w2].
    + destruct (alloc_tree t (h ++ [o])) as [results hr0] eqn:Et. cbn [snd].
      intros Hex. pose proof (Hsent _ _ _ _ Hex eq_refl) as Hev.
      injection Hev as -> -> -> _ _.
      unfold hget. rewrite own_props_new0. cbn [props o].
      repeat (split; [by vm_compute|]).
      intros service a Hta. by pose proof (Hsent _ _ _ _ Hta eq_refl).
    + cbn [snd]. intros Hex. pose proof (Hsent _ _ _ _ Hex eq_refl) as Hev.
      injection Hev as -> -> -> _ _.
      unfold hget. rewrite own_props_new0. cbn [props o].
      repeat (split; [by vm_compute|]).
      intros service a Hta. by pose proof (Hsent _ _ _ _ Hta eq_refl).
  - destruct (delegate w "ws_sr_padron_a4") as [[[ticket signature]|e] w'] eqn:Hd.
    2:{ cbn [snd]. intros (evs & Htr & Hev). cbn [st_trace] in Htr.
        apply app_inv_head in Htr as <-. by apply list_elem_of_singleton in Hev. }
    cbv zeta. cbn [fst snd].
    set (o := Obj false (list_to_map [("token", ticket); ("sign", signature);
                                      ("cuitRepresentada", CUIT); ("idPersona", identifier)])).
    assert (Hsent : ∀ ev answer0 hr0 (s' : state W),
              exchanged (State h w tr) s' ev →
              st_trace s' = tr ++ [GetTA "ws_sr_padron_a4" (Ok (ticket, signature))]
                               ++ [Soap "getPersona" (VRef (length h)) VUndef
                                     (h ++ [o]) answer0 hr0] →
              ev = GetTA "ws_sr_padron_a4" (Ok (ticket, signature))
              ∨ ev = Soap "getPersona" (VRef (length h)) VUndef (h ++ [o]) answer0 hr0).
    { intros ev answer0 hr0 s' (evs & Htr' & Hev) Htr. cbn [st_trace] in Htr'.
      rewrite Htr in Htr'. apply app_inv_head in Htr' as <-.
      apply elem_of_cons in Hev as [->|Hev]; [by left|].
      right. by apply list_elem_of_singleton in Hev. }
    destruct (transport w' (h ++ [o]) "getPersona" (VRef (length h)) VUndef) as [[t|e] w2].
    + destruct (alloc_tree t (h ++ [o])) as [results hr0] eqn:Et. cbn [snd].
      intros Hex. destruct (Hsent _ _ _ _ Hex eq_refl) as [[=]|Hev].
      injection Hev as -> -> -> _ _.
      unfold hget. rewrite own_props_new0. cbn [props o].
      repeat (split; [by vm_compute|]).
      exists ticket, signature, w'. repeat (split; [by vm_compute|]). by vm_compute.
    + cbn [snd]. intros Hex. destruct (Hsent _ _ _ _ Hex eq_refl) as [[=]|Hev].
      injection Hev as -> -> -> _ _.
      unfold hget. rewrite own_props_new0. cbn [props o].
      repeat (split; [by vm_compute|]).
      exists ticket, signature, w'. repeat (split; [by vm_compute|]). by vm_compute.
Qed.

(** X11.  The not-found policy of [getTaxpayerDetails] covers the request
    only.  A failure of the delegate is raised as it is, whatever its
    message says, and nothing is sent. *)
Theorem getTaxpayerDetails_delegate_failure identifier tokenAndSign (s : state W) e w' :
  truthy tokenAndSign = false →
  delegate (st_world s) "ws_sr_padron_a4" = (Throw e, w') →
  getTaxpayerDetails identifier tokenAndSign s
  = (Throw e, State (st_heap s) w' (st_trace s ++ [GetTA "ws_sr_padron_a4" (Throw e)])).
Proof.
  destruct s as [h w tr]. cbn [st_heap st_world st_trace]. intros Hts Hd.
  rewrite (getTaxpayerDetails_run CUIT delegate transport).
  unfold padron_credential. by rewrite Hts, Hd.
Qed.

(** X12.  An answer to [getPersona] that lacks [personaReturn] makes
    [getTaxpayerDetails] fail with a TypeError, which the not-found
    policy lets through; an answer whose [personaReturn] has no [persona]
    gives [undefined], not [null]. *)
Theorem getTaxpayerDetails_incomplete_answer identifier tokenAndSign (s : state W)
    params token hs results hr :
  let run := getTaxpayerDetails identifier tokenAndSign s in
  last_exchanged s run.2 (Soap "getPersona" params token hs (Ok results) hr) →
  nullish results = false →
  let personaReturn := hget hr results "personaReturn" in
  (nullish personaReturn = true →
   run.1 = Throw (TypeError ("Cannot read properties of " +:+ nullish_name personaReturn
                               +:+ " (reading 'persona')")))
  ∧ (nullish personaReturn = false →
     own_props hr personaReturn !! "persona" = None →
     run.1 = Ok VUndef).
Proof.
  destruct s as [h w tr]. intros run. subst run.
  rewrite (getTaxpayerDetails_run CUIT delegate transport).
  destruct (padron_credential delegate tokenAndSign h w) as [[[c|e] w1] evs] eqn:Hcred.
  2:{ cbn [snd]. intros (evs' & Htr & Hlast). cbn [st_trace] in Htr.
      apply app_inv_head in Htr as <-.
      unfold padron_credential in Hcred. destruct (truthy tokenAndSign); [by simplify_eq|].
      destruct (delegate w "ws_sr_padron_a4"). by simplify_eq. }
  cbv zeta.
  destruct (transport w1 _ "getPersona" (VRef (length h)) VUndef) as [[t|e] w2].
  - destruct (alloc_tree t _) as [results' hr'].
    cbn [fst snd]. intros (evs' & Htr & Hlast). cbn [st_trace] in Htr.
    apply app_inv_head in Htr as <-.
    rewrite last_snoc in Hlast. injection Hlast as _ _ _ <- <-.
    cbv zeta. intros Hresults. rewrite Hresults. split.
    + intros Hpr. by rewrite Hpr.
    + intros Hpr Hnone. rewrite Hpr. unfold hget at 1. by rewrite Hnone.
  - cbn [fst snd]. intros (evs' & Htr & Hlast). cbn [st_trace] in Htr.
    apply app_inv_head in Htr as <-.
    rewrite last_snoc in Hlast. by injection Hlast.
Qed.

(** X13.  The health check of the registry: the delegate is not
    consulted, one request "dummy" is sent with parameters that have no
    property and no credential, the caller's store being as it was; the
    [return] part of the answer is handed back, and a failure of the
    transport is raised as it is. *)
Theorem RegisterScopeFour_getServerStatus_exchange (s : state W) :
  let run := getServerStatus s in
  let params := VRef (length (st_heap s)) in
  let hs := st_heap s ++ [Obj false ∅] in
  ∃ answer hr,
    st_trace run.2 = st_trace s ++ [Soap "dummy" params VUndef hs answer hr]
    ∧ match answer with
      | Throw e => run.1 = Throw e
      | Ok results => nullish results = false → run.1 = Ok (hget hr results "return")
      end.
Proof.
  destruct s as [h w tr]. intros run params hs. subst run params hs.
  unfold RegisterScopeFour.getServerStatus, RegisterScopeFour.executeRequest.
  rewrite bool_decide_eq_true_2 by done.
  unfold bind, new_object, super_executeRequest. cbn [st_heap st_world st_trace].
  change (list_to_map []) with (∅ : gmap string value).
  change (String.eqb "dummy" "getPersona") with false. cbv iota.
  destruct (transport w (h ++ [Obj false ∅]) "dummy" (VRef (length h)) VUndef) as [[t|e] w2].
  - destruct (alloc_tree t (h ++ [Obj false ∅])) as [results hr].
    exists (Ok results), hr. cbn [fst snd].
    split; [by destruct results|]. intros Hresults. by rewrite get_not_nullish.
  - by exists (Throw e), (h ++ [Obj false ∅]).
Qed.

End RegisterScopeFour_facts.

Section createVoucher_facts.
Context `{Engine} {W : Type}.
Variable CUIT : value.
Variable delegate : AuthDelegate W.
Variable transport : SoapTransport W.

#[local] Abbreviation createVoucher := (ElectronicBilling.createVoucher CUIT delegate transport).

Implicit Types (h : heap) (w : W) (tr : list event).

(** X14.  What a run of [createVoucher] exchanges with the outside world:
    at most one call to the delegate, then at most one request; when
    nothing is sent the call has failed. *)
Theorem createVoucher_exchanges data returnResponse tokenAndSign (s : state W) :
  let run := createVoucher data returnResponse tokenAndSign s in
  ∃ evs,
    st_trace run.2 = st_trace s ++ evs
    ∧ ((∃ e, run.1 = Throw e
             ∧ (evs = [] ∨ ∃ a, evs = [GetTA "ws_sr_constancia_inscripcion" a]))
       ∨ (∃ params token hs answer hr,
            evs = [Soap "FECAESolicitar" params token hs answer hr]
            ∨ ∃ c, evs = [GetTA "ws_sr_constancia_inscripcion" (Ok c);
                          Soap "FECAESolicitar" params token hs answer hr])).
Proof.
  destruct s as [h w tr]. intros run. subst run. cbn [st_trace].
  destruct (createVoucher_cases CUIT delegate transport data returnResponse tokenAndSign h w tr)
    as [(e & evs & Hthrow & Htr & Hevs)
       |(CantReg & c & w1 & evs0 & answer & hr & w2 & _ & _ & Hcred & Htr & _)].
  - exists evs. split; [done|]. left. by exists e.
  - cbv zeta in Htr. eexists. split; [exact Htr|]. right.
    eexists _, _, _, answer, hr.
    unfold credential_of in Hcred. destruct (truthy _).
    + injection Hcred as _ _ <-. by left.
    + destruct (delegate w _) as [a w']. injection Hcred as -> _ <-. right. by exists c.
Qed.

(** X15.  The shape of the request: the header carries the sales point
    and the voucher type of [data] and the count
    [CbteHasta - CbteDesde + 1] ([NaN] when [CbteDesde] is missing: the
    range is not validated); the detail is [data] without these three
    fields, its other fields, the plural ones apart, as the caller gave
    them. *)
Theorem createVoucher_header_and_detail data returnResponse tokenAndSign (s : state W)
    params token hs answer hr :
  let run := createVoucher data returnResponse tokenAndSign s in
  exchanged s run.2 (Soap "FECAESolicitar" params token hs answer hr) →
  let h := st_heap s in
  let header := hget hs (hget hs params "FeCAEReq") "FeCabReq" in
  let detail := detail_of hs params in
  hget hs header "PtoVta" = hget h data "PtoVta"
  ∧ hget hs header "CbteTipo" = hget h data "CbteTipo"
  ∧ (∀ a b, hget h data "CbteDesde" = VNum (Int a) →
            hget h data "CbteHasta" = VNum (Int b) →
            (Z.abs (b - a) ≤ 2 ^ 53)%Z → (Z.abs (b - a + 1) ≤ 2 ^ 53)%Z →
            hget hs header "CantReg" = VNum (Int (b - a + 1)))
  ∧ (∀ x, hget h data "CbteDesde" = VUndef →
          hget h data "CbteHasta" = VNum x →
          hget hs header "CantReg" = VNum NaN)
  ∧ (∀ k, k ∈ ["CantReg"; "PtoVta"; "CbteTipo"] → own_props hs detail !! k = None)
  ∧ (∀ k, k ∉ ["CantReg"; "PtoVta"; "CbteTipo"] → k ∉ plural_fields.*1 →
          own_props hs detail !! k = own_props h data !! k).
Proof.
  destruct s as [h w tr]. intros run Hex h0 header detail. subst h0. cbn [st_heap].
  apply createVoucher_sent in Hex
    as [[a [=]]|(CantReg & c & hs' & answer' & hr' & Hdata & Hcant & Hhs & Hev
                 & Hdetail & Hprops & Hold)].
  cbv zeta in Hhs, Hev, Hdetail, Hprops, Hold. injection Hev as -> _ <- _ _.
  destruct (request_heap_spec h data CantReg)
    as (Hlen & _ & Hcab & _ & Hfe & Hreq & _ & Hkeep & _).
  cbv zeta in Hlen, Hcab, Hfe, Hreq, Hkeep.
  set (h1 := request_heap h data CantReg) in *.
  assert (E1 : hget hs (VRef (length h + 4)) "FeCAEReq" = VRef (length h + 3)).
  { unfold hget. rewrite Hhs, (with_auth_props CUIT _ _ _ _ Hreq). cbn [props].
    by vm_compute. }
  assert (E2 : hget hs (VRef (length h + 3)) "FeCabReq" = VRef (length h + 1)).
  { unfold hget. cbn [own_props]. rewrite Hold, Hfe by lia. cbn [props]. by vm_compute. }
  assert (Hheader : own_props hs header
                    = list_to_map [("CantReg", CantReg); ("PtoVta", hget h data "PtoVta");
                                   ("CbteTipo", hget h data "CbteTipo")]).
  { unfold header. rewrite E1, E2. cbn [own_props]. by rewrite Hold, Hcab by lia. }
  assert (Hd : own_props hs detail = own_props h1 (VRef (length h))).
  { unfold detail, detail_of. by rewrite Hdetail. }
  split; [unfold hget at 1; rewrite Hheader; by vm_compute|].
  split; [unfold hget at 1; rewrite Hheader; by vm_compute|].
  split; [|split; [|split]].
  - intros a b Ha Hb Hab Hab1. unfold hget at 1. rewrite Hheader.
    unfold CantReg_of in Hcant. rewrite Ha, Hb in Hcant.
    cbn [subtract ToNumber number_sub add ToPrimitive is_string orb number_add] in Hcant.
    rewrite (round53_exact (b - a)) in Hcant by done.
    rewrite round53_exact in Hcant by done. injection Hcant as <-. by vm_compute.
  - intros x Ha Hb. unfold hget at 1. rewrite Hheader.
    unfold CantReg_of in Hcant. rewrite Ha, Hb in Hcant.
    cbn [subtract ToNumber number_sub add ToPrimitive is_string orb number_add] in Hcant.
    assert (Hnan : number_sub x NaN = NaN) by (by destruct x).
    rewrite Hnan in Hcant.
    cbn [subtract ToNumber number_sub add ToPrimitive is_string orb number_add] in Hcant.
    injection Hcant as <-. by vm_compute.
  - intros k Hk. rewrite Hd, Hkeep.
    + unfold detail_props.
      repeat (apply elem_of_cons in Hk as [->|Hk];
              [by repeat first [rewrite lookup_delete_eq | rewrite lookup_delete_ne by done]|]).
      by apply elem_of_nil in Hk.
    + repeat (apply elem_of_cons in Hk as [->|Hk];
              [intros Hin; repeat (apply elem_of_cons in Hin as [?|Hin]; [done|]);
               by apply elem_of_nil in Hin|]).
      by apply elem_of_nil in Hk.
  - intros k Hk Hplural. rewrite Hd, Hkeep by done. unfold detail_props.
    rewrite !lookup_delete_ne; [done|..]; intros <-; apply Hk;
      repeat first [apply list_elem_of_here | apply list_elem_of_further].
Qed.

End createVoucher_facts.

Section createVoucher_facts2.
Context `{Engine} {W : Type}.
Variable CUIT : value.
Variable delegate : AuthDelegate W.
Variable transport : SoapTransport W.

#[local] Abbreviation createVoucher := (ElectronicBilling.createVoucher CUIT delegate transport).

Implicit Types (h : heap) (w : W) (tr : list event).

(** Values of the caller's store read the same in a store that extends
    it. *)
Lemma own_props_frame h h' v :
  (∀ l, l < length h → h' !! l = h !! l) →
  (∀ l, v = VRef l → l < length h) →
  own_props h' v = own_props h v.
Proof.
  intros Hframe Hv. destruct v as [| | | | |l]; try done.
  cbn [own_props]. by rewrite Hframe by (by apply Hv).
Qed.

Lemma Auth_block_props (a b c : value) :
  let m : gmap string value := list_to_map [("Token", a); ("Sign", b); ("Cuit", c)] in
  default VUndef (m !! "Token") = a
  ∧ default VUndef (m !! "Sign") = b
  ∧ default VUndef (m !! "Cuit") = c.
Proof. by vm_compute. Qed.

(** X16.  The credential of [createVoucher] is the [token] property of
    [data], whatever is passed as third argument: when it is truthy the
    [Auth] block carries its [token] and [sign] and the delegate is not
    consulted; otherwise the block carries the delegate's ticket. *)
Theorem createVoucher_credential_is_data_token data returnResponse tokenAndSign (s : state W)
    params token hs answer hr :
  let run := createVoucher data returnResponse tokenAndSign s in
  let credential := hget (st_heap s) data "token" in
  (∀ l, credential = VRef l → l < length (st_heap s)) →
  exchanged s run.2 (Soap "FECAESolicitar" params token hs answer hr) →
  let Auth := hget hs params "Auth" in
  token = credential
  ∧ hget hs Auth "Cuit" = CUIT
  ∧ if truthy credential
    then hget hs Auth "Token" = hget (st_heap s) credential "token"
         ∧ hget hs Auth "Sign" = hget (st_heap s) credential "sign"
         ∧ ∀ service a, ¬ exchanged s run.2 (GetTA service a)
    else ∃ ticket signature w',
           delegate (st_world s) "ws_sr_constancia_inscripcion" = (Ok (ticket, signature), w')
           ∧ hget hs Auth "Token" = ticket
           ∧ hget hs Auth "Sign" = signature.
Proof.
  destruct s as [h w tr]. intros run credential Hstore (evs & Htr & Hev) Auth.
  subst run. cbn [st_heap st_world st_trace] in *.
  destruct (createVoucher_cases CUIT delegate transport data returnResponse tokenAndSign h w tr)
    as [(e & evs' & _ & Htr' & Hevs)
       |(CantReg & c & w1 & evs0 & answer' & hr' & w2 & _ & _ & Hcred & Htr' & _)].
  { rewrite Htr' in Htr. apply app_inv_head in Htr as <-.
    destruct Hevs as [->|[a ->]]; [by apply elem_of_nil in Hev|].
    by apply list_elem_of_singleton in Hev. }
  cbv zeta in Htr'. fold credential in Hcred, Htr'.
  destruct (request_heap_spec h data CantReg) as (Hlen & Hold & _ & _ & _ & Hreq & _).
  cbv zeta in Hlen, Hold, Hreq.
  set (h1 := request_heap h data CantReg) in *.
  assert (Hprops : own_props h1 credential = own_props h credential)
    by (by apply own_props_frame).
  assert (Hsoap : params = VRef (length h + 4) ∧ token = credential
                  ∧ hs = with_auth CUIT h1 (length h + 4)
                           (Obj false (list_to_map [("FeCAEReq", VRef (length h + 3))])) c).
  { rewrite Htr' in Htr. apply app_inv_head in Htr as <-.
    apply elem_of_app in Hev as [Hev|Hev].
    - apply credential_of_events in Hcred as [->| ->]; [by apply elem_of_nil in Hev|].
      by apply list_elem_of_singleton in Hev.
    - apply list_elem_of_singleton in Hev. by injection Hev as -> -> -> _ _. }
  destruct Hsoap as (-> & -> & ->). subst Auth.
  rewrite !(with_auth_Auth_props CUIT) by exact Hreq.
  destruct (Auth_block_props c.1 c.2 CUIT) as (-> & -> & ->).
  split; [done|]. split; [done|].
  unfold credential_of in Hcred. destruct (truthy credential) eqn:Hts.
  - injection Hcred as <- _ <-. cbn [fst snd]. unfold hget at 1 3. rewrite Hprops.
    split; [done|]. split; [done|].
    intros service a (evs' & Htr'' & Hta). cbn [st_trace] in Htr''.
    rewrite Htr' in Htr''. apply app_inv_head in Htr'' as <-.
    by apply list_elem_of_singleton in Hta.
  - destruct (delegate w _) as [a w'] eqn:Hd. injection Hcred as -> _ _.
    destruct c as [ticket signature]. by exists ticket, signature, w'.
Qed.

(** The minimal result, whatever the expiry date: the date is formatted
    and the pair built from the detail, reduced to its first element. *)
Lemma createVoucher_result_steps returnResponse lres lfd h w tr :
  strict_eq returnResponse (VBool true) = false →
  hget h (VRef lres) "FeDetResp" = VRef lfd →
  let detail := first_if_array h (hget h (VRef lfd) "FECAEDetResponse") in
  nullish detail = false →
  createVoucher_result returnResponse (VRef lres) (State h w tr)
  = (CAEFchVto <- ElectronicBilling.formatDate (hget h detail "CAEFchVto") ;;
     new_object [("CAE", hget h detail "CAE"); ("CAEFchVto", CAEFchVto)])
      (State (collapse_detail h lfd) w tr).
Proof.
  intros Hrr Hfd detail Hdetail.
  unfold createVoucher_result. rewrite Hrr.
  apply wp_eq. repeat wp_prim. rewrite Hfd. repeat wp_prim.
  apply wp_collapse_again; [done|]. cbv beta iota.
  repeat wp_prim. hsimp. rewrite Hfd.
  repeat wp_prim. hsimp. fold detail.
  repeat wp_prim. hsimp. rewrite Hfd.
  repeat wp_prim. hsimp. fold detail.
  repeat wp_prim. hsimp.
  unfold wp, bind.
  by destruct (ElectronicBilling.formatDate _ _) as [[a|e] s1].
Qed.

(** An answer that passes the check, up to the building of the result. *)
Lemma createVoucher_passes data returnResponse tokenAndSign (s : state W)
    params token hs results hr lres lfd :
  let run := createVoucher data returnResponse tokenAndSign s in
  last_exchanged s run.2 (Soap "FECAESolicitar" params token hs (Ok results) hr) →
  hget hr results "FECAESolicitarResult" = VRef lres →
  hget hr (VRef lres) "FeDetResp" = VRef lfd →
  let detail := first_if_array hr (hget hr (VRef lfd) "FECAEDetResponse") in
  nullish detail = false →
  truthy (hget hr detail "Observaciones")
    && negb (strict_eq (hget hr detail "Resultado") (VStr "A")) = false →
  truthy (hget hr (VRef lres) "Errors") = false →
  ∃ w2 tr2,
    run = createVoucher_result (default_false returnResponse) (VRef lres)
            (State (collapse_detail hr lfd) w2 tr2).
Proof.
  intros run Hlast Hres Hfd detail Hdetail Hobs Herrors.
  apply createVoucher_answered in Hlast as (t & w2 & tr2 & _ & Hrun).
  assert (Hresults : nullish results = false) by (by destruct results).
  exists w2, tr2. subst run. rewrite Hrun.
  unfold after_transport. unfold bind at 1 2.
  rewrite (checkErrors_passes results lres lfd) by done. cbn [fst snd].
  change ("FECAESolicitar" +:+ "Result") with "FECAESolicitarResult".
  rewrite get_not_nullish by done. cbn [fst snd st_heap].
  by rewrite hget_collapse_ne, Hres by done.
Qed.

(** X17.  In full-response mode the response is not handed back as it was
    received: the check has reduced its detail section to the first
    element, in place, when it came as an array. *)
Theorem createVoucher_full_response_is_normalised data returnResponse tokenAndSign
    (s : state W) params token hs results hr lres lfd :
  let run := createVoucher data returnResponse tokenAndSign s in
  last_exchanged s run.2 (Soap "FECAESolicitar" params token hs (Ok results) hr) →
  returnResponse = VBool true →
  hget hr results "FECAESolicitarResult" = VRef lres →
  hget hr (VRef lres) "FeDetResp" = VRef lfd →
  let raw := hget hr (VRef lfd) "FECAEDetResponse" in
  let detail := first_if_array hr raw in
  nullish detail = false →
  truthy (hget hr detail "Observaciones")
    && negb (strict_eq (hget hr detail "Resultado") (VStr "A")) = false →
  truthy (hget hr (VRef lres) "Errors") = false →
  run.1 = Ok (VRef lres)
  ∧ hget (st_heap run.2) (VRef lfd) "FECAEDetResponse" = detail
  ∧ (∀ v k, k ≠ "FECAEDetResponse" → hget (st_heap run.2) v k = hget hr v k).
Proof.
  intros run Hlast -> Hres Hfd raw detail Hdetail Hobs Herrors.
  destruct (createVoucher_passes data (VBool true) tokenAndSign s params token hs results hr
              lres lfd Hlast Hres Hfd Hdetail Hobs Herrors) as (w2 & tr2 & Hrun).
  fold run in Hrun. rewrite Hrun. cbn [fst snd st_heap].
  split; [done|]. split; [apply hget_collapse|].
  intros v k Hk. by apply hget_collapse_ne.
Qed.

(** X18.  An answer that passes the check but whose detail has no expiry
    date makes the call fail in minimal mode: the date is formatted
    without being looked at. *)
Theorem createVoucher_missing_expiry_date data returnResponse tokenAndSign (s : state W)
    params token hs results hr lres lfd :
  let run := createVoucher data returnResponse tokenAndSign s in
  last_exchanged s run.2 (Soap "FECAESolicitar" params token hs (Ok results) hr) →
  strict_eq (default_false returnResponse) (VBool true) = false →
  hget hr results "FECAESolicitarResult" = VRef lres →
  hget hr (VRef lres) "FeDetResp" = VRef lfd →
  let detail := first_if_array hr (hget hr (VRef lfd) "FECAEDetResponse") in
  nullish detail = false →
  isArray hr detail = false →
  truthy (hget hr detail "Observaciones")
    && negb (strict_eq (hget hr detail "Resultado") (VStr "A")) = false →
  truthy (hget hr (VRef lres) "Errors") = false →
  let date := hget hr detail "CAEFchVto" in
  nullish date = true →
  run.1 = Throw (TypeError ("Cannot read properties of " +:+ nullish_name date
                              +:+ " (reading 'toString')")).
Proof.
  intros run Hlast Hrr Hres Hfd detail Hdetail Harr Hobs Herrors date Hdate.
  destruct (createVoucher_passes data returnResponse tokenAndSign s params token hs results hr
              lres lfd Hlast Hres Hfd Hdetail Hobs Herrors) as (w2 & tr2 & Hrun).
  fold run in Hrun. rewrite Hrun.
  set (hc := collapse_detail hr lfd).
  assert (E : first_if_array hc (hget hc (VRef lfd) "FECAEDetResponse") = detail).
  { unfold hc. rewrite hget_collapse. fold detail. unfold first_if_array.
    by rewrite isArray_collapse, Harr. }
  rewrite (createVoucher_result_steps _ lres lfd hc w2 tr2 Hrr).
  - rewrite E. unfold hc at 1. rewrite hget_collapse_ne by done. fold date.
    unfold bind, ElectronicBilling.formatDate, reading. cbn [fst snd].
    by destruct date.
  - unfold hc. by rewrite hget_collapse_ne.
  - by rewrite E.
Qed.

End createVoucher_facts2.

Section next_voucher_facts.
Context `{Engine} {W : Type}.
Variable CUIT : value.
Variable delegate : AuthDelegate W.
Variable transport : SoapTransport W.

#[local] Abbreviation executeRequest := (ElectronicBilling.executeRequest CUIT delegate transport).
#[local] Abbreviation getLastVoucher := (ElectronicBilling.getLastVoucher CUIT delegate transport).
#[local] Abbreviation createVoucher := (ElectronicBilling.createVoucher CUIT delegate transport).
#[local] Abbreviation createNextVoucher :=
  (ElectronicBilling.createNextVoucher CUIT delegate transport).

Implicit Types (h : heap) (w : W) (tr : list event).

(** [executeRequest] touches the parameter object and nothing else of
    the store it finds. *)
Lemma executeRequest_frame operation p o tokenAndSign h w tr l :
  String.eqb operation "FEDummy" = false →
  h !! p = Some o →
  l ≠ p → l < length h →
  st_heap (executeRequest operation (VRef p) tokenAndSign (State h w tr)).2 !! l = h !! l.
Proof.
  intros Hop Hp Hne Hl. rewrite (executeRequest_cases CUIT delegate transport operation p o) by done.
  destruct (credential_of delegate tokenAndSign h w) as [[[c|e] w1] evs]; [|done].
  cbv zeta.
  assert (Hhs : with_auth CUIT h p o c !! l = h !! l) by (by apply with_auth_lookup_ne).
  assert (Hlen : l < length (with_auth CUIT h p o c)).
  { unfold with_auth. rewrite length_insert, length_app. lia. }
  destruct (transport w1 _ operation (VRef p) tokenAndSign) as [[t|e] w2]; [|done].
  destruct (alloc_tree t _) as [results hr] eqn:Et.
  destruct (after_transport_frame _ _ _ _ operation w2
              (tr ++ evs ++ [Soap operation (VRef p) tokenAndSign (with_auth CUIT h p o c)
                               (Ok results) hr]) Et) as [Hfr _].
  cbv zeta in Hfr. by rewrite Hfr.
Qed.

Lemma getLastVoucher_frame salesPoint type tokenAndSign (s : state W) l o :
  st_heap s !! l = Some o →
  st_heap (getLastVoucher salesPoint type tokenAndSign s).2 !! l = Some o.
Proof.
  destruct s as [h w tr]. cbn [st_heap]. intros Hl.
  assert (Hlt : l < length h) by (by eapply lookup_lt_Some).
  set (o' := Obj false (list_to_map [("PtoVta", salesPoint); ("CbteTipo", type)])).
  change (getLastVoucher salesPoint type tokenAndSign (State h w tr))
    with ((result <- executeRequest "FECompUltimoAutorizado" (VRef (length h)) tokenAndSign ;;
           get result "CbteNro") (State (h ++ [o']) w tr)).
  pose proof (executeRequest_frame "FECompUltimoAutorizado" (length h) o' tokenAndSign
                (h ++ [o']) w tr l eq_refl (lookup_new0 _ _ _)) as Hframe.
  assert (Hl' : (h ++ [o']) !! l = Some o) by (by apply lookup_app_l_Some).
  rewrite Hl' in Hframe.
  unfold bind.
  destruct (executeRequest _ _ _ _) as [[r|e] s1]; cbn [fst snd] in *.
  - replace (st_heap (get r "CbteNro" s1).2) with (st_heap s1) by (by destruct r).
    apply Hframe; [lia|rewrite length_app; lia].
  - apply Hframe; [lia|rewrite length_app; lia].
Qed.

(** [createVoucher] leaves the store it finds as it is. *)
Lemma createVoucher_frame data returnResponse tokenAndSign (s : state W) l o :
  st_heap s !! l = Some o →
  st_heap (createVoucher data returnResponse tokenAndSign s).2 !! l = Some o.
Proof.
  intros Hl. destruct s as [h w tr]. cbn [st_heap] in Hl.
  assert (Hlt : l < length h) by (by eapply lookup_lt_Some).
  destruct (nullish data) eqn:Hdata.
  { by destruct data. }
  rewrite createVoucher_run by done.
  destruct (CantReg_of h data) as [CantReg|e]; [|by apply lookup_app_l_Some].
  cbv zeta.
  destruct (request_heap_spec h data CantReg) as (Hlen & Hold & _). cbv zeta in Hlen, Hold.
  destruct (credential_of _ _ _ _) as [[[c|e] w1] evs0].
  2:{ cbn [snd st_heap]. by rewrite Hold. }
  rewrite send_bind_run.
  match goal with |- context [transport w1 ?hs0] => set (hs := hs0) end.
  assert (Hhs : hs !! l = Some o).
  { unfold hs. rewrite with_auth_lookup_ne by lia. by rewrite Hold. }
  destruct (transport w1 hs _ _ _) as [[t|e] w2]; [|done].
  destruct (alloc_tree t hs) as [results hr] eqn:Et.
  destruct (treatment_frame t hs results hr (default_false returnResponse) w2
              (tr ++ evs0 ++ [Soap "FECAESolicitar" (VRef (length h + 4)) (hget h data "token")
                                hs (Ok results) hr]) Et) as [Hfr _].
  rewrite <- !app_assoc. rewrite Hfr; [done|]. by eapply lookup_lt_Some.
Qed.

(** What [createVoucher] hands back on success is a new object. *)
Lemma createVoucher_result_fresh data returnResponse tokenAndSign (s : state W) l :
  (createVoucher data returnResponse tokenAndSign s).1 = Ok (VRef l) →
  length (st_heap s) ≤ l.
Proof.
  destruct s as [h w tr]. intros Hok. cbn [st_heap].
  destruct (createVoucher_cases CUIT delegate transport data returnResponse tokenAndSign h w tr)
    as [(e & evs' & Hthrow & _)
       |(CantReg & c & w1 & evs0 & answer & hr & w2 & _ & _ & _ & _ & Hrun)].
  { by rewrite Hthrow in Hok. }
  cbv zeta in Hrun. destruct answer as [results|e].
  - destruct Hrun as [[t Ht] Hrun]. rewrite Hrun in Hok.
    destruct (request_heap_spec h data CantReg) as (Hlen & _). cbv zeta in Hlen.
    destruct (treatment_frame _ _ _ _ (default_false returnResponse) w2
                (tr ++ evs0 ++ [Soap "FECAESolicitar" (VRef (length h + 4))
                                  (hget h data "token")
                                  (with_auth CUIT (request_heap h data CantReg) (length h + 4)
                                     (Obj false (list_to_map [("FeCAEReq", VRef (length h + 3))]))
                                     c)
                                  (Ok results) hr]) Ht) as [_ Hreg].
    destruct (Hreg _ Hok l eq_refl) as [Hge _]. revert Hge.
    unfold with_auth. rewrite length_insert, length_app. lia.
  - destruct Hrun as [Hrun _]. by rewrite Hrun in Hok.
Qed.

(** [createNextVoucher] once the last number is known and one is added to
    it. *)
Lemma createNextVoucher_steps d tokenAndSign (s : state W) o v s1 next :
  st_heap s !! d = Some o →
  getLastVoucher (hget (st_heap s) (VRef d) "PtoVta") (hget (st_heap s) (VRef d) "CbteTipo")
    VUndef s = (Ok v, s1) →
  add (st_heap s1) v (VNum (Int 1)) = Ok next →
  createNextVoucher (VRef d) tokenAndSign s
  = (res <- createVoucher (VRef d) tokenAndSign VUndef ;;
     set res "voucherNumber" next ;;;
     ret res)
      (State (hset (hset (st_heap s1) d "CbteDesde" next) d "CbteHasta" next)
         (st_world s1) (st_trace s1)).
Proof.
  intros Hd Hlast Hadd. unfold ElectronicBilling.createNextVoucher.
  apply wp_eq. repeat wp_prim.
  eapply wp_intro; [exact Hlast|]. cbv beta iota.
  unfold js_add. do 2 wp_prim. rewrite Hadd.
  do 4 wp_prim. apply wp_refl.
Qed.

(** X19.  The next number is [lastVoucher + 1] as JavaScript computes it:
    whatever [getLastVoucher] reports goes through [+], so a number that
    arrives as a string gets a "1" appended, and an answer without number
    gives [NaN]; the outcome is submitted as [CbteDesde] and [CbteHasta]
    and returned as [voucherNumber] without being looked at. *)
Theorem createNextVoucher_adds_as_JavaScript_does d tokenAndSign (s : state W) o v s1 next :
  st_heap s !! d = Some o →
  getLastVoucher (hget (st_heap s) (VRef d) "PtoVta") (hget (st_heap s) (VRef d) "CbteTipo")
    VUndef s = (Ok v, s1) →
  add (st_heap s1) v (VNum (Int 1)) = Ok next →
  let run := createNextVoucher (VRef d) tokenAndSign s in
  (∀ params token hs answer hr,
     exchanged s run.2 (Soap "FECAESolicitar" params token hs answer hr) →
     hget hs (detail_of hs params) "CbteDesde" = next
     ∧ hget hs (detail_of hs params) "CbteHasta" = next)
  ∧ (∀ res, run.1 = Ok res → hget (st_heap run.2) res "voucherNumber" = next)
  ∧ (∀ str, v = VStr str → next = VStr (str +:+ "1"))
  ∧ (v = VUndef → next = VNum NaN)
  ∧ (∀ N, v = VNum (Int N) → next = VNum (Int (round53 (N + 1)))).
Proof.
  intros Hd Hlast Hadd run.
  pose proof (createNextVoucher_steps d tokenAndSign s o v s1 next Hd Hlast Hadd) as Hrun.
  fold run in Hrun.
  destruct (getLastVoucher_trace CUIT delegate transport (hget (st_heap s) (VRef d) "PtoVta")
              (hget (st_heap s) (VRef d) "CbteTipo") VUndef s) as (evs1 & Htr1 & Hevs1).
  pose proof (growing_getLastVoucher CUIT delegate transport
                (hget (st_heap s) (VRef d) "PtoVta") (hget (st_heap s) (VRef d) "CbteTipo")
                VUndef s) as Hgrow.
  rewrite Hlast in Htr1, Hgrow. cbn [snd] in Htr1, Hgrow.
  destruct s1 as [h1 w1 tr1]. cbn [st_heap st_world st_trace] in Hrun, Htr1, Hgrow, Hadd.
  assert (Hd1 : d < length h1) by (apply lookup_lt_Some in Hd; lia).
  set (h2 := hset (hset h1 d "CbteDesde" next) d "CbteHasta" next) in *.
  assert (Hdesde : own_props h2 (VRef d) !! "CbteDesde" = Some next).
  { unfold h2. rewrite own_props_hset, bool_decide_eq_false_2 by (by intros (_ & ? & _)).
    rewrite own_props_hset, bool_decide_eq_true_2; [done|].
    split; [done|]. split; [done|]. by apply lookup_lt_is_Some. }
  assert (Hhasta : own_props h2 (VRef d) !! "CbteHasta" = Some next).
  { unfold h2. rewrite own_props_hset, bool_decide_eq_true_2; [done|].
    split; [done|]. split; [done|]. apply lookup_lt_is_Some. by rewrite hset_length. }
  set (s2 := State h2 w1 tr1) in *.
  destruct (createVoucher (VRef d) tokenAndSign VUndef s2) as [r s3] eqn:Hcreate.
  assert (Htrace : st_trace run.2 = st_trace s3).
  { rewrite Hrun. unfold bind at 1. rewrite Hcreate. destruct r as [res|e]; [|done].
    unfold bind.
    destruct (quiet_set (W := W) res "voucherNumber" next s3) as [Hq _].
    by destruct (set res "voucherNumber" next s3) as [[[]|e] s4]. }
  split; [|split; [|split; [|split]]].
  - intros params token hs answer hr (evs & Hevs & Hev).
    destruct (createVoucher_trace CUIT delegate transport (VRef d) tokenAndSign VUndef s2)
      as [evs2 Htr2].
    rewrite Hcreate in Htr2. cbn [snd st_trace s2] in Htr2.
    rewrite Htrace, Htr2, Htr1, <- app_assoc in Hevs. apply app_inv_head in Hevs as <-.
    apply elem_of_app in Hev as [Hev|Hev].
    { destruct (Hevs1 _ Hev) as [[a Ha]|(p & t & hs' & a & hr' & Ha)]; discriminate. }
    destruct (createVoucher_sent CUIT delegate transport (VRef d) tokenAndSign VUndef
                h2 w1 tr1 (Soap "FECAESolicitar" params token hs answer hr))
      as [[a Ha]|(CantReg & c & hs' & answer' & hr' & _ & _ & _ & Hsoap & Hdet & Hprops & _)].
    { exists evs2. fold s2. rewrite Hcreate. by split. }
    { discriminate. }
    cbv zeta in Hsoap, Hdet, Hprops.
    injection Hsoap as -> _ -> _ _. unfold detail_of. rewrite Hdet.
    destruct (request_heap_spec h2 (VRef d) CantReg) as (_ & _ & _ & _ & _ & _ & _ & Hkeep & _).
    cbv zeta in Hkeep. unfold hget. rewrite Hprops.
    rewrite !Hkeep
      by (intros H'; repeat (apply elem_of_cons in H' as [?|H']; [done|]);
          by apply elem_of_nil in H').
    unfold detail_props. rewrite !lookup_delete_ne by done.
    by rewrite Hdesde, Hhasta.
  - intros res Hok. rewrite Hrun in Hok |- *. unfold bind at 1 in Hok. unfold bind at 1.
    pose proof (createVoucher_result_allocated CUIT delegate transport (VRef d) tokenAndSign
                  VUndef s2) as Halloc.
    rewrite Hcreate in Hok, Halloc |- *. cbn [fst snd] in Halloc.
    destruct r as [r|e]; [|done].
    destruct r as [| | | | |l]; try done.
    specialize (Halloc l eq_refl).
    unfold bind, set, ret in Hok |- *. cbn [fst snd st_heap] in Hok |- *.
    injection Hok as <-. by apply hget_hset_same.
  - intros str ->. cbn [add ToPrimitive is_string orb ToString] in Hadd.
    by injection Hadd as <-.
  - intros ->. cbn [add ToPrimitive is_string orb ToNumber number_add] in Hadd.
    by injection Hadd as <-.
  - intros N ->. cbn [add ToPrimitive is_string orb ToNumber number_add] in Hadd.
    by injection Hadd as <-.
Qed.

(** X20.  Unlike [createVoucher], [createNextVoucher] writes into the
    object it is given: once the next number is computed, the caller's
    [data] has it as [CbteDesde] and [CbteHasta], whether or not the
    voucher is then created; its other properties are as before. *)
Theorem createNextVoucher_writes_into_data d tokenAndSign (s : state W) o v s1 next :
  st_heap s !! d = Some o →
  getLastVoucher (hget (st_heap s) (VRef d) "PtoVta") (hget (st_heap s) (VRef d) "CbteTipo")
    VUndef s = (Ok v, s1) →
  add (st_heap s1) v (VNum (Int 1)) = Ok next →
  let run := createNextVoucher (VRef d) tokenAndSign s in
  st_heap run.2 !! d
  = Some (Obj (is_array o) (<["CbteHasta" := next]> (<["CbteDesde" := next]> (props o)))).
Proof.
  intros Hd Hlast Hadd run.
  pose proof (createNextVoucher_steps d tokenAndSign s o v s1 next Hd Hlast Hadd) as Hrun.
  fold run in Hrun.
  pose proof (getLastVoucher_frame (hget (st_heap s) (VRef d) "PtoVta")
                (hget (st_heap s) (VRef d) "CbteTipo") VUndef s d o Hd) as Hd1.
  rewrite Hlast in Hd1. cbn [snd] in Hd1.
  destruct s1 as [h1 w1 tr1]. cbn [st_heap st_world st_trace] in Hrun, Hd1.
  set (h2 := hset (hset h1 d "CbteDesde" next) d "CbteHasta" next) in *.
  set (o2 := Obj (is_array o) (<["CbteHasta" := next]> (<["CbteDesde" := next]> (props o)))).
  assert (Hd2 : h2 !! d = Some o2).
  { unfold h2.
    rewrite (hset_lookup_eq _ _ _ _ (Obj (is_array o) (<["CbteDesde" := next]> (props o))));
      [done|]. by apply hset_lookup_eq. }
  set (s2 := State h2 w1 tr1) in *.
  pose proof (createVoucher_frame (VRef d) tokenAndSign VUndef s2 d o2 Hd2) as Hd3.
  pose proof (createVoucher_result_fresh (VRef d) tokenAndSign VUndef s2) as Hfresh.
  rewrite Hrun. unfold bind at 1.
  destruct (createVoucher (VRef d) tokenAndSign VUndef s2) as [[res|e] s3];
    cbn [fst snd] in *; [|done].
  unfold bind, set, ret.
  destruct res as [| | | | |l]; try done. cbn [fst snd st_heap].
  specialize (Hfresh l eq_refl). cbn [st_heap s2] in Hfresh.
  assert (d < length h2) by (by eapply lookup_lt_Some).
  rewrite hset_lookup_ne by lia. done.
Qed.

End next_voucher_facts.

(** ** [formatDate] *)

Lemma replace_yyyymmdd_no_run (s : string) :
  (∀ i, digits 8 (drop_chars i s) = false) → replace_yyyymmdd s = s.
Proof.
  induction s as [|c r IH]; intros Hno; [done|].
  unfold replace_yyyymmdd; fold replace_yyyymmdd.
  pose proof (Hno 0) as H0. cbn [drop_chars] in H0. rewrite H0.
  f_equal. apply IH. intros i. apply (Hno (S i)).
Qed.

Lemma digits_short (n : nat) (s : string) : String.length s < n → digits n s = false.
Proof.
  revert s. induction n as [|n IH]; intros s Hlen; [lia|].
  destruct s as [|c r]; [done|]. cbn [digits]. rewrite IH; [apply andb_false_r|].
  cbn [String.length] in Hlen. lia.
Qed.

Lemma drop_chars_length (i : nat) (s : string) :
  String.length (drop_chars i s) = String.length s - i.
Proof.
  revert s. induction i as [|i IH]; intros s; destruct s as [|c r]; cbn; done.
Qed.

Lemma hyphenated_no_run (str : string) :
  String.length str = 8 → ∀ i, digits 8 (drop_chars i (yyyy_mm_dd str)) = false.
Proof.
  intros Hlen.
  do 9 (destruct str as [|? str]; try discriminate). clear Hlen.
  intros i. unfold yyyy_mm_dd.
  do 3 (destruct i as [|i];
        [cbv -[is_digit andb];
         change (is_digit (Ascii.Ascii true false true true false true false false)) with false; cbn [andb]; by rewrite ?andb_false_r|]).
  apply digits_short. rewrite drop_chars_length.
  match goal with |- String.length ?x - _ < _ => change (String.length x) with 10 end. lia.
Qed.

Lemma string_app_assoc (a b c : string) : (a +:+ b) +:+ c = a +:+ (b +:+ c).
Proof.
  induction a as [|x a IH]; [done|]. unfold String.append; fold String.append. by rewrite IH.
Qed.

Lemma digits_app (n : nat) (s r : string) :
  digits n s = true → digits n (s +:+ r) = true.
Proof.
  revert s. induction n as [|n IH]; intros s Hs; [done|].
  destruct s as [|c s]; [done|]. cbn [digits] in Hs.
  apply andb_true_iff in Hs as [Hc Hs].
  unfold String.append; fold String.append. cbn [digits]. by rewrite Hc, IH.
Qed.

Lemma substring_app (i n : nat) (s r : string) :
  i + n ≤ String.length s → String.substring i n (s +:+ r) = String.substring i n s.
Proof.
  revert i n. induction s as [|c s IH]; intros i n Hlen.
  - cbn [String.length] in Hlen. assert (i = 0) as -> by lia. assert (n = 0) as -> by lia.
    by destruct r.
  - unfold String.append; fold String.append. cbn [String.length] in Hlen.
    destruct i as [|i].
    + destruct n as [|n]; [done|]. cbn [String.substring]. f_equal. apply IH. lia.
    + cbn [String.substring]. apply IH. lia.
Qed.

Lemma drop_chars_app (s r : string) : drop_chars (String.length s) (s +:+ r) = r.
Proof.
  induction s as [|c s IH]; [by destruct r|].
  unfold String.append; fold String.append. by cbn [String.length drop_chars].
Qed.

Section formatDate_facts.
Context `{Engine} {W : Type}.

(** X21.  [formatDate] rewrites a run of eight digits and nothing else: a
    string that has none, anywhere, comes back as it is; so do the empty
    string and every string shorter than eight characters. *)
Theorem formatDate_without_eight_digits str (s : state W) :
  (String.length str < 8 ∨ ∀ i, digits 8 (drop_chars i str) = false) →
  ElectronicBilling.formatDate (VStr str) s = (Ok (VStr str), s).
Proof.
  intros Hno. unfold ElectronicBilling.formatDate, reading. cbn [ToString].
  rewrite replace_yyyymmdd_no_run; [done|].
  destruct Hno as [Hshort|Hno]; [|done].
  intros i. apply digits_short. rewrite drop_chars_length. lia.
Qed.

(** X22.  Formatting twice is formatting once, for a date of eight
    characters: the hyphens of the first pass leave no run of eight digits
    for the second. *)
Theorem formatDate_twice str (s : state W) :
  String.length str = 8 →
  (once <- ElectronicBilling.formatDate (VStr str) ;; ElectronicBilling.formatDate once) s
  = ElectronicBilling.formatDate (VStr str) s.
Proof.
  intros Hlen. unfold bind, ElectronicBilling.formatDate, reading. cbn [ToString fst snd].
  f_equal. f_equal. f_equal.
  destruct (digits 8 str) eqn:Hdig.
  - rewrite (replace_yyyymmdd_exact str) by done.
    apply replace_yyyymmdd_no_run. by apply hyphenated_no_run.
  - assert (Hno : ∀ i, digits 8 (drop_chars i str) = false).
    { intros [|i]; [done|]. apply digits_short. rewrite drop_chars_length. lia. }
    rewrite (replace_yyyymmdd_no_run str Hno). apply (replace_yyyymmdd_no_run str Hno).
Qed.

(** X23.  Only the leftmost run of eight digits is rewritten, and what
    follows it is kept: a timestamp keeps its time, and a ninth digit
    stays where it was. *)
Theorem formatDate_leftmost_run date rest (s : state W) :
  String.length date = 8 → digits 8 date = true →
  ElectronicBilling.formatDate (VStr (date +:+ rest)) s
  = (Ok (VStr (yyyy_mm_dd date +:+ rest)), s).
Proof.
  intros Hlen Hdig. unfold ElectronicBilling.formatDate, reading. cbn [ToString].
  f_equal. f_equal. f_equal.
  assert (Hrun : digits 8 (date +:+ rest) = true) by (by apply digits_app).
  destruct (date +:+ rest) as [|c r] eqn:E; [done|].
  unfold replace_yyyymmdd; fold replace_yyyymmdd. rewrite Hrun, <- E.
  rewrite !substring_app by lia. rewrite <- Hlen. rewrite drop_chars_app.
  unfold yyyy_mm_dd. by rewrite !string_app_assoc.
Qed.

End formatDate_facts.

(** ** The extra properties on the test double *)

(** X1: a request for the last voucher, signed with the caller's own
    credential. *)
Lemma executeRequest_Auth_block_witness :
  let run := Mock.executeRequest Mock.happy "FECompUltimoAutorizado" Mock.voucher
               Mock.credential Mock.caller in
  let ev := last_event run.2 in
  let Auth := hget (sent_heap ev) (sent_params ev) "Auth" in
  hget (sent_heap ev) Auth "Cuit" = Mock.CUIT
  ∧ hget (sent_heap ev) Auth "Token" = VStr "caller token"
  ∧ hget (sent_heap ev) Auth "Sign" = VStr "caller sign"
  ∧ ∀ service a, ¬ exchanged Mock.caller run.2 (GetTA service a).
Proof.
  intros run ev Auth.
  assert (Hex : exchanged Mock.caller run.2
                  (Soap "FECompUltimoAutorizado" (sent_params ev) (sent_token ev)
                        (sent_heap ev) (answer_of ev) (received_heap ev))).
  { exists (st_trace run.2). split; [reflexivity|].
    apply list_elem_of_lookup. exists 0. by vm_compute. }
  exact (@executeRequest_Auth_block Mock.engine unit Mock.CUIT Mock.delegate
           (Mock.scripted Mock.happy) "FECompUltimoAutorizado" 0 Mock.voucher_object
           Mock.credential Mock.caller _ _ _ _ _ eq_refl eq_refl Hex).
Defined.

(** X2: the same request leaves its mark on the caller's object. *)
Lemma executeRequest_writes_Auth_into_params_witness :
  let run := Mock.executeRequest Mock.happy "FECompUltimoAutorizado" Mock.voucher
               Mock.credential Mock.caller in
  own_props (st_heap run.2) Mock.voucher !! "Auth" = Some (VRef 5)
  ∧ own_props (st_heap run.2) Mock.voucher !! "PtoVta" = Some (VNum (Int 1))
  ∧ st_heap run.2 !! 1 = st_heap Mock.caller !! 1.
Proof.
  intros run. set (ev := last_event run.2).
  assert (Hex : exchanged Mock.caller run.2
                  (Soap "FECompUltimoAutorizado" (sent_params ev) (sent_token ev)
                        (sent_heap ev) (answer_of ev) (received_heap ev))).
  { exists (st_trace run.2). split; [reflexivity|].
    apply list_elem_of_lookup. exists 0. by vm_compute. }
  destruct (@executeRequest_writes_Auth_into_params Mock.engine unit Mock.CUIT Mock.delegate
              (Mock.scripted Mock.happy) "FECompUltimoAutorizado" 0 Mock.voucher_object
              Mock.credential Mock.caller _ _ _ _ _ eq_refl eq_refl Hex)
    as (HAuth & Hkeep & Hframe).
  split; [exact HAuth|]. split.
  - etransitivity; [apply (Hkeep "PtoVta"); discriminate|reflexivity].
  - apply Hframe; [discriminate|]. apply Nat.ltb_lt. reflexivity.
Defined.

(** X3: the delegate refuses, and the transport fails. *)
Lemma executeRequest_failures_propagate_witness :
  (@ElectronicBilling.executeRequest Mock.engine unit Mock.CUIT Mock.refusing
     (Mock.scripted Mock.happy) "FECompConsultar" Mock.voucher VUndef Mock.caller).1
  = Throw (Exn "No existe el servicio ws_sr_constancia_inscripcion" VUndef)
  ∧ (Mock.executeRequest Mock.failing_602 "FECompConsultar" Mock.voucher VUndef
       Mock.caller).1
    = Throw (Exn "Comprobante inexistente" (VNum (Int 602))).
Proof.
  split.
  - destruct (@executeRequest_failures_propagate Mock.engine unit Mock.CUIT Mock.refusing
                (Mock.scripted Mock.happy) "FECompConsultar" 0 Mock.voucher_object VUndef
                Mock.caller eq_refl eq_refl) as [Hdelegate _].
    exact (f_equal fst (Hdelegate _ tt eq_refl eq_refl)).
  - set (run := Mock.executeRequest Mock.failing_602 "FECompConsultar" Mock.voucher VUndef
                  Mock.caller).
    set (ev := last_event run.2).
    destruct (@executeRequest_failures_propagate Mock.engine unit Mock.CUIT Mock.delegate
                (Mock.scripted Mock.failing_602) "FECompConsultar" 0 Mock.voucher_object VUndef
                Mock.caller eq_refl eq_refl) as [_ Htransport].
    apply (Htransport (sent_params ev) (sent_token ev) (sent_heap ev) _ (received_heap ev)).
    exists (st_trace run.2). split; [reflexivity|]. by vm_compute.
Defined.

(** X4: a query answered with business error 602. *)
Lemma executeRequest_business_errors_witness :
  (Mock.executeRequest Mock.not_found "FECompConsultar" Mock.voucher VUndef Mock.caller).1
  = Throw (Exn "(602) No existen datos en nuestros registros" VUndef).
Proof.
  set (run := Mock.executeRequest Mock.not_found "FECompConsultar" Mock.voucher VUndef
                Mock.caller).
  set (ev := last_event run.2).
  assert (Hlast : last_exchanged Mock.caller run.2
                    (Soap "FECompConsultar" (sent_params ev) (sent_token ev) (sent_heap ev)
                          (Ok (VRef 10)) (received_heap ev))).
  { exists (st_trace run.2). split; [reflexivity|]. by vm_compute. }
  destruct (@executeRequest_business_errors Mock.engine unit Mock.CUIT Mock.delegate
              (Mock.scripted Mock.not_found) "FECompConsultar" 0 Mock.voucher_object VUndef
              Mock.caller _ _ _ _ _ eq_refl eq_refl Hlast eq_refl eq_refl) as [_ Herrors].
  apply (Herrors ltac:(by vm_compute) ltac:(by vm_compute) "602"
           "No existen datos en nuestros registros" ltac:(by vm_compute) ltac:(by vm_compute)).
Defined.

(** X5: the last voucher of sales point 1, type 6. *)
Lemma getLastVoucher_query_witness :
  let run := Mock.getLastVoucher Mock.happy (VNum (Int 1)) (VNum (Int 6)) VUndef Mock.draft in
  let ev := last_event run.2 in
  hget (sent_heap ev) (sent_params ev) "PtoVta" = VNum (Int 1)
  ∧ hget (sent_heap ev) (sent_params ev) "CbteTipo" = VNum (Int 6)
  ∧ run.1 = Ok (VNum (Int 10)).
Proof.
  intros run ev.
  assert (Hlast : last_exchanged Mock.draft run.2
                    (Soap "FECompUltimoAutorizado" (sent_params ev) (sent_token ev)
                          (sent_heap ev) (Ok (VRef 5)) (received_heap ev))).
  { exists (st_trace run.2). split; [reflexivity|]. by vm_compute. }
  destruct (@getLastVoucher_query Mock.engine unit Mock.CUIT Mock.delegate
              (Mock.scripted Mock.happy) (VNum (Int 1)) (VNum (Int 6)) VUndef Mock.draft
              _ _ _ _ _ Hlast) as (HPtoVta & HCbteTipo & _ & Hresult).
  split; [exact HPtoVta|]. split; [exact HCbteTipo|].
  apply Hresult; by vm_compute.
Defined.

(** X6: a CAEA for the first fortnight of April 2023. *)
Lemma CAEA_requests_witness :
  let run := @ElectronicBilling.createCAEA Mock.engine unit Mock.CUIT Mock.delegate
               (Mock.scripted Mock.happy) (VNum (Int 202304)) (VNum (Int 1)) VUndef
               Mock.draft in
  let ev := last_event run.2 in
  hget (sent_heap ev) (sent_params ev) "Periodo" = VNum (Int 202304)
  ∧ hget (sent_heap ev) (sent_params ev) "Orden" = VNum (Int 1)
  ∧ run.1 = Ok (VRef 4).
Proof.
  intros run ev.
  assert (Hlast : last_exchanged Mock.draft run.2
                    (Soap "FECAEASolicitar" (sent_params ev) (sent_token ev)
                          (sent_heap ev) (Ok (VRef 6)) (received_heap ev))).
  { exists (st_trace run.2). split; [reflexivity|]. by vm_compute. }
  destruct (@CAEA_requests Mock.engine unit Mock.CUIT Mock.delegate
              (Mock.scripted Mock.happy) (VNum (Int 202304)) (VNum (Int 1)) VUndef Mock.draft
              _ "FECAEASolicitar" _ _ _ _ _ (list_elem_of_here _ _) Hlast)
    as (HPeriodo & HOrden & _ & Hresult).
  split; [exact HPeriodo|]. split; [exact HOrden|].
  etransitivity; [apply Hresult; by vm_compute|by vm_compute].
Defined.

(** X7: the sales points. *)
Lemma reference_getters_witness :
  let run := @ElectronicBilling.getSalesPoints Mock.engine unit Mock.CUIT Mock.delegate
               (Mock.scripted Mock.catalogue) VUndef Mock.draft in
  let ev := last_event run.2 in
  own_props (sent_heap ev) (sent_params ev) = {[ "Auth" := VRef 2 ]}
  ∧ run.1 = Ok (VRef 5)
  ∧ isArray (st_heap run.2) (VRef 5) = true.
Proof.
  intros run ev.
  assert (Hlast : last_exchanged Mock.draft run.2
                    (Soap "FEParamGetPtosVenta" (sent_params ev) (sent_token ev)
                          (sent_heap ev) (Ok (VRef 8)) (received_heap ev))).
  { exists (st_trace run.2). split; [reflexivity|]. by vm_compute. }
  destruct (@reference_getters Mock.engine unit Mock.CUIT Mock.delegate
              (Mock.scripted Mock.catalogue) _ "FEParamGetPtosVenta" "PtoVenta" VUndef
              Mock.draft _ _ _ _ _ (list_elem_of_here _ _) Hlast)
    as (Hparams & _ & Hresult).
  split; [exact Hparams|]. split; [|by vm_compute].
  etransitivity; [apply Hresult; by vm_compute|by vm_compute].
Defined.

(** X8: the voucher 1 of sales point 1, type 6. *)
Lemma getVoucherInfo_query_witness :
  let run := Mock.getVoucherInfo Mock.happy (VNum (Int 1)) (VNum (Int 1)) (VNum (Int 6)) VUndef
               Mock.draft in
  let ev := last_event run.2 in
  let req := hget (sent_heap ev) (sent_params ev) "FeCompConsReq" in
  hget (sent_heap ev) req "CbteNro" = VNum (Int 1)
  ∧ hget (sent_heap ev) req "PtoVta" = VNum (Int 1)
  ∧ hget (sent_heap ev) req "CbteTipo" = VNum (Int 6)
  ∧ run.1 = Ok (VRef 5).
Proof.
  intros run ev req.
  assert (Hlast : last_exchanged Mock.draft run.2
                    (Soap "FECompConsultar" (sent_params ev) (sent_token ev)
                          (sent_heap ev) (Ok (VRef 7)) (received_heap ev))).
  { exists (st_trace run.2). split; [reflexivity|]. by vm_compute. }
  destruct (@getVoucherInfo_query Mock.engine unit Mock.CUIT Mock.delegate
              (Mock.scripted Mock.happy) (VNum (Int 1)) (VNum (Int 1)) (VNum (Int 6)) VUndef
              Mock.draft _ _ _ _ _ Hlast) as (HCbteNro & HPtoVta & HCbteTipo & _ & Hresult).
  split; [exact HCbteNro|]. split; [exact HPtoVta|]. split; [exact HCbteTipo|].
  etransitivity; [apply Hresult; by vm_compute|by vm_compute].
Defined.

(** X10: a taxpayer looked up under the caller's credential. *)
Lemma getTaxpayerDetails_query_witness :
  let run := Mock.getTaxpayerDetails Mock.somebody (VNum (Int 20111111112)) Mock.credential
               Mock.caller in
  let ev := last_event run.2 in
  sent_token ev = VUndef
  ∧ hget (sent_heap ev) (sent_params ev) "cuitRepresentada" = Mock.CUIT
  ∧ hget (sent_heap ev) (sent_params ev) "idPersona" = VNum (Int 20111111112)
  ∧ hget (sent_heap ev) (sent_params ev) "token" = VStr "caller token"
  ∧ hget (sent_heap ev) (sent_params ev) "sign" = VStr "caller sign"
  ∧ ∀ service a, ¬ exchanged Mock.caller run.2 (GetTA service a).
Proof.
  intros run ev.
  assert (Hex : exchanged Mock.caller run.2
                  (Soap "getPersona" (sent_params ev) (sent_token ev) (sent_heap ev)
                        (answer_of ev) (received_heap ev))).
  { exists (st_trace run.2). split; [reflexivity|].
    apply list_elem_of_lookup. exists 0. by vm_compute. }
  exact (@getTaxpayerDetails_query unit Mock.CUIT Mock.delegate
           (Mock.scripted Mock.somebody) (VNum (Int 20111111112)) Mock.credential Mock.caller
           _ _ _ _ _ Hex).
Defined.

(** X11: the delegate refuses, with a message that says "No existe". *)
Lemma getTaxpayerDetails_delegate_failure_witness :
  (@RegisterScopeFour.getTaxpayerDetails unit Mock.CUIT Mock.refusing
     (Mock.scripted Mock.somebody) (VNum (Int 20111111112)) VUndef Mock.draft).1
  = Throw (Exn "No existe el servicio ws_sr_padron_a4" VUndef).
Proof.
  exact (f_equal fst
           (@getTaxpayerDetails_delegate_failure unit Mock.CUIT Mock.refusing
              (Mock.scripted Mock.somebody) (VNum (Int 20111111112)) VUndef Mock.draft
              _ tt eq_refl eq_refl)).
Defined.

(** X12: the registry answers without [personaReturn]. *)
Lemma getTaxpayerDetails_incomplete_answer_witness :
  (Mock.getTaxpayerDetails Mock.incomplete (VNum (Int 20111111112)) VUndef Mock.draft).1
  = Throw (TypeError "Cannot read properties of undefined (reading 'persona')").
Proof.
  set (run := Mock.getTaxpayerDetails Mock.incomplete (VNum (Int 20111111112)) VUndef
                Mock.draft).
  set (ev := last_event run.2).
  assert (Hlast : last_exchanged Mock.draft run.2
                    (Soap "getPersona" (sent_params ev) (sent_token ev) (sent_heap ev)
                          (Ok (VRef 3)) (received_heap ev))).
  { exists (st_trace run.2). split; [reflexivity|]. by vm_compute. }
  destruct (@getTaxpayerDetails_incomplete_answer unit Mock.CUIT Mock.delegate
              (Mock.scripted Mock.incomplete) (VNum (Int 20111111112)) VUndef Mock.draft
              _ _ _ _ _ Hlast eq_refl) as [Hmissing _].
  apply Hmissing. by vm_compute.
Defined.

(** X15: the header and the detail of the caller's voucher. *)
Lemma createVoucher_header_and_detail_witness :
  let run := Mock.createVoucher Mock.happy Mock.voucher VUndef VUndef Mock.caller in
  let ev := last_event run.2 in
  let hs := sent_heap ev in
  let header := hget hs (hget hs (sent_params ev) "FeCAEReq") "FeCabReq" in
  let detail := detail_of hs (sent_params ev) in
  hget hs header "PtoVta" = VNum (Int 1)
  ∧ hget hs header "CbteTipo" = VNum (Int 6)
  ∧ hget hs header "CantReg" = VNum (Int 1)
  ∧ own_props hs detail !! "PtoVta" = None
  ∧ own_props hs detail !! "CbteDesde" = Some (VNum (Int 11)).
Proof.
  intros run ev hs header detail.
  assert (Hex : exchanged Mock.caller run.2
                  (Soap "FECAESolicitar" (sent_params ev) (sent_token ev) hs
                        (answer_of ev) (received_heap ev))).
  { exists (st_trace run.2). split; [reflexivity|].
    apply list_elem_of_lookup. exists 1. by vm_compute. }
  destruct (@createVoucher_header_and_detail Mock.engine unit Mock.CUIT Mock.delegate
              (Mock.scripted Mock.happy) Mock.voucher VUndef VUndef Mock.caller
              _ _ _ _ _ Hex) as (HPtoVta & HCbteTipo & HCantReg & _ & Hheader & Hdetail).
  split; [exact HPtoVta|]. split; [exact HCbteTipo|].
  split.
  { apply (HCantReg 11%Z 11%Z); [reflexivity|reflexivity|lia|lia]. }
  split.
  { apply Hheader. apply (bool_decide_unpack _). by vm_compute. }
  etransitivity; [|by vm_compute].
  apply Hdetail; apply (bool_decide_unpack _); by vm_compute.
Defined.

(** X16: the voucher that carries its own credential. *)
Lemma createVoucher_credential_is_data_token_witness :
  let run := Mock.createVoucher Mock.happy Mock.voucher VUndef VUndef Mock.signed in
  let ev := last_event run.2 in
  let Auth := hget (sent_heap ev) (sent_params ev) "Auth" in
  sent_token ev = VRef 1
  ∧ hget (sent_heap ev) Auth "Cuit" = Mock.CUIT
  ∧ (hget (sent_heap ev) Auth "Token" = VStr "caller token"
     ∧ hget (sent_heap ev) Auth "Sign" = VStr "caller sign"
     ∧ ∀ service a, ¬ exchanged Mock.signed run.2 (GetTA service a)).
Proof.
  intros run ev Auth.
  assert (Hex : exchanged Mock.signed run.2
                  (Soap "FECAESolicitar" (sent_params ev) (sent_token ev) (sent_heap ev)
                        (answer_of ev) (received_heap ev))).
  { exists (st_trace run.2). split; [reflexivity|].
    apply list_elem_of_lookup. exists 0. by vm_compute. }
  assert (Hstore : ∀ l, hget (st_heap Mock.signed) Mock.voucher "token" = VRef l
                        → l < length (st_heap Mock.signed)).
  { intros l Hl. vm_compute in Hl. injection Hl as <-. cbn. lia. }
  exact (@createVoucher_credential_is_data_token Mock.engine unit Mock.CUIT Mock.delegate
           (Mock.scripted Mock.happy) Mock.voucher VUndef VUndef Mock.signed
           _ _ _ _ _ Hstore Hex).
Defined.

(** X17: the full response, with its one-element array replaced. *)
Lemma createVoucher_full_response_is_normalised_witness :
  let run := Mock.createVoucher Mock.happy Mock.voucher (VBool true) VUndef Mock.caller in
  let ev := last_event run.2 in
  let hr := received_heap ev in
  run.1 = Ok (VRef 16)
  ∧ hget (st_heap run.2) (VRef 15) "FECAEDetResponse"
    = first_if_array hr (hget hr (VRef 15) "FECAEDetResponse")
  ∧ isArray hr (hget hr (VRef 15) "FECAEDetResponse") = true
  ∧ isArray (st_heap run.2) (hget (st_heap run.2) (VRef 15) "FECAEDetResponse") = false.
Proof.
  intros run ev hr.
  assert (Hlast : last_exchanged Mock.caller run.2
                    (Soap "FECAESolicitar" (sent_params ev) (sent_token ev)
                          (sent_heap ev) (Ok (VRef 17)) hr)).
  { exists (st_trace run.2). split; [reflexivity|]. by vm_compute. }
  destruct (@createVoucher_full_response_is_normalised Mock.engine unit Mock.CUIT
              Mock.delegate (Mock.scripted Mock.happy) Mock.voucher (VBool true) VUndef
              Mock.caller _ _ _ (VRef 17) hr 16 15 Hlast eq_refl
              ltac:(by vm_compute) ltac:(by vm_compute) ltac:(by vm_compute)
              ltac:(by vm_compute) ltac:(by vm_compute))
    as (Hresult & Hdetail & _).
  split; [exact Hresult|]. split; [exact Hdetail|].
  split; by vm_compute.
Defined.

(** X18: a voucher approved without an expiry date. *)
Lemma createVoucher_missing_expiry_date_witness :
  (Mock.createVoucher Mock.undated Mock.voucher VUndef VUndef Mock.caller).1
  = Throw (TypeError "Cannot read properties of undefined (reading 'toString')").
Proof.
  set (run := Mock.createVoucher Mock.undated Mock.voucher VUndef VUndef Mock.caller).
  set (ev := last_event run.2).
  assert (Hlast : last_exchanged Mock.caller run.2
                    (Soap "FECAESolicitar" (sent_params ev) (sent_token ev)
                          (sent_heap ev) (Ok (VRef 16)) (received_heap ev))).
  { exists (st_trace run.2). split; [reflexivity|]. by vm_compute. }
  exact (@createVoucher_missing_expiry_date Mock.engine unit Mock.CUIT
           Mock.delegate (Mock.scripted Mock.undated) Mock.voucher VUndef VUndef
           Mock.caller _ _ _ (VRef 16) (received_heap ev) 15 14 Hlast eq_refl
           ltac:(by vm_compute) ltac:(by vm_compute) ltac:(by vm_compute)
           ltac:(by vm_compute) ltac:(by vm_compute) ltac:(by vm_compute)
           ltac:(by vm_compute)).
Defined.

(** X19: the last number comes back as the string "10". *)
Lemma createNextVoucher_adds_as_JavaScript_does_witness :
  let run := Mock.createNextVoucher Mock.stringly Mock.voucher VUndef Mock.draft in
  let ev := last_event run.2 in
  hget (sent_heap ev) (detail_of (sent_heap ev) (sent_params ev)) "CbteDesde" = VStr "101"
  ∧ hget (sent_heap ev) (detail_of (sent_heap ev) (sent_params ev)) "CbteHasta" = VStr "101"
  ∧ ∀ res, run.1 = Ok res → hget (st_heap run.2) res "voucherNumber" = VStr "101".
Proof.
  intros run ev.
  assert (Hex : exchanged Mock.draft run.2
                  (Soap "FECAESolicitar" (sent_params ev) (sent_token ev) (sent_heap ev)
                        (answer_of ev) (received_heap ev))).
  { exists (st_trace run.2). split; [reflexivity|].
    apply list_elem_of_lookup. exists 3. by vm_compute. }
  destruct (@createNextVoucher_adds_as_JavaScript_does Mock.engine unit Mock.CUIT
              Mock.delegate (Mock.scripted Mock.stringly) 0 VUndef Mock.draft
              Mock.draft_object (VStr "10")
              (Mock.getLastVoucher Mock.stringly (VNum (Int 1)) (VNum (Int 6)) VUndef
                 Mock.draft).2
              (VStr "101") eq_refl ltac:(by vm_compute) ltac:(by vm_compute))
    as (Hsent & Hresult & _).
  destruct (Hsent _ _ _ _ _ Hex) as [HDesde HHasta].
  split; [exact HDesde|]. split; [exact HHasta|exact Hresult].
Defined.

(** X20: the caller's draft is numbered 11 in place. *)
Lemma createNextVoucher_writes_into_data_witness :
  let run := Mock.createNextVoucher Mock.happy Mock.voucher VUndef Mock.draft in
  st_heap run.2 !! 0
  = Some (Obj false (<["CbteHasta" := VNum (Int 11)]>
                       (<["CbteDesde" := VNum (Int 11)]> (props Mock.draft_object)))).
Proof.
  exact (@createNextVoucher_writes_into_data Mock.engine unit Mock.CUIT
           Mock.delegate (Mock.scripted Mock.happy) 0 VUndef Mock.draft
           Mock.draft_object (VNum (Int 10))
           (Mock.getLastVoucher Mock.happy (VNum (Int 1)) (VNum (Int 6)) VUndef
              Mock.draft).2
           (VNum (Int 11)) eq_refl ltac:(by vm_compute) ltac:(by vm_compute)).
Defined.

(** X21: a date that is already hyphenated. *)
Lemma formatDate_without_eight_digits_witness :
  @ElectronicBilling.formatDate Mock.engine unit (VStr "2023-04-15") Mock.draft
  = (Ok (VStr "2023-04-15"), Mock.draft).
Proof.
  apply (@formatDate_without_eight_digits Mock.engine unit "2023-04-15" Mock.draft).
  right. intros i. do 11 (destruct i as [|i]; [reflexivity|]). reflexivity.
Defined.

(** X22: formatting the formatted date again. *)
Lemma formatDate_twice_witness :
  (once <- @ElectronicBilling.formatDate Mock.engine unit (VStr "20230415") ;;
   @ElectronicBilling.formatDate Mock.engine unit once) Mock.draft
  = (Ok (VStr "2023-04-15"), Mock.draft).
Proof.
  etransitivity.
  - exact (@formatDate_twice Mock.engine unit "20230415" Mock.draft eq_refl).
  - reflexivity.
Defined.

(** X23: a date followed by a time. *)
Lemma formatDate_leftmost_run_witness :
  @ElectronicBilling.formatDate Mock.engine unit (VStr "20230415T103000") Mock.draft
  = (Ok (VStr "2023-04-15T103000"), Mock.draft).
Proof.
  exact (@formatDate_leftmost_run Mock.engine unit "20230415" "T103000" Mock.draft
           eq_refl eq_refl).
Defined.
